(** * Tower firmware core: ring buffer, packet framing, flash storage

    A shallow embedding of the three core modules of the tower firmware
    ([FIFO.c], [UART.c], [packet.c], [Flash.c]) and the properties of the
    specification that concern them.

    Conventions.
    - C integers are [Z]; a conversion to an unsigned type of [w] bits is
      written out as [_ mod 2^w] ([uint8], [uint32]).
    - Bytes are [Z] in the range [0 .. 255] ([is_byte]).
    - C arrays are lists, read with stdpp's lookup and written with stdpp's
      insert.  Every index the firmware uses on a well-formed state is in
      range; out of range the model reads [0] and writes nothing
      ([array_get], [array_set]).
    - [EnterCritical]/[ExitCritical] only mask interrupts; they do not touch
      the data state and have no counterpart in the sequential model.
    - The headers [FIFO.h] and [Flash.h] are not among the sources.  Their
      constants [FIFO_SIZE], [FLASH_DATA_START] and [FLASH_SIZE] are section
      variables; the examples instantiate them.

    A second part embeds the code around the core: the interrupt handler,
    the polling routine and the initialisation of the serial port
    ([UART.c]), the clock ([RTC.c]) and the command handlers and the main
    loop of [main.c], with what they use of [LEDs.c] and [FTM.c].  There,
    device registers are cells that hold what was stored last, by the code
    or, between two calls, by the device. *)

From Stdlib Require Import ZArith Lia.
From stdpp Require Import base list.

Local Open Scope Z_scope.

(** ** Machine integers *)

Definition uint8 (x : Z) : Z := x mod 2 ^ 8.
Definition uint32 (x : Z) : Z := x mod 2 ^ 32.

Definition is_byte (b : Z) : Prop := 0 <= b < 256.

(** ** C arrays *)

(** [a[i]] as an rvalue and [a[i] = v], for an array of bytes [a]. *)
Definition array_get (a : list Z) (i : Z) : Z :=
  if i <? 0 then 0 else default 0 (a !! Z.to_nat i).

Definition array_set (a : list Z) (i : Z) (v : Z) : list Z :=
  if i <? 0 then a else <[Z.to_nat i := v]> a.

(** ** FIFO.c *)

(** The [TFIFO] structure.  [FIFO.h] is not among the sources: the field
    names are those [FIFO.c] uses, the capacity [FIFO_SIZE] is a parameter of
    the development, and the index fields are taken wide enough to hold
    [FIFO_SIZE], so that [NbBytes++] never wraps. *)
Record TFIFO : Type := mkTFIFO {
  Start : Z;
  End : Z;
  NbBytes : Z;
  Buffer : list Z
}.

Section FIFO.

Variable FIFO_SIZE : Z.

Definition FIFO_Init (F : TFIFO) : TFIFO :=
  mkTFIFO 0 0 0 (Buffer F).

(** [FIFO_Put]: the returned boolean is the C return value. *)
Definition FIFO_Put (F : TFIFO) (data : Z) : bool * TFIFO :=
  if NbBytes F <? FIFO_SIZE then
    (true,
     mkTFIFO (Start F)
             ((End F + 1) mod FIFO_SIZE)
             (NbBytes F + 1)
             (array_set (Buffer F) (End F) data))
  else (false, F).

(** [FIFO_Get]: [Some b] stands for "returns [true] and stores [b] through
    [dataPtr]"; [None] for "returns [false]", in which case the function
    does not write through [dataPtr]. *)
Definition FIFO_Get (F : TFIFO) : option Z * TFIFO :=
  if 0 <? NbBytes F then
    (Some (array_get (Buffer F) (Start F)),
     mkTFIFO ((Start F + 1) mod FIFO_SIZE)
             (End F)
             (NbBytes F - 1)
             (Buffer F))
  else (None, F).

(** A run of [FIFO_Put] calls, one per byte, with the results in order. *)
Fixpoint FIFO_PutAll (F : TFIFO) (bs : list Z) : list bool * TFIFO :=
  match bs with
  | [] => ([], F)
  | b :: bs' =>
      let '(r, F1) := FIFO_Put F b in
      let '(rs, F2) := FIFO_PutAll F1 bs' in
      (r :: rs, F2)
  end.

(** A run of [n] [FIFO_Get] calls, with the results in order. *)
Fixpoint FIFO_GetN (n : nat) (F : TFIFO) : list (option Z) * TFIFO :=
  match n with
  | O => ([], F)
  | S n' =>
      let '(r, F1) := FIFO_Get F in
      let '(rs, F2) := FIFO_GetN n' F1 in
      (r :: rs, F2)
  end.

(** The representation invariant of §3 of the specification. *)
Definition FIFO_wf (F : TFIFO) : Prop :=
  0 < FIFO_SIZE /\
  length (Buffer F) = Z.to_nat FIFO_SIZE /\
  0 <= Start F < FIFO_SIZE /\
  0 <= NbBytes F <= FIFO_SIZE /\
  End F = (Start F + NbBytes F) mod FIFO_SIZE.

(** The queue a ring buffer stands for: the [NbBytes] bytes from [Start]
    on, wrapping around the end of the array. *)
Definition FIFO_slot (F : TFIFO) (k : nat) : Z :=
  array_get (Buffer F) ((Start F + Z.of_nat k) mod FIFO_SIZE).

Definition FIFO_contents (F : TFIFO) : list Z :=
  map (FIFO_slot F) (seq 0 (Z.to_nat (NbBytes F))).

End FIFO.

(** ** UART.c and packet.c *)

(** Bit 7 of [UART2_C2] enables the transmit interrupt (the value of the
    device header's [UART_C2_TIE_MASK]). *)
Definition UART_C2_TIE_MASK : Z := 0x80.

(** The globals of [UART.c] (the two FIFOs, the control register the
    transmit path touches) and of [packet.c] (the five packet bytes and the
    static [ByteCount]). *)
Record Tower : Type := mkTower {
  RxFIFO : TFIFO;
  TxFIFO : TFIFO;
  UART2_C2 : Z;
  Packet_Command : Z;
  Packet_Parameter1 : Z;
  Packet_Parameter2 : Z;
  Packet_Parameter3 : Z;
  Packet_Checksum : Z;
  ByteCount : Z
}.

Definition set_RxFIFO (F : TFIFO) (st : Tower) : Tower :=
  mkTower F (TxFIFO st) (UART2_C2 st) (Packet_Command st)
          (Packet_Parameter1 st) (Packet_Parameter2 st) (Packet_Parameter3 st)
          (Packet_Checksum st) (ByteCount st).

Definition set_TxFIFO (F : TFIFO) (st : Tower) : Tower :=
  mkTower (RxFIFO st) F (UART2_C2 st) (Packet_Command st)
          (Packet_Parameter1 st) (Packet_Parameter2 st) (Packet_Parameter3 st)
          (Packet_Checksum st) (ByteCount st).

Definition set_UART2_C2 (v : Z) (st : Tower) : Tower :=
  mkTower (RxFIFO st) (TxFIFO st) v (Packet_Command st)
          (Packet_Parameter1 st) (Packet_Parameter2 st) (Packet_Parameter3 st)
          (Packet_Checksum st) (ByteCount st).

Definition set_Packet_Command (v : Z) (st : Tower) : Tower :=
  mkTower (RxFIFO st) (TxFIFO st) (UART2_C2 st) v
          (Packet_Parameter1 st) (Packet_Parameter2 st) (Packet_Parameter3 st)
          (Packet_Checksum st) (ByteCount st).

Definition set_Packet_Parameter1 (v : Z) (st : Tower) : Tower :=
  mkTower (RxFIFO st) (TxFIFO st) (UART2_C2 st) (Packet_Command st)
          v (Packet_Parameter2 st) (Packet_Parameter3 st)
          (Packet_Checksum st) (ByteCount st).

Definition set_Packet_Parameter2 (v : Z) (st : Tower) : Tower :=
  mkTower (RxFIFO st) (TxFIFO st) (UART2_C2 st) (Packet_Command st)
          (Packet_Parameter1 st) v (Packet_Parameter3 st)
          (Packet_Checksum st) (ByteCount st).

Definition set_Packet_Parameter3 (v : Z) (st : Tower) : Tower :=
  mkTower (RxFIFO st) (TxFIFO st) (UART2_C2 st) (Packet_Command st)
          (Packet_Parameter1 st) (Packet_Parameter2 st) v
          (Packet_Checksum st) (ByteCount st).

Definition set_Packet_Checksum (v : Z) (st : Tower) : Tower :=
  mkTower (RxFIFO st) (TxFIFO st) (UART2_C2 st) (Packet_Command st)
          (Packet_Parameter1 st) (Packet_Parameter2 st) (Packet_Parameter3 st)
          v (ByteCount st).

Definition set_ByteCount (v : Z) (st : Tower) : Tower :=
  mkTower (RxFIFO st) (TxFIFO st) (UART2_C2 st) (Packet_Command st)
          (Packet_Parameter1 st) (Packet_Parameter2 st) (Packet_Parameter3 st)
          (Packet_Checksum st) v.

(** [calculateChecksum]: the operands are promoted to [int], the result is
    converted back to [uint8_t]. *)
Definition calculateChecksum (command parameter1 parameter2 parameter3 : Z)
  : Z :=
  uint8 (Z.lxor (Z.lxor (Z.lxor command parameter1) parameter2) parameter3).

(** C's short-circuit [&&] on calls that return [bool] and change the
    state: the right operand runs only when the left one returned [true]. *)
Definition and_then (c1 c2 : Tower -> bool * Tower) : Tower -> bool * Tower :=
  fun st => let '(r, st1) := c1 st in if r then c2 st1 else (false, st1).

Infix "&&&" := and_then (at level 40, left associativity).

Section Packet.

Variable FIFO_SIZE : Z.

Definition UART_InChar (st : Tower) : option Z * Tower :=
  let '(r, F) := FIFO_Get FIFO_SIZE (RxFIFO st) in (r, set_RxFIFO F st).

Definition UART_OutChar (data : Z) (st : Tower) : bool * Tower :=
  let '(status, F) := FIFO_Put FIFO_SIZE (TxFIFO st) data in
  let st1 := set_TxFIFO F st in
  if status then
    (status, set_UART2_C2 (Z.lor (UART2_C2 st1) UART_C2_TIE_MASK) st1)
  else (status, st1).

(** What the receive interrupt does with a byte that has arrived:
    [FIFO_Put(&RxFIFO, UART2_D)] in [UART_ISR]. *)
Definition UART_receive (data : Z) (st : Tower) : Tower :=
  set_RxFIFO (snd (FIFO_Put FIFO_SIZE (RxFIFO st) data)) st.

(** [Packet_Get].  The [switch] has no [default]: any [ByteCount] other
    than 0..4 falls through to [ByteCount++]. *)
Definition Packet_Get (st : Tower) : bool * Tower :=
  match UART_InChar st with
  | (None, st1) => (false, st1)
  | (Some data, st1) =>
      if ByteCount st1 =? 0 then
        let st2 := set_Packet_Command data st1 in
        (false, set_ByteCount (ByteCount st2 + 1) st2)
      else if ByteCount st1 =? 1 then
        let st2 := set_Packet_Parameter1 data st1 in
        (false, set_ByteCount (ByteCount st2 + 1) st2)
      else if ByteCount st1 =? 2 then
        let st2 := set_Packet_Parameter2 data st1 in
        (false, set_ByteCount (ByteCount st2 + 1) st2)
      else if ByteCount st1 =? 3 then
        let st2 := set_Packet_Parameter3 data st1 in
        (false, set_ByteCount (ByteCount st2 + 1) st2)
      else if ByteCount st1 =? 4 then
        let st2 := set_Packet_Checksum data st1 in
        if calculateChecksum (Packet_Command st2) (Packet_Parameter1 st2)
             (Packet_Parameter2 st2) (Packet_Parameter3 st2)
           =? Packet_Checksum st2
        then (true, set_ByteCount 0 st2)
        else
          let st3 := set_Packet_Command (Packet_Parameter1 st2) st2 in
          let st4 := set_Packet_Parameter1 (Packet_Parameter2 st3) st3 in
          let st5 := set_Packet_Parameter2 (Packet_Parameter3 st4) st4 in
          let st6 := set_Packet_Parameter3 (Packet_Checksum st5) st5 in
          (false, st6)
      else (false, set_ByteCount (ByteCount st1 + 1) st1)
  end.

Definition Packet_Put (command parameter1 parameter2 parameter3 : Z)
  : Tower -> bool * Tower :=
  UART_OutChar command &&& UART_OutChar parameter1
    &&& UART_OutChar parameter2 &&& UART_OutChar parameter3
    &&& UART_OutChar
          (calculateChecksum command parameter1 parameter2 parameter3).

End Packet.

(** ** types.h: the unions that split integers into halves

    The target (an ARM Cortex-M4) is little-endian, so the member [s.Lo],
    which comes first in the structure, overlays the low-order half of [l]
    and [s.Hi] the high-order half. *)

Definition uint16union_Lo (l : Z) : Z := Z.land l 0xFF.
Definition uint16union_Hi (l : Z) : Z := Z.land (Z.shiftr l 8) 0xFF.
Definition uint32union_Lo (l : Z) : Z := Z.land l 0xFFFF.
Definition uint32union_Hi (l : Z) : Z := Z.land (Z.shiftr l 16) 0xFFFF.
Definition uint64union_Lo (l : Z) : Z := Z.land l 0xFFFFFFFF.
Definition uint64union_Hi (l : Z) : Z := Z.land (Z.shiftr l 32) 0xFFFFFFFF.

(** ** Flash.c *)

Definition PROGRAM_PHRASE_COMMAND : Z := 0x07.
Definition ERASE_FLASH_SECTOR_COMMAND : Z := 0x09.

(** Bit 7 of [FTFE_FSTAT] is the command-complete flag (the value of the
    device header's [FTFE_FSTAT_CCIF_MASK]). *)
Definition FTFE_FSTAT_CCIF_MASK : Z := 0x80.

Record TFCCOB : Type := mkTFCCOB {
  command : Z;
  data : list Z
}.

(** The flash module's world: the bytes of the data sector (the byte at
    address [FLASH_DATA_START + i] is element [i]), the controller's status
    register and its twelve command registers [FTFE_FCCOB0] .. [FTFE_FCCOBB],
    and the static [CommonCommandObject]. *)
Record Flash : Type := mkFlash {
  sector : list Z;
  FTFE_FSTAT : Z;
  FTFE_FCCOB : list Z;
  CommonCommandObject : TFCCOB
}.

Definition set_sector (s : list Z) (st : Flash) : Flash :=
  mkFlash s (FTFE_FSTAT st) (FTFE_FCCOB st) (CommonCommandObject st).

Definition set_FTFE_FCCOB (k : Z) (v : Z) (st : Flash) : Flash :=
  mkFlash (sector st) (FTFE_FSTAT st) (array_set (FTFE_FCCOB st) k v)
          (CommonCommandObject st).

Definition set_CommonCommandObject (o : TFCCOB) (st : Flash) : Flash :=
  mkFlash (sector st) (FTFE_FSTAT st) (FTFE_FCCOB st) o.

(** Calls that may never return: [None] is a busy-wait that does not end. *)
Definition FlashM (A : Type) : Type := Flash -> option (A * Flash).

Definition ret {A : Type} (a : A) : FlashM A := fun st => Some (a, st).

Definition bind {A B : Type} (c : FlashM A) (k : A -> FlashM B) : FlashM B :=
  fun st => match c st with
            | Some (a, st1) => k a st1
            | None => None
            end.

Definition modify (f : Flash -> Flash) : FlashM unit :=
  fun st => Some (tt, f st).

Notation "x <- c ;; k" := (bind c (fun x => k))
  (at level 100, c at next level, right associativity).
Notation "c ;;; k" := (bind c (fun _ => k))
  (at level 100, right associativity).

(** Modelled from the spec: the flash array is hardware.  It "supports only
    1->0 bit transitions without erase" (§4.3), so programming and-s each
    byte of [bs] into the array, from offset [off] on. *)
Fixpoint program_bytes (off : Z) (bs : list Z) (s : list Z) : list Z :=
  match bs with
  | [] => s
  | b :: bs' =>
      program_bytes (off + 1) bs'
        (array_set s off (Z.land (array_get s off) b))
  end.

Section Flash.

(** [Flash.h] is not among the sources: the address of the first byte of
    the data sector and the number of its bytes are parameters. *)
Variable FLASH_DATA_START : Z.
Variable FLASH_SIZE : Z.

(** [_FB(a)], a macro of the absent [Flash.h]: the sources use it for the
    byte of flash at address [a]. *)
Definition _FB (a : Z) (st : Flash) : Z :=
  array_get (sector st) (a - FLASH_DATA_START).

(** *** The controller

    The FTFE flash controller is hardware, not source.  Its model follows
    the contract of §4.3 of the specification and the comment on [FCCOB]
    at the head of [Flash.c].  It finishes a command within the register
    write that launches it, and no command fails. *)

(** Modelled from the spec: "a fixed base address" in the
    command-parameter interface, high byte in [FCCOB1]. *)
Definition FTFE_address (st : Flash) : Z :=
  array_get (FTFE_FCCOB st) 1 * 2 ^ 16
  + array_get (FTFE_FCCOB st) 2 * 2 ^ 8
  + array_get (FTFE_FCCOB st) 3.

(** Modelled from the spec: the 8-byte data phrase, "most-significant
    data in the lowest-numbered parameter slot".  The list is in the order
    of increasing flash address: each 32-bit half has its most significant
    byte, the one at the highest address, in its lowest-numbered register. *)
Definition FTFE_phrase (st : Flash) : list Z :=
  [ array_get (FTFE_FCCOB st) 7; array_get (FTFE_FCCOB st) 6;
    array_get (FTFE_FCCOB st) 5; array_get (FTFE_FCCOB st) 4;
    array_get (FTFE_FCCOB st) 11; array_get (FTFE_FCCOB st) 10;
    array_get (FTFE_FCCOB st) 9; array_get (FTFE_FCCOB st) 8 ].

(** Modelled from the spec: what the controller does when
    [FTFE_FSTAT = FTFE_FSTAT_CCIF_MASK] launches the command held in the
    registers.  Erase "returns the sector to the all-1-bits state", when
    the address lies in the sector; program writes the phrase at the
    address. *)
Definition FTFE_execute (st : Flash) : Flash :=
  let off := FTFE_address st - FLASH_DATA_START in
  if array_get (FTFE_FCCOB st) 0 =? ERASE_FLASH_SECTOR_COMMAND then
    if (0 <=? off) && (off <? FLASH_SIZE)
    then set_sector (replicate (length (sector st)) 0xFF) st
    else st
  else if array_get (FTFE_FCCOB st) 0 =? PROGRAM_PHRASE_COMMAND then
    set_sector (program_bytes off (FTFE_phrase st) (sector st)) st
  else st.

(** [while (!(FTFE_FSTAT & FTFE_FSTAT_CCIF_MASK));] The loop body is
    empty and the controller of the model is idle between commands, so the
    loop is left at once when the flag is set and never otherwise. *)
Definition CCIF_clear (fstat : Z) : bool :=
  Z.land fstat FTFE_FSTAT_CCIF_MASK =? 0.

Definition wait_CCIF : FlashM unit :=
  fun st => if CCIF_clear (FTFE_FSTAT st) then None else Some (tt, st).

(** *** The driver *)

Definition SetupCommand (commandCommonObject : TFCCOB) (c : Z) : TFCCOB :=
  mkTFCCOB c (data commandCommonObject).

(** [ProgramPhrase] reads the static [CommonCommandObject], whatever
    object [LaunchCommand] was given. *)
Definition ProgramPhrase : FlashM unit :=
  modify (fun st =>
    set_FTFE_FCCOB 4 (array_get (data (CommonCommandObject st)) 3) st) ;;;
  modify (fun st =>
    set_FTFE_FCCOB 5 (array_get (data (CommonCommandObject st)) 2) st) ;;;
  modify (fun st =>
    set_FTFE_FCCOB 6 (array_get (data (CommonCommandObject st)) 1) st) ;;;
  modify (fun st =>
    set_FTFE_FCCOB 7 (array_get (data (CommonCommandObject st)) 0) st) ;;;
  modify (fun st =>
    set_FTFE_FCCOB 8 (array_get (data (CommonCommandObject st)) 7) st) ;;;
  modify (fun st =>
    set_FTFE_FCCOB 9 (array_get (data (CommonCommandObject st)) 6) st) ;;;
  modify (fun st =>
    set_FTFE_FCCOB 10 (array_get (data (CommonCommandObject st)) 5) st) ;;;
  modify (fun st =>
    set_FTFE_FCCOB 11 (array_get (data (CommonCommandObject st)) 4) st).

Definition LaunchCommand (obj : TFCCOB) : FlashM bool :=
  wait_CCIF ;;;
  modify (set_FTFE_FCCOB 0 (command obj)) ;;;
  modify (set_FTFE_FCCOB 1 0x08) ;;;
  modify (set_FTFE_FCCOB 2 0x00) ;;;
  modify (set_FTFE_FCCOB 3 0x00) ;;;
  if command obj =? PROGRAM_PHRASE_COMMAND then
    ProgramPhrase ;;;
    modify FTFE_execute ;;;
    wait_CCIF ;;;
    ret true
  else if command obj =? ERASE_FLASH_SECTOR_COMMAND then
    modify FTFE_execute ;;;
    wait_CCIF ;;;
    ret true
  else ret false.

(** [FlashBackup]: the loop assigns [data[i] = _FB(FLASH_DATA_START+i)]
    for every [i] from [0] to [FLASH_SIZE - 1], that is all of [data]. *)
Definition FlashBackup : FlashM bool :=
  modify (fun st =>
    set_CommonCommandObject
      (mkTFCCOB (command (CommonCommandObject st))
                ((fun i => _FB (FLASH_DATA_START + i) st)
                   <$> seqZ 0 FLASH_SIZE))
      st) ;;;
  ret true.

(** [CommonCommandObject.data[i] = v;] *)
Definition store_data (i v : Z) : FlashM unit :=
  modify (fun st =>
    set_CommonCommandObject
      (mkTFCCOB (command (CommonCommandObject st))
                (array_set (data (CommonCommandObject st)) i v))
      st).

(** [Flash_Erase]: the command object is a local, whose [data] is not
    initialised and not read. *)
Definition Flash_Erase : FlashM bool :=
  LaunchCommand (SetupCommand (mkTFCCOB 0 []) ERASE_FLASH_SECTOR_COMMAND).

Definition setup_program : FlashM unit :=
  modify (fun st =>
    set_CommonCommandObject
      (SetupCommand (CommonCommandObject st) PROGRAM_PHRASE_COMMAND) st).

Definition launch_program : FlashM bool :=
  fun st => LaunchCommand (CommonCommandObject st) st.

(** [uint8_t index = (uint32_t) address - FLASH_DATA_START;] *)
Definition write_index (address : Z) : Z :=
  uint8 (uint32 (uint32 address - FLASH_DATA_START)).

Definition Flash_Write64 (address : Z) (data64 : Z) : FlashM bool :=
  let index := write_index address in
  if (index <? 0) || (index >=? FLASH_SIZE) || negb (index mod 8 =? 0)
  then ret false
  else
    setup_program ;;;
    status <- FlashBackup ;;
    let data32UnionHi := uint64union_Hi data64 in
    let data32UnionLo := uint64union_Lo data64 in
    let data16UnionHiHi := uint32union_Hi data32UnionHi in
    let data16UnionHiLo := uint32union_Lo data32UnionHi in
    let data16UnionLoHi := uint32union_Hi data32UnionLo in
    let data16UnionLoLo := uint32union_Lo data32UnionLo in
    store_data index (uint16union_Lo data16UnionLoLo) ;;;
    store_data (index + 1) (uint16union_Hi data16UnionLoLo) ;;;
    store_data (index + 2) (uint16union_Lo data16UnionLoHi) ;;;
    store_data (index + 3) (uint16union_Hi data16UnionLoHi) ;;;
    store_data (index + 4) (uint16union_Lo data16UnionHiLo) ;;;
    store_data (index + 5) (uint16union_Hi data16UnionHiLo) ;;;
    store_data (index + 6) (uint16union_Lo data16UnionHiHi) ;;;
    store_data (index + 7) (uint16union_Hi data16UnionHiHi) ;;;
    erased <- Flash_Erase ;;
    launched <- launch_program ;;
    ret (status && erased && launched).

Definition Flash_Write32 (address : Z) (data32 : Z) : FlashM bool :=
  let index := write_index address in
  if (index <? 0) || (index >=? FLASH_SIZE) || negb (index mod 4 =? 0)
  then ret false
  else
    setup_program ;;;
    status <- FlashBackup ;;
    let dataUnionHi := uint32union_Hi data32 in
    let dataUnionLo := uint32union_Lo data32 in
    store_data index (uint16union_Lo dataUnionLo) ;;;
    store_data (index + 1) (uint16union_Hi dataUnionLo) ;;;
    store_data (index + 2) (uint16union_Lo dataUnionHi) ;;;
    store_data (index + 3) (uint16union_Hi dataUnionHi) ;;;
    erased <- Flash_Erase ;;
    launched <- launch_program ;;
    ret (status && erased && launched).

Definition Flash_Write16 (address : Z) (data16 : Z) : FlashM bool :=
  let index := write_index address in
  if (index <? 0) || (index >=? FLASH_SIZE) || negb (index mod 2 =? 0)
  then ret false
  else
    setup_program ;;;
    status <- FlashBackup ;;
    store_data index (uint16union_Lo data16) ;;;
    store_data (index + 1) (uint16union_Hi data16) ;;;
    erased <- Flash_Erase ;;
    launched <- launch_program ;;
    ret (status && erased && launched).

Definition Flash_Write8 (address : Z) (data8 : Z) : FlashM bool :=
  let index := write_index address in
  if (index <? 0) || (index >=? FLASH_SIZE)
  then ret false
  else
    setup_program ;;;
    status <- FlashBackup ;;
    store_data index data8 ;;;
    erased <- Flash_Erase ;;
    launched <- launch_program ;;
    ret (status && erased && launched).

(** *** The allocator *)

(** The inner loop of [Flash_AllocateVar],
    [for (int j = 1; j < size; j++)], entered at [j] with the current
    [addressFound]; the result is [addressFound] when the loop is left.
    [fuel] bounds the number of tests of the loop condition. *)
Fixpoint Flash_AllocateVar_check (st : Flash) (size i : Z) (fuel : nat)
    (j : Z) (addressFound : bool) : option bool :=
  match fuel with
  | O => None
  | S fuel' =>
      if j <? size then
        if (i + j >=? FLASH_SIZE)
           || negb (_FB (FLASH_DATA_START + (i + j)) st =? 0xFF)
        then Some false
        else Flash_AllocateVar_check st size i fuel' (j + 1) addressFound
      else Some addressFound
  end.

(** The outer loop, [for (int i = 0; i < FLASH_SIZE; i += size)], entered
    at [i]; the result is the pair of [addressFound] and [addressIndex]
    when the loop is left. *)
Fixpoint Flash_AllocateVar_scan (st : Flash) (size : Z) (fuel : nat)
    (i : Z) (addressFound : bool) (addressIndex : Z) : option (bool * Z) :=
  match fuel with
  | O => None
  | S fuel' =>
      if i <? FLASH_SIZE then
        if _FB (FLASH_DATA_START + i) st =? 0xFF then
          match Flash_AllocateVar_check st size i (Z.to_nat size) 1
                  addressFound with
          | None => None
          | Some found =>
              if found then Some (found, uint8 i)
              else Flash_AllocateVar_scan st size fuel' (i + size)
                     found addressIndex
          end
        else Flash_AllocateVar_scan st size fuel' (i + size)
               addressFound addressIndex
      else Some (addressFound, addressIndex)
  end.

(** [Flash_AllocateVar(variable, size)]: [variable] is the value of
    [*variable] at the call; the result is the returned boolean and the
    value of [*variable] at the return.  [None] would be a loop that runs
    out of fuel; [Flash_AllocateVar_total] shows there is none. *)
Definition Flash_AllocateVar (variable : Z) (size : Z) (st : Flash)
  : option (bool * Z) :=
  let addressFound := true in
  let addressIndex := uint8 (-1) in
  if (size =? 1) || (size =? 2) || (size =? 4) then
    match Flash_AllocateVar_scan st size (S (Z.to_nat FLASH_SIZE)) 0
            addressFound addressIndex with
    | None => None
    | Some (found, index) =>
        if found then Some (true, uint32 (FLASH_DATA_START + index))
        else Some (false, variable)
    end
  else Some (false, variable).

(** *** The four writes as one family *)

Inductive width : Type := W8 | W16 | W32 | W64.

Definition width_bytes (w : width) : Z :=
  match w with W8 => 1 | W16 => 2 | W32 => 4 | W64 => 8 end.

Definition Flash_Write (w : width) : Z -> Z -> FlashM bool :=
  match w with
  | W8 => Flash_Write8
  | W16 => Flash_Write16
  | W32 => Flash_Write32
  | W64 => Flash_Write64
  end.

(** Byte [k] of [v], counting from the least significant one. *)
Definition byte_of (v : Z) (k : Z) : Z := Z.land (Z.shiftr v (8 * k)) 0xFF.

(** What the specification asks of a sector: [FLASH_SIZE] bytes. *)
Definition sector_wf (st : Flash) : Prop :=
  length (sector st) = Z.to_nat FLASH_SIZE /\
  Forall is_byte (sector st).

(** The controller is idle and its twelve command registers exist. *)
Definition FTFE_ready (st : Flash) : Prop :=
  CCIF_clear (FTFE_FSTAT st) = false /\
  length (FTFE_FCCOB st) = 12%nat.

End Flash.

(** ** Auxiliary definitions for the statements *)

(** The [n] low-order bytes of [v] stored from offset [o] on, least
    significant byte first. *)
Fixpoint store_le (n : nat) (o v : Z) (s : list Z) : list Z :=
  match n with
  | O => s
  | S n' => store_le n' (o + 1) (Z.shiftr v 8) (array_set s o (Z.land v 0xFF))
  end.

(** ** Concrete states for the examples *)

(** A four-byte ring buffer, empty, with its indices in the middle of the
    array, and a full one. *)
Definition fifo4_empty : TFIFO := mkTFIFO 2 2 0 [0; 0; 0; 0].
Definition fifo4_full : TFIFO := mkTFIFO 1 1 4 [10; 20; 30; 40].

(** An eight-byte receive buffer that holds a whole frame for the bytes
    [0x0B 0x01 0x26 0x81] after one byte of an earlier exchange. *)
Definition fifo8_frame : TFIFO :=
  mkTFIFO 1 6 5 [0; 0x0B; 0x01; 0x26; 0x81; 0xAD; 0; 0].

(** An eight-byte receive buffer with the two bytes [9] and [7] waiting. *)
Definition fifo8_two : TFIFO := mkTFIFO 0 2 2 [9; 7; 0; 0; 0; 0; 0; 0].

Definition fifo8_empty : TFIFO := mkTFIFO 3 3 0 [0; 0; 0; 0; 0; 0; 0; 0].

(** A transmit buffer of 256 bytes with two free places. *)
Definition fifo256_two_free : TFIFO := mkTFIFO 0 254 254 (replicate 256 0).

(** The tower waiting for the first byte of a frame. *)
Definition tower_start (rx tx : TFIFO) : Tower :=
  mkTower rx tx 0 0 0 0 0 0 0.

(** The tower holding the four bytes [1 2 3 4] and waiting for a checksum. *)
Definition tower_await_checksum (rx tx : TFIFO) : Tower :=
  mkTower rx tx 0 1 2 3 4 0 4.

(** An eight-byte sector at [0x80000] with an idle controller. *)
Definition flash8 (s : list Z) : Flash :=
  mkFlash s FTFE_FSTAT_CCIF_MASK (replicate 12 0) (mkTFCCOB 0 (replicate 8 0)).

(** * The rest of the firmware *)

(** ** Runs of ring-buffer calls *)

(** One call on a ring buffer and what it returns. *)
Inductive FIFO_op : Type :=
| Op_Put (data : Z)
| Op_Get.

Inductive FIFO_result : Type :=
| Res_Put (ok : bool)
| Res_Get (r : option Z).

Section FIFO_runs.

Variable FIFO_SIZE : Z.

(** The calls of [ops] made in order on [F]. *)
Fixpoint FIFO_run (F : TFIFO) (ops : list FIFO_op)
  : list FIFO_result * TFIFO :=
  match ops with
  | [] => ([], F)
  | Op_Put b :: ops' =>
      let '(r, F1) := FIFO_Put FIFO_SIZE F b in
      let '(rs, F2) := FIFO_run F1 ops' in
      (Res_Put r :: rs, F2)
  | Op_Get :: ops' =>
      let '(r, F1) := FIFO_Get FIFO_SIZE F in
      let '(rs, F2) := FIFO_run F1 ops' in
      (Res_Get r :: rs, F2)
  end.

End FIFO_runs.

(** The contract of §4.1 of the specification, on a plain list: [put]
    appends iff fewer than [capacity] bytes are held, [get] removes the
    first byte iff there is one. *)
Fixpoint queue_run (capacity : nat) (q : list Z) (ops : list FIFO_op)
  : list FIFO_result * list Z :=
  match ops with
  | [] => ([], q)
  | Op_Put b :: ops' =>
      if (length q <? capacity)%nat then
        let '(rs, q') := queue_run capacity (q ++ [b]) ops' in
        (Res_Put true :: rs, q')
      else
        let '(rs, q') := queue_run capacity q ops' in
        (Res_Put false :: rs, q')
  | Op_Get :: ops' =>
      match q with
      | [] =>
          let '(rs, q') := queue_run capacity [] ops' in
          (Res_Get None :: rs, q')
      | b :: q1 =>
          let '(rs, q') := queue_run capacity q1 ops' in
          (Res_Get (Some b) :: rs, q')
      end
  end.

(** ** UART.c: the interrupt handler and the polling routine *)

(** Bits of [UART2_C2] and [UART2_S1] (the values of the device header's
    masks). *)
Definition UART_C2_RIE_MASK : Z := 0x20.
Definition UART_S1_RDRF_MASK : Z := 0x20.
Definition UART_S1_TDRE_MASK : Z := 0x80.

(** The module's globals together with the status and the data register
    of the UART.  [UART2_S1] is a cell.  [UART2_D] is two registers at one
    address: a read yields the byte received last, [UART2_D]; a write loads
    the transmitter, and [transmitted] lists the bytes written so far,
    oldest first. *)
Record Serial : Type := mkSerial {
  serial_tower : Tower;
  UART2_S1 : Z;
  UART2_D : Z;
  transmitted : list Z
}.

(** [reg &= ~mask] on an 8-bit register. *)
Definition clear_bits8 (reg mask : Z) : Z := uint8 (Z.land reg (Z.lnot mask)).

(** [reg & mask] as a condition. *)
Definition bits_set (reg mask : Z) : bool := negb (Z.land reg mask =? 0).

Section UART_handlers.

Variable FIFO_SIZE : Z.

(** The receive half of [UART_ISR]. *)
Definition UART_ISR_receive (s : Serial) : Serial :=
  if bits_set (UART2_C2 (serial_tower s)) UART_C2_RIE_MASK then
    if bits_set (UART2_S1 s) UART_S1_RDRF_MASK then
      let S1 := clear_bits8 (UART2_S1 s) UART_S1_RDRF_MASK in
      let input := UART2_D s in
      let '(_, F) := FIFO_Put FIFO_SIZE (RxFIFO (serial_tower s)) input in
      mkSerial (set_RxFIFO F (serial_tower s)) S1 (UART2_D s) (transmitted s)
    else s
  else s.

(** The transmit half of [UART_ISR]. *)
Definition UART_ISR_transmit (s : Serial) : Serial :=
  if bits_set (UART2_C2 (serial_tower s)) UART_C2_TIE_MASK then
    if bits_set (UART2_S1 s) UART_S1_TDRE_MASK then
      let S1 := clear_bits8 (UART2_S1 s) UART_S1_TDRE_MASK in
      match FIFO_Get FIFO_SIZE (TxFIFO (serial_tower s)) with
      | (Some data, F) =>
          mkSerial (set_TxFIFO F (serial_tower s)) S1 (UART2_D s)
                   (transmitted s ++ [data])
      | (None, F) =>
          let t := set_TxFIFO F (serial_tower s) in
          mkSerial
            (set_UART2_C2 (clear_bits8 (UART2_C2 t) UART_C2_TIE_MASK) t)
            S1 (UART2_D s) (transmitted s)
      end
    else s
  else s.

Definition UART_ISR (s : Serial) : Serial :=
  UART_ISR_transmit (UART_ISR_receive s).

(** [UART_Poll]: both flags are read before anything is done. *)
Definition UART_Poll (s : Serial) : Serial :=
  let readyToRead := bits_set (UART2_S1 s) UART_S1_RDRF_MASK in
  let readyToTransmit := bits_set (UART2_S1 s) UART_S1_TDRE_MASK in
  let s1 :=
    if readyToRead then
      let input := UART2_D s in
      let '(_, F) := FIFO_Put FIFO_SIZE (RxFIFO (serial_tower s)) input in
      mkSerial (set_RxFIFO F (serial_tower s)) (UART2_S1 s) (UART2_D s)
               (transmitted s)
    else s in
  if readyToTransmit then
    match FIFO_Get FIFO_SIZE (TxFIFO (serial_tower s1)) with
    | (Some data, F) =>
        mkSerial (set_TxFIFO F (serial_tower s1)) (UART2_S1 s1) (UART2_D s1)
                 (transmitted s1 ++ [data])
    | (None, F) =>
        mkSerial (set_TxFIFO F (serial_tower s1)) (UART2_S1 s1) (UART2_D s1)
                 (transmitted s1)
    end
  else s1.

(** What the UART does between two interrupts: a byte arrives, which sets
    [RDRF], or the transmitter takes the byte it was given, which sets
    [TDRE]. *)
Inductive UART_event : Type :=
| Byte_arrives (b : Z)
| Transmitter_empty.

Definition UART_signal (e : UART_event) (s : Serial) : Serial :=
  match e with
  | Byte_arrives b =>
      mkSerial (serial_tower s) (Z.lor (UART2_S1 s) UART_S1_RDRF_MASK) b
               (transmitted s)
  | Transmitter_empty =>
      mkSerial (serial_tower s) (Z.lor (UART2_S1 s) UART_S1_TDRE_MASK)
               (UART2_D s) (transmitted s)
  end.

(** The interrupt handler run once after each event of [es]. *)
Fixpoint UART_ISR_run (es : list UART_event) (s : Serial) : Serial :=
  match es with
  | [] => s
  | e :: es' => UART_ISR_run es' (UART_ISR (UART_signal e s))
  end.

(** The bytes that arrive in [es], and the number of times the transmitter
    asks for a byte. *)
Fixpoint arrivals (es : list UART_event) : list Z :=
  match es with
  | [] => []
  | Byte_arrives b :: es' => b :: arrivals es'
  | Transmitter_empty :: es' => arrivals es'
  end.

Fixpoint requests (es : list UART_event) : nat :=
  match es with
  | [] => O
  | Byte_arrives _ :: es' => requests es'
  | Transmitter_empty :: es' => S (requests es')
  end.

(** [n] calls of [Packet_Get], with the results in order. *)
Fixpoint Packet_Get_times (n : nat) (st : Tower) : list bool * Tower :=
  match n with
  | O => ([], st)
  | S n' =>
      let '(r, st1) := Packet_Get FIFO_SIZE st in
      let '(rs, st2) := Packet_Get_times n' st1 in
      (r :: rs, st2)
  end.

End UART_handlers.

(** ** RTC.c *)

(** Bits of [RTC_SR] (the values of the device header's masks). *)
Definition RTC_SR_TIF_MASK : Z := 0x1.
Definition RTC_SR_TOF_MASK : Z := 0x2.
Definition RTC_SR_TCE_MASK : Z := 0x10.

(** The header's field macros [RTC_TPR_TPR] and [RTC_TSR_TSR]: the value,
    cut to the width of the register field. *)
Definition RTC_TPR_TPR (x : Z) : Z := Z.land (uint32 x) 0xFFFF.
Definition RTC_TSR_TSR (x : Z) : Z := Z.land (uint32 x) 0xFFFFFFFF.

(** The three registers of the real-time clock that [RTC_Set] and [RTC_Get]
    use, as cells. *)
Record RTC : Type := mkRTC {
  RTC_SR : Z;
  RTC_TPR : Z;
  RTC_TSR : Z
}.

(** [reg &= ~mask] and [reg |= mask] on a 32-bit register. *)
Definition clear_bits32 (reg mask : Z) : Z :=
  uint32 (Z.land reg (Z.lnot mask)).

Definition set_bits32 (reg mask : Z) : Z := uint32 (Z.lor reg mask).

Definition RTC_Set (hours minutes seconds : Z) (r : RTC) : RTC :=
  let totalSeconds := uint32 (hours * 3600 + minutes * 60 + seconds) in
  let SR1 := clear_bits32 (RTC_SR r) RTC_SR_TOF_MASK in
  let SR2 := clear_bits32 SR1 RTC_SR_TIF_MASK in
  let SR3 := clear_bits32 SR2 RTC_SR_TCE_MASK in
  let TPR := RTC_TPR_TPR 0xFFFF in
  let TSR := RTC_TSR_TSR (uint32 (totalSeconds - 1)) in
  let SR4 := set_bits32 SR3 RTC_SR_TCE_MASK in
  mkRTC SR4 TPR TSR.

(** [RTC_Get]: the result is the triple stored through [hours], [minutes]
    and [seconds], each a [uint8_t]. *)
Definition RTC_Get (r : RTC) : (Z * Z * Z) * RTC :=
  let totalSeconds := RTC_TSR r in
  let SR1 := clear_bits32 (RTC_SR r) RTC_SR_TOF_MASK in
  let SR2 := clear_bits32 SR1 RTC_SR_TIF_MASK in
  let SR3 := clear_bits32 SR2 RTC_SR_TCE_MASK in
  let hours := uint8 (totalSeconds / 3600) in
  let minutes := uint8 (uint32 (totalSeconds - hours * 3600) / 60) in
  let seconds := uint8 (totalSeconds mod 60) in
  let SR4 := set_bits32 SR3 RTC_SR_TCE_MASK in
  ((hours, minutes, seconds), mkRTC SR4 (RTC_TPR r) (RTC_TSR r)).

(** ** UART.c: initialisation *)

Definition uint16 (x : Z) : Z := x mod 2 ^ 16.

(** [reg |= mask] on an 8-bit register. *)
Definition set_bits8 (reg mask : Z) : Z := uint8 (Z.lor reg mask).

(** Further masks and field macros of the device header, by their
    values. *)
Definition SIM_SCGC4_UART2_MASK : Z := 0x1000.
Definition SIM_SCGC5_PORTE_MASK : Z := 0x2000.
Definition UART_C2_TE_MASK : Z := 0x8.
Definition UART_C2_RE_MASK : Z := 0x4.
Definition UART_C1_M_MASK : Z := 0x10.
Definition UART_C1_PE_MASK : Z := 0x2.
Definition UART_C4_BRFA_MASK : Z := 0x1F.
Definition PORT_PCR_MUX (x : Z) : Z := Z.land (Z.shiftl (uint32 x) 8) 0x700.
Definition UART_BDH_SBR (x : Z) : Z := Z.land (uint8 x) 0x1F.
Definition UART_C4_BRFA (x : Z) : Z := Z.land (uint8 x) 0x1F.

(** The globals of [UART.c] and [packet.c] together with the other
    registers [UART_Init] writes, as cells. *)
Record Port : Type := mkPort {
  port_tower : Tower;
  SIM_SCGC4 : Z;
  SIM_SCGC5 : Z;
  UART2_C1 : Z;
  UART2_C4 : Z;
  UART2_BDH : Z;
  UART2_BDL : Z;
  PORTE_PCR16 : Z;
  PORTE_PCR17 : Z;
  NVICICPR1 : Z;
  NVICISER1 : Z
}.

(** [UART_Init].  The two divisions are by [baudRate * 16], computed in 32
    bits; where that is zero the C program has no defined behaviour, and
    the model has no result. *)
Definition UART_Init (baudRate moduleClk : Z) (p : Port)
  : option (bool * Port) :=
  let t := port_tower p in
  let t1 := set_RxFIFO (FIFO_Init (RxFIFO t)) t in
  let t2 := set_TxFIFO (FIFO_Init (TxFIFO t1)) t1 in
  let SCGC4 := set_bits32 (SIM_SCGC4 p) SIM_SCGC4_UART2_MASK in
  let SCGC5 := set_bits32 (SIM_SCGC5 p) SIM_SCGC5_PORTE_MASK in
  let C2a := clear_bits8 (UART2_C2 t2) UART_C2_TE_MASK in
  let C2b := clear_bits8 C2a UART_C2_RE_MASK in
  let C1a := clear_bits8 (UART2_C1 p) UART_C1_M_MASK in
  let C1b := clear_bits8 C1a UART_C1_PE_MASK in
  let PCR16 := set_bits32 (PORTE_PCR16 p) (PORT_PCR_MUX 3) in
  let PCR17 := set_bits32 (PORTE_PCR17 p) (PORT_PCR_MUX 3) in
  if uint32 (baudRate * 16) =? 0 then None
  else
    let baudRateDivisor := uint16 (moduleClk / uint32 (baudRate * 16)) in
    let C4a := clear_bits8 (UART2_C4 p) UART_C4_BRFA_MASK in
    let BDH :=
      set_bits8 (UART2_BDH p) (UART_BDH_SBR (uint16union_Hi baudRateDivisor)) in
    let BDL := uint16union_Lo baudRateDivisor in
    let bfra :=
      uint16 (uint32 (uint32 (moduleClk * 32) / uint32 (baudRate * 16)
                      - baudRateDivisor * 32)) in
    let C4b := set_bits8 C4a (UART_C4_BRFA bfra) in
    let C2c := clear_bits8 C2b UART_C2_TIE_MASK in
    let C2d := set_bits8 C2c UART_C2_RIE_MASK in
    let ICPR1 := set_bits32 (NVICICPR1 p) (Z.shiftl 1 17) in
    let ISER1 := set_bits32 (NVICISER1 p) (Z.shiftl 1 17) in
    let C2e := set_bits8 C2d UART_C2_TE_MASK in
    let C2f := set_bits8 C2e UART_C2_RE_MASK in
    Some (true,
          mkPort (set_UART2_C2 C2f t2) SCGC4 SCGC5 C1b C4b BDH BDL
                 PCR16 PCR17 ICPR1 ISER1).

(** [Packet_Init] of [packet.c]. *)
Definition Packet_Init (baudRate moduleClk : Z) (p : Port)
  : option (bool * Port) :=
  UART_Init baudRate moduleClk p.

(** ** LEDs.c and FTM.c, as far as the packet handler uses them *)

(** [LED_BLUE] of [LEDs.h]. *)
Definition LED_BLUE : Z := Z.shiftl 1 10.

(** [GPIOA_PCOR |= color;] on the cell that stands for the register. *)
Definition LEDs_On (color : Z) (GPIOA_PCOR : Z) : Z :=
  set_bits32 GPIOA_PCOR color.

(** The functions and the objects whose addresses the firmware stores in
    callback structures. *)
Inductive function_pointer : Type :=
| no_function
| FTM_Callback.

Inductive object_pointer : Type :=
| no_object
| LED_CALLBACK_FTM_BLUE_LED_OFF.

Record Callback : Type := mkCallback {
  callbackFunction : function_pointer;
  callbackArguments : object_pointer
}.

(** [TTimerFunction] and [TTimerOutputAction] of [FTM.h], by their values. *)
Definition TIMER_FUNCTION_OUTPUT_COMPARE : Z := 1.
Definition TIMER_OUTPUT_DISCONNECT : Z := 0.

Record TFTMChannel : Type := mkTFTMChannel {
  channelNb : Z;
  delayCount : Z;
  timerFunction : Z;
  ioType : Z;
  userFunction : function_pointer;
  userArguments : object_pointer
}.

(** Fields of [FTM0_CnSC] and [FTM0_SC] (the values of the device
    header). *)
Definition FTM_CnSC_ELSA_MASK : Z := 0x4.
Definition FTM_CnSC_ELSA_SHIFT : Z := 2.
Definition FTM_CnSC_ELSB_MASK : Z := 0x8.
Definition FTM_CnSC_MSA_MASK : Z := 0x10.
Definition FTM_CnSC_MSA_SHIFT : Z := 4.
Definition FTM_CnSC_MSB_MASK : Z := 0x20.
Definition FTM_CnSC_CHIE_MASK : Z := 0x40.
Definition FTM_SC_CLKS (x : Z) : Z := Z.land (Z.shiftl (uint32 x) 3) 0x18.
Definition FIXED_FREQ_CLK : Z := 2.

(** The registers of the timer that [FTM_Set] and [FTM_StartTimer] use, as
    cells (the counter [FTM0_CNT] does not advance within a call), and the
    static [Callbacks]. *)
Record FTM : Type := mkFTM {
  FTM0_CnSC : list Z;
  FTM0_CnV : list Z;
  FTM0_CNT : Z;
  FTM0_SC : Z;
  Callbacks : list Callback
}.

Definition or_CnSC (n : Z) (v : Z) (t : FTM) : FTM :=
  mkFTM (array_set (FTM0_CnSC t) n (set_bits32 (array_get (FTM0_CnSC t) n) v))
        (FTM0_CnV t) (FTM0_CNT t) (FTM0_SC t) (Callbacks t).

Definition set_CnV (n : Z) (v : Z) (t : FTM) : FTM :=
  mkFTM (FTM0_CnSC t) (array_set (FTM0_CnV t) n (uint32 v))
        (FTM0_CNT t) (FTM0_SC t) (Callbacks t).

Definition FTM_Set (aFTMChannel : TFTMChannel) (t : FTM) : FTM :=
  let n := uint8 (channelNb aFTMChannel) in
  let t1 :=
    mkFTM (FTM0_CnSC t) (FTM0_CnV t) (FTM0_CNT t) (FTM0_SC t)
          (<[Z.to_nat n := mkCallback (userFunction aFTMChannel)
                                      (userArguments aFTMChannel)]>
             (Callbacks t)) in
  if timerFunction aFTMChannel =? TIMER_FUNCTION_OUTPUT_COMPARE then
    let t2 :=
      or_CnSC n (Z.land FTM_CnSC_MSA_MASK
                   (Z.shiftl (timerFunction aFTMChannel) FTM_CnSC_MSA_SHIFT))
              t1 in
    let t3 :=
      or_CnSC n (Z.land FTM_CnSC_MSB_MASK
                   (Z.shiftl (timerFunction aFTMChannel) FTM_CnSC_MSA_SHIFT))
              t2 in
    let t4 :=
      or_CnSC n (Z.land FTM_CnSC_ELSA_MASK
                   (Z.shiftl (ioType aFTMChannel) FTM_CnSC_ELSA_SHIFT))
              t3 in
    let t5 :=
      or_CnSC n (Z.land FTM_CnSC_ELSB_MASK
                   (Z.shiftl (ioType aFTMChannel) FTM_CnSC_ELSA_SHIFT))
              t4 in
    set_CnV n (FTM0_CNT t5 + delayCount aFTMChannel) t5
  else t1.

Definition FTM_StartTimer (aFTMChannel : TFTMChannel) (t : FTM) : FTM :=
  let n := uint8 (channelNb aFTMChannel) in
  let t1 := set_CnV n (FTM0_CNT t + delayCount aFTMChannel) t in
  let t2 := or_CnSC n FTM_CnSC_CHIE_MASK t1 in
  mkFTM (FTM0_CnSC t2) (FTM0_CnV t2) (FTM0_CNT t2)
        (set_bits32 (FTM0_SC t2) (FTM_SC_CLKS FIXED_FREQ_CLK))
        (Callbacks t2).

(** ** main.c *)

(** [enum Commands]. *)
Definition TOWER_STARTUP : Z := 0x04.
Definition SPECIAL_GET_STARTUP_VALUES : Z := 0x04.
Definition FLASH_PROGRAM_BYTE : Z := 0x07.
Definition FLASH_READ_BYTE : Z := 0x08.
Definition SPECIAL : Z := 0x09.
Definition PROTOCOL_MODE : Z := 0x0A.
Definition TOWER_NUMBER : Z := 0x0B.
Definition TIME : Z := 0x0C.
Definition SET_TIME : Z := 0x0C.
Definition TOWER_MODE : Z := 0x0D.
Definition PRINT_FLASH : Z := 0x55.

Definition CR : Z := 0x0D.
Definition TOWER_DEFAULT_NUMBER : Z := 0x8126.
Definition TOWER_DEFAULT_MODE : Z := 0x0001.

(** [PACKET_ACK_MASK] of [packet.c]. *)
Definition PACKET_ACK_MASK : Z := 128.

(** The character constants ['v'], ['x'] and ['^']. *)
Definition char_v : Z := 118.
Definition char_x : Z := 120.
Definition char_caret : Z := 94.

(** [static uint16union_t TowerVersion = { .s = { 0, 1 } }], never
    assigned: [s.Lo] is [0] and [s.Hi] is [1]. *)
Definition TowerVersion_Lo : Z := 0.
Definition TowerVersion_Hi : Z := 1.

(** The [l] member of a [uint16union_t] whose [s.Lo] and [s.Hi] are
    given. *)
Definition uint16union_l (Lo Hi : Z) : Z := Z.lor Lo (Z.shiftl Hi 8).

(** Everything [main.c] works on: the globals of the modules it calls, the
    register [GPIOA_PCOR], and its own statics [TowerNumber] and [TowerMode]
    (pointers into flash, as addresses) and [Command]. *)
Record App : Type := mkApp {
  app_tower : Tower;
  app_flash : Flash;
  app_rtc : RTC;
  app_ftm : FTM;
  GPIOA_PCOR : Z;
  TowerNumber : Z;
  TowerMode : Z;
  Command : Z
}.

Definition set_app_tower (t : Tower) (a : App) : App :=
  mkApp t (app_flash a) (app_rtc a) (app_ftm a) (GPIOA_PCOR a)
        (TowerNumber a) (TowerMode a) (Command a).

Definition set_app_flash (f : Flash) (a : App) : App :=
  mkApp (app_tower a) f (app_rtc a) (app_ftm a) (GPIOA_PCOR a)
        (TowerNumber a) (TowerMode a) (Command a).

Definition set_app_rtc (r : RTC) (a : App) : App :=
  mkApp (app_tower a) (app_flash a) r (app_ftm a) (GPIOA_PCOR a)
        (TowerNumber a) (TowerMode a) (Command a).

Definition set_app_ftm (t : FTM) (a : App) : App :=
  mkApp (app_tower a) (app_flash a) (app_rtc a) t (GPIOA_PCOR a)
        (TowerNumber a) (TowerMode a) (Command a).

Definition set_GPIOA_PCOR (v : Z) (a : App) : App :=
  mkApp (app_tower a) (app_flash a) (app_rtc a) (app_ftm a) v
        (TowerNumber a) (TowerMode a) (Command a).

Definition set_TowerNumber (p : Z) (a : App) : App :=
  mkApp (app_tower a) (app_flash a) (app_rtc a) (app_ftm a) (GPIOA_PCOR a)
        p (TowerMode a) (Command a).

Definition set_TowerMode (p : Z) (a : App) : App :=
  mkApp (app_tower a) (app_flash a) (app_rtc a) (app_ftm a) (GPIOA_PCOR a)
        (TowerNumber a) p (Command a).

Definition set_Command (c : Z) (a : App) : App :=
  mkApp (app_tower a) (app_flash a) (app_rtc a) (app_ftm a) (GPIOA_PCOR a)
        (TowerNumber a) (TowerMode a) c.

(** A handler may call the flash driver, whose waits may never end:
    [None] is a call that does not return. *)
Definition AppM (A : Type) : Type := App -> option (A * App).

(** A call into [packet.c] and a call into [Flash.c]. *)
Definition with_tower (c : Tower -> bool * Tower) : AppM bool :=
  fun a => let '(r, t) := c (app_tower a) in Some (r, set_app_tower t a).

Definition with_flash {A : Type} (c : FlashM A) : AppM A :=
  fun a => match c (app_flash a) with
           | Some (r, f) => Some (r, set_app_flash f a)
           | None => None
           end.

Section main.

Variable FIFO_SIZE : Z.
Variable FLASH_DATA_START : Z.
Variable FLASH_SIZE : Z.

(** Further constants of absent headers: the address of the last byte of
    the data sector ([Flash.h]) and the frequency of the timer's clock
    ([Cpu.h]). *)
Variable FLASH_DATA_END : Z.
Variable CPU_MCGFF_CLK_HZ_CONFIG_0 : Z.

Definition FLASH_TOWER_NUM_ADDR : Z := FLASH_DATA_START.
Definition FLASH_TOWER_MODE_ADDR : Z := FLASH_TOWER_NUM_ADDR + 2.

(** [_FH(a)], a macro of the absent [Flash.h]: the half-word of flash at
    address [a], low-order byte first. *)
Definition _FH (a : Z) (f : Flash) : Z :=
  Z.lor (_FB FLASH_DATA_START a f)
        (Z.shiftl (_FB FLASH_DATA_START (a + 1) f) 8).

(** [static const TFTMChannel Channel0]; [delayCount] is a [uint16_t]. *)
Definition Channel0 : TFTMChannel :=
  mkTFTMChannel 0 (CPU_MCGFF_CLK_HZ_CONFIG_0 mod 2 ^ 16)
                TIMER_FUNCTION_OUTPUT_COMPARE TIMER_OUTPUT_DISCONNECT
                FTM_Callback LED_CALLBACK_FTM_BLUE_LED_OFF.

(** The body of [PrintFlash]'s loop,
    [for (uint32_t i = FLASH_DATA_START; i <= FLASH_DATA_END; i++)],
    entered at [i].  [fuel] bounds the number of tests of the condition. *)
Fixpoint PrintFlash_loop (fuel : nat) (i : Z) (a : App) : option App :=
  match fuel with
  | O => None
  | S fuel' =>
      if i <=? FLASH_DATA_END then
        let '(_, t) :=
          Packet_Put FIFO_SIZE FLASH_READ_BYTE 0
            (uint8 (uint32 (i - FLASH_DATA_START)))
            (_FB FLASH_DATA_START i (app_flash a)) (app_tower a) in
        PrintFlash_loop fuel' (uint32 (i + 1)) (set_app_tower t a)
      else Some a
  end.

(** [PrintFlash].  A loop that ends tests its condition for the values
    [FLASH_DATA_START .. FLASH_DATA_END + 1] of [i] at most. *)
Definition PrintFlash : AppM unit :=
  fun a =>
    let '(_, t) :=
      Packet_Put FIFO_SIZE FLASH_READ_BYTE char_v char_v char_v
                 (app_tower a) in
    match PrintFlash_loop
            (S (Z.to_nat (FLASH_DATA_END + 1 - FLASH_DATA_START)))
            (uint32 FLASH_DATA_START) (set_app_tower t a) with
    | None => None
    | Some a1 =>
        let '(_, t1) :=
          Packet_Put FIFO_SIZE FLASH_READ_BYTE char_caret char_caret
                     char_caret (app_tower a1) in
        Some (tt, set_app_tower t1 a1)
    end.

(** [TowerNumber->s.Lo] and [TowerNumber->s.Hi], and the same for
    [TowerMode]: the bytes of flash the pointer leads to. *)
Definition pointee_Lo (p : Z) (a : App) : Z :=
  _FB FLASH_DATA_START p (app_flash a).

Definition pointee_Hi (p : Z) (a : App) : Z :=
  _FB FLASH_DATA_START (p + 1) (app_flash a).

Definition HandleTowerStartup : AppM bool :=
  fun a =>
    let t := app_tower a in
    if (Packet_Parameter1 t =? 0) && (Packet_Parameter2 t =? 0)
       && (Packet_Parameter3 t =? 0)
    then
      let status := true in
      with_tower
        (fun t =>
           let '(r, t1) :=
             (Packet_Put FIFO_SIZE TOWER_STARTUP 0 0 0
              &&& Packet_Put FIFO_SIZE SPECIAL char_v
                    TowerVersion_Hi TowerVersion_Lo
              &&& Packet_Put FIFO_SIZE TOWER_NUMBER 1
                    (pointee_Lo (TowerNumber a) a)
                    (pointee_Hi (TowerNumber a) a)
              &&& Packet_Put FIFO_SIZE TOWER_MODE 1
                    (pointee_Lo (TowerMode a) a)
                    (pointee_Hi (TowerMode a) a)) t in
           (status && r, t1)) a
    else Some (false, a).

(** [Command] is an [enum], [Packet_Put]'s parameter a [uint8_t]. *)
Definition HandleTowerGetVersion : AppM bool :=
  fun a =>
    with_tower (Packet_Put FIFO_SIZE (uint8 (Command a)) char_v
                           TowerVersion_Hi TowerVersion_Lo) a.

(** The block that [HandleTowerNumber], [HandleTowerMode] and [Flash_Init]
    run on an erased slot, for the pointer [P] read by [get_P] and assigned
    by [set_P]:
    [if (Flash_AllocateVar(&P, 2)) status &= Flash_Write16(P, value);
     else status = false;] *)
Definition allocate_default (get_P : App -> Z) (set_P : Z -> App -> App)
    (value : Z) (status : bool) : AppM bool :=
  fun a =>
    match Flash_AllocateVar FLASH_DATA_START FLASH_SIZE (get_P a) 2
                            (app_flash a) with
    | None => None
    | Some (allocated, p) =>
        let a1 := set_P p a in
        if allocated then
          match with_flash
                  (Flash_Write16 FLASH_DATA_START FLASH_SIZE (get_P a1) value)
                  a1 with
          | None => None
          | Some (written, a2) => Some (status && written, a2)
          end
        else Some (false, a1)
    end.

(** The other block of the two setters:
    [uint16union_t new = { .s.Lo = Packet_Parameter2, .s.Hi = Packet_Parameter3 };
     status &= Flash_Write16(P, new.l);] *)
Definition write_parameters (get_P : App -> Z) (status : bool) : AppM bool :=
  fun a =>
    let l := uint16union_l (Packet_Parameter2 (app_tower a))
                           (Packet_Parameter3 (app_tower a)) in
    match with_flash
            (Flash_Write16 FLASH_DATA_START FLASH_SIZE (get_P a) l) a with
    | None => None
    | Some (written, a1) => Some (status && written, a1)
    end.

Definition HandleTowerNumber : AppM bool :=
  fun a =>
    let t := app_tower a in
    if (Packet_Parameter1 t =? 1) && (Packet_Parameter2 t =? 0)
       && (Packet_Parameter3 t =? 0)
    then
      with_tower (Packet_Put FIFO_SIZE (uint8 (Command a)) 1
                             (pointee_Lo (TowerNumber a) a)
                             (pointee_Hi (TowerNumber a) a)) a
    else if Packet_Parameter1 t =? 2 then
      let status := true in
      if _FH FLASH_TOWER_NUM_ADDR (app_flash a) =? 0xFFFF then
        allocate_default TowerNumber set_TowerNumber TOWER_DEFAULT_NUMBER
                         status a
      else write_parameters TowerNumber status a
    else Some (false, a).

Definition HandleTowerMode : AppM bool :=
  fun a =>
    let t := app_tower a in
    if Packet_Parameter1 t =? 0x01 then
      with_tower (Packet_Put FIFO_SIZE (uint8 (Command a)) 0x01
                             (pointee_Lo (TowerMode a) a)
                             (pointee_Hi (TowerMode a) a)) a
    else if Packet_Parameter1 t =? 0x02 then
      let status := true in
      if _FH FLASH_TOWER_MODE_ADDR (app_flash a) =? 0xFFFF then
        allocate_default TowerMode set_TowerMode TOWER_DEFAULT_MODE status a
      else write_parameters TowerMode status a
    else Some (false, a).

Definition Flash_Init : AppM bool :=
  fun a =>
    let status := true in
    match
      (if _FH FLASH_TOWER_NUM_ADDR (app_flash a) =? 0xFFFF then
         allocate_default TowerNumber set_TowerNumber TOWER_DEFAULT_NUMBER
                          status a
       else Some (status, a))
    with
    | None => None
    | Some (status1, a1) =>
        if _FH FLASH_TOWER_MODE_ADDR (app_flash a1) =? 0xFFFF then
          allocate_default TowerMode set_TowerMode TOWER_DEFAULT_MODE
                           status1 a1
        else Some (status1, a1)
    end.

Definition HandleFlashProgramByte : AppM bool :=
  fun a =>
    let t := app_tower a in
    if (Packet_Parameter1 t >=? 0x00) && (Packet_Parameter1 t <? 0x08) then
      with_flash (Flash_Write8 FLASH_DATA_START FLASH_SIZE
                    (FLASH_DATA_START + Packet_Parameter1 t)
                    (Packet_Parameter3 t)) a
    else if Packet_Parameter1 t =? 0x08 then
      match with_flash (Flash_Erase FLASH_DATA_START FLASH_SIZE) a with
      | None => None
      | Some (status, a1) =>
          match Flash_Init a1 with
          | None => None
          | Some (initialised, a2) => Some (status && initialised, a2)
          end
      end
    else Some (false, a).

Definition HandleFlashReadByte : AppM bool :=
  fun a =>
    let t := app_tower a in
    if (Packet_Parameter1 t >=? 0) && (Packet_Parameter1 t <? FLASH_SIZE) then
      with_tower (Packet_Put FIFO_SIZE (uint8 (Command a))
                    (Packet_Parameter1 t) 0
                    (_FB FLASH_DATA_START
                         (FLASH_DATA_START + Packet_Parameter1 t)
                         (app_flash a))) a
    else Some (false, a).

Definition HandleSpecial : AppM bool :=
  fun a =>
    let t := app_tower a in
    if (Packet_Parameter1 t =? char_v) && (Packet_Parameter2 t =? char_x)
       && (Packet_Parameter3 t =? CR)
    then HandleTowerGetVersion a
    else Some (false, a).

Definition HandleTime : AppM bool :=
  fun a =>
    let t := app_tower a in
    if ((Packet_Parameter1 t >=? 0) && (Packet_Parameter1 t <=? 23))
       && ((Packet_Parameter2 t >=? 0) && (Packet_Parameter2 t <=? 59))
       && ((Packet_Parameter3 t >=? 0) && (Packet_Parameter3 t <=? 59))
    then
      if (Packet_Parameter1 t =? 0) && (Packet_Parameter2 t =? 0)
         && (Packet_Parameter3 t =? 0)
      then Some (false, a)
      else
        Some (true,
              set_app_rtc (RTC_Set (Packet_Parameter1 t) (Packet_Parameter2 t)
                                   (Packet_Parameter3 t) (app_rtc a)) a)
    else Some (false, a).

Definition PacketSuccess (a : App) : App :=
  let a1 := set_GPIOA_PCOR (LEDs_On LED_BLUE (GPIOA_PCOR a)) a in
  let a2 := set_app_ftm (FTM_Set Channel0 (app_ftm a1)) a1 in
  set_app_ftm (FTM_StartTimer Channel0 (app_ftm a2)) a2.

(** The [switch] of [HandlePacket]: the handler's result, or the [success]
    the function starts with for [PRINT_FLASH] and for a command that no
    [case] names. *)
Definition dispatch (success : bool) : AppM bool :=
  fun a =>
    if Command a =? SPECIAL_GET_STARTUP_VALUES then HandleTowerStartup a
    else if Command a =? SPECIAL then HandleSpecial a
    else if Command a =? TOWER_NUMBER then HandleTowerNumber a
    else if Command a =? TOWER_MODE then HandleTowerMode a
    else if Command a =? FLASH_PROGRAM_BYTE then HandleFlashProgramByte a
    else if Command a =? FLASH_READ_BYTE then HandleFlashReadByte a
    else if Command a =? TIME then HandleTime a
    else if Command a =? PRINT_FLASH then
      match PrintFlash a with
      | None => None
      | Some (_, a1) => Some (success, a1)
      end
    else Some (success, a).

(** What [HandlePacket] does once [Packet_Get] has returned [true]: the
    body of its [if]. *)
Definition HandlePacket_body : AppM unit :=
  fun a1 =>
    let a2 :=
      set_Command
        (Z.land (Packet_Command (app_tower a1)) (Z.lnot PACKET_ACK_MASK))
        a1 in
    let ACK :=
      bits_set (Packet_Command (app_tower a2)) PACKET_ACK_MASK in
    match dispatch true a2 with
    | None => None
    | Some (success, a3) =>
        let a4 := if success then PacketSuccess a3 else a3 in
        if ACK then
          let '(_, t5) :=
            Packet_Put FIFO_SIZE
              (uint8 (Z.lor (Z.shiftl (Z.b2z success) 7) (Command a4)))
              (Packet_Parameter1 (app_tower a4))
              (Packet_Parameter2 (app_tower a4))
              (Packet_Parameter3 (app_tower a4))
              (app_tower a4) in
          Some (tt, set_app_tower t5 a4)
        else Some (tt, a4)
    end.

Definition HandlePacket : AppM unit :=
  fun a =>
    let '(received, t) := Packet_Get FIFO_SIZE (app_tower a) in
    let a1 := set_app_tower t a in
    if received then HandlePacket_body a1 else Some (tt, a1).

(** [n] rounds of the main loop, [for (;;) HandlePacket();]. *)
Fixpoint HandlePacket_times (n : nat) : AppM unit :=
  fun a =>
    match n with
    | O => Some (tt, a)
    | S n' =>
        match HandlePacket a with
        | None => None
        | Some (_, a1) => HandlePacket_times n' a1
        end
    end.

End main.

(** ** Further auxiliary definitions for the statements *)

(** What no call of [Packet_Put] changes. *)
Definition same_packet (st st' : Tower) : Prop :=
  RxFIFO st' = RxFIFO st /\
  Packet_Command st' = Packet_Command st /\
  Packet_Parameter1 st' = Packet_Parameter1 st /\
  Packet_Parameter2 st' = Packet_Parameter2 st /\
  Packet_Parameter3 st' = Packet_Parameter3 st /\
  Packet_Checksum st' = Packet_Checksum st /\
  ByteCount st' = ByteCount st.

(** The state of the flash module that the handlers rely on: an
    eight-byte sector and an idle controller. *)
Definition flash_ok (a : App) : Prop :=
  sector_wf 8 (app_flash a) /\ FTFE_ready (app_flash a).

(** The four packets of the start-up report. *)
Definition startup_report (a : App) : list Z :=
  [TOWER_STARTUP; 0; 0; 0; calculateChecksum TOWER_STARTUP 0 0 0;
   SPECIAL; char_v; TowerVersion_Hi; TowerVersion_Lo;
   calculateChecksum SPECIAL char_v TowerVersion_Hi TowerVersion_Lo;
   TOWER_NUMBER; 1;
   _FB 0x80000 (TowerNumber a) (app_flash a);
   _FB 0x80000 (TowerNumber a + 1) (app_flash a);
   calculateChecksum TOWER_NUMBER 1
     (_FB 0x80000 (TowerNumber a) (app_flash a))
     (_FB 0x80000 (TowerNumber a + 1) (app_flash a));
   TOWER_MODE; 1;
   _FB 0x80000 (TowerMode a) (app_flash a);
   _FB 0x80000 (TowerMode a + 1) (app_flash a);
   calculateChecksum TOWER_MODE 1
     (_FB 0x80000 (TowerMode a) (app_flash a))
     (_FB 0x80000 (TowerMode a + 1) (app_flash a))].

(** What no handler changes: the packet being handled, the receive queue
    and [Command]. *)
Definition same_request (a a' : App) : Prop :=
  same_packet (app_tower a) (app_tower a') /\ Command a' = Command a.

(** The packet [PrintFlash] sends for the byte at offset [j]. *)
Definition dump_packet (FLASH_DATA_START : Z) (f : Flash) (j : Z) : list Z :=
  [FLASH_READ_BYTE; 0; uint8 j;
   _FB FLASH_DATA_START (FLASH_DATA_START + j) f;
   calculateChecksum FLASH_READ_BYTE 0 (uint8 j)
     (_FB FLASH_DATA_START (FLASH_DATA_START + j) f)].


(** ** Further concrete states for the examples *)

(** A port with both interrupts enabled and no flag pending; its receive
    queue is empty and its transmit queue holds the bytes [9] and [7]. *)
Definition serial8 : Serial :=
  mkSerial (mkTower fifo8_empty fifo8_two 0xA0 0 0 0 0 0 0) 0 0 [].

(** The same port with a byte received and the transmitter empty. *)
Definition serial8_pending : Serial :=
  mkSerial (mkTower fifo8_empty fifo8_two 0xA0 0 0 0 0 0 0) 0xA0 0x41 [].

(** The two ends of a link: a sender with nothing queued and a receiver
    that waits for the first byte of a frame. *)
Definition serial8_sender : Serial :=
  mkSerial (tower_start fifo8_empty fifo8_empty) 0 0 [].

Definition serial8_receiver : Serial :=
  mkSerial (mkTower fifo8_empty fifo8_empty 0x20 0 0 0 0 0 0) 0 0 [].

(** Empty queues of 32 and 64 places. *)
Definition fifo32_empty : TFIFO := mkTFIFO 0 0 0 (replicate 32 0).
Definition fifo64_empty : TFIFO := mkTFIFO 0 0 0 (replicate 64 0).

(** A receive queue of eight places that holds the frame of the bytes
    [c], [p1], [p2] and [p3]. *)
Definition fifo8_request (c p1 p2 p3 : Z) : TFIFO :=
  mkTFIFO 0 5 5 [c; p1; p2; p3; calculateChecksum c p1 p2 p3; 0; 0; 0].

(** The timer after reset. *)
Definition ftm_reset : FTM :=
  mkFTM (replicate 8 0) (replicate 8 0) 0 0
        (replicate 8 (mkCallback no_function no_object)).

(** The application with the tower [t] and the sector [s], its pointers
    at the two half-words that [Flash_Init] hands out. *)
Definition app8 (t : Tower) (s : list Z) : App :=
  mkApp t (flash8 s) (mkRTC 0 0 0) ftm_reset 0 0x80000 0x80002 0.

(** A tower that holds the request [c], [p1], [p2], [p3], with transmit
    queue [tx]. *)
Definition tower_request (tx : TFIFO) (c p1 p2 p3 : Z) : Tower :=
  mkTower fifo8_empty tx 0x20 c p1 p2 p3 (calculateChecksum c p1 p2 p3) 0.

(** A sector as [Flash_Init] leaves it, and an erased one. *)
Definition sector_defaults : list Z :=
  [0x26; 0x81; 0x01; 0x00; 0xFF; 0xFF; 0xFF; 0xFF].

Definition sector_erased : list Z := replicate 8 0xFF.

(** A port before [UART_Init], its queues in use. *)
Definition port_reset : Port :=
  mkPort (tower_start fifo8_two fifo8_two) 0 0 0 0 0 0 0 0 0 0.

(** * Properties *)

(** ** Arrays *)

Lemma array_get_set_eq (a : list Z) i v :
  0 <= i -> (Z.to_nat i < length a)%nat -> array_get (array_set a i v) i = v.
Proof.
  intros Hi Hl. unfold array_get, array_set.
  destruct (Z.ltb_spec i 0); [lia|].
  by rewrite list_lookup_insert_eq.
Qed.

Lemma array_get_set_ne (a : list Z) i j v :
  0 <= i -> 0 <= j -> i <> j -> array_get (array_set a i v) j = array_get a j.
Proof.
  intros Hi Hj Hne. unfold array_get, array_set.
  destruct (Z.ltb_spec i 0); [lia|].
  destruct (Z.ltb_spec j 0); [lia|].
  rewrite list_lookup_insert_ne; [done|lia].
Qed.

Lemma length_array_set (a : list Z) i v : length (array_set a i v) = length a.
Proof. unfold array_set. destruct (i <? 0); [done|apply length_insert]. Qed.

Lemma array_set_ext (a b : list Z) i j x y :
  a = b -> i = j -> x = y -> array_set a i x = array_set b j y.
Proof. by intros -> -> ->. Qed.

Lemma Forall_array_set (P : Z -> Prop) s i b :
  Forall P s -> P b -> Forall P (array_set s i b).
Proof.
  intros Hs Hb. unfold array_set. destruct (i <? 0); [done|].
  by apply Forall_insert.
Qed.

(** ** The ring buffer *)

Section FIFO_facts.

Variable FIFO_SIZE : Z.

(** Two different offsets below the capacity land in different slots. *)
Lemma mod_add_inj s k n :
  0 < FIFO_SIZE -> 0 <= k < FIFO_SIZE -> 0 <= n < FIFO_SIZE -> k <> n ->
  (s + k) mod FIFO_SIZE <> (s + n) mod FIFO_SIZE.
Proof.
  intros HS Hk Hn Hne Heq.
  assert (H: ((s + k) - (s + n)) mod FIFO_SIZE = 0).
  { rewrite Zminus_mod, Heq, Z.sub_diag. apply Z.mod_0_l. lia. }
  replace (s + k - (s + n)) with (k - n) in H by lia.
  apply Z.mod_divide in H; [|lia].
  destruct H as [q Hq].
  assert (Hq3 : q = 0 \/ 1 <= q \/ q <= -1) by lia.
  destruct Hq3 as [->|[Hq1|Hq1]]; nia.
Qed.

Lemma FIFO_Init_wf F :
  0 < FIFO_SIZE -> length (Buffer F) = Z.to_nat FIFO_SIZE ->
  FIFO_wf FIFO_SIZE (FIFO_Init F) /\ NbBytes (FIFO_Init F) = 0.
Proof.
  intros HS Hlen. unfold FIFO_wf, FIFO_Init. simpl.
  rewrite Z.mod_0_l by lia. repeat split; lia.
Qed.

Lemma FIFO_contents_length F :
  length (FIFO_contents FIFO_SIZE F) = Z.to_nat (NbBytes F).
Proof. unfold FIFO_contents. by rewrite length_map, length_seq. Qed.

Lemma FIFO_contents_empty F : NbBytes F = 0 -> FIFO_contents FIFO_SIZE F = [].
Proof. intros H. unfold FIFO_contents. by rewrite H. Qed.

(** A put into a buffer that is not full appends to the queue. *)
Lemma FIFO_Put_ok F b :
  FIFO_wf FIFO_SIZE F -> NbBytes F < FIFO_SIZE ->
  exists F', FIFO_Put FIFO_SIZE F b = (true, F') /\
    FIFO_wf FIFO_SIZE F' /\
    NbBytes F' = NbBytes F + 1 /\
    FIFO_contents FIFO_SIZE F' = FIFO_contents FIFO_SIZE F ++ [b].
Proof.
  intros (HS & Hlen & Hst & Hnb & Hend) Hlt.
  unfold FIFO_Put. destruct (Z.ltb_spec (NbBytes F) FIFO_SIZE); [|lia].
  eexists; split; [reflexivity|].
  assert (Hend_rng : 0 <= End F < FIFO_SIZE)
    by (rewrite Hend; apply Z.mod_pos_bound; lia).
  split; [|split].
  - unfold FIFO_wf; simpl. rewrite length_array_set.
    repeat split; try lia.
    rewrite Hend, Zplus_mod_idemp_l. f_equal; lia.
  - reflexivity.
  - unfold FIFO_contents; simpl.
    replace (Z.to_nat (NbBytes F + 1)) with (Z.to_nat (NbBytes F) + 1)%nat
      by lia.
    rewrite seq_app, map_app. simpl. f_equal.
    + apply map_ext_in. intros k Hk%in_seq. unfold FIFO_slot; simpl.
      apply array_get_set_ne; try lia.
      * apply Z.mod_pos_bound; lia.
      * rewrite Hend. intros Heq. symmetry in Heq. revert Heq.
        apply mod_add_inj; lia.
    + unfold FIFO_slot; simpl. f_equal.
      rewrite Z2Nat.id by lia. rewrite <- Hend.
      apply array_get_set_eq; lia.
Qed.

(** A get from a buffer that is not empty takes the head of the queue. *)
Lemma FIFO_Get_ok F :
  FIFO_wf FIFO_SIZE F -> 0 < NbBytes F ->
  exists b l F', FIFO_contents FIFO_SIZE F = b :: l /\
    FIFO_Get FIFO_SIZE F = (Some b, F') /\
    FIFO_wf FIFO_SIZE F' /\
    NbBytes F' = NbBytes F - 1 /\
    FIFO_contents FIFO_SIZE F' = l.
Proof.
  intros (HS & Hlen & Hst & Hnb & Hend) Hlt.
  unfold FIFO_Get. destruct (Z.ltb_spec 0 (NbBytes F)); [|lia].
  unfold FIFO_contents.
  replace (Z.to_nat (NbBytes F)) with (S (Z.to_nat (NbBytes F - 1))) by lia.
  simpl seq. simpl map.
  do 3 eexists. split; [reflexivity|]. split.
  - f_equal. f_equal. unfold FIFO_slot. simpl. f_equal.
    rewrite Z.add_0_r. symmetry. apply Z.mod_small. lia.
  - split; [|split].
    + unfold FIFO_wf; simpl. repeat split; try lia.
      * apply Z.mod_pos_bound; lia.
      * apply Z.mod_pos_bound; lia.
      * rewrite Hend, Zplus_mod_idemp_l. f_equal; lia.
    + reflexivity.
    + simpl. rewrite <- seq_shift, map_map.
      apply map_ext. intros k. unfold FIFO_slot; simpl.
      rewrite Zplus_mod_idemp_l. f_equal. f_equal. lia.
Qed.

Lemma FIFO_PutAll_ok bs : forall F,
  FIFO_wf FIFO_SIZE F ->
  NbBytes F + Z.of_nat (length bs) <= FIFO_SIZE ->
  exists F', FIFO_PutAll FIFO_SIZE F bs = (map (fun _ => true) bs, F') /\
    FIFO_wf FIFO_SIZE F' /\
    NbBytes F' = NbBytes F + Z.of_nat (length bs) /\
    FIFO_contents FIFO_SIZE F' = FIFO_contents FIFO_SIZE F ++ bs.
Proof.
  induction bs as [|b bs IH]; intros F Hwf Hlen; simpl in *.
  - exists F. rewrite app_nil_r.
    split; [done|]. split; [done|]. split; [lia|done].
  - destruct (FIFO_Put_ok F b Hwf) as (F1 & Hput & Hwf1 & Hnb1 & Hc1); [lia|].
    destruct (IH F1 Hwf1) as (F2 & Hall & Hwf2 & Hnb2 & Hc2); [lia|].
    exists F2. rewrite Hput, Hall.
    split; [done|]. split; [done|]. split; [lia|].
    rewrite Hc2, Hc1, <- app_assoc. done.
Qed.

Lemma FIFO_GetN_ok l1 : forall F l2,
  FIFO_wf FIFO_SIZE F ->
  FIFO_contents FIFO_SIZE F = l1 ++ l2 ->
  exists F', FIFO_GetN FIFO_SIZE (length l1) F = (map Some l1, F') /\
    FIFO_wf FIFO_SIZE F' /\
    FIFO_contents FIFO_SIZE F' = l2.
Proof.
  induction l1 as [|b l1 IH]; intros F l2 Hwf Hc; simpl in *.
  - by exists F.
  - assert (Hpos : 0 < NbBytes F).
    { pose proof (FIFO_contents_length F) as Hl. rewrite Hc in Hl.
      simpl in Hl. lia. }
    destruct (FIFO_Get_ok F Hwf Hpos)
      as (b' & l' & F1 & Hc' & Hget & Hwf1 & _ & Hc1).
    rewrite Hc in Hc'. injection Hc' as <- <-.
    destruct (IH F1 l2 Hwf1 Hc1) as (F2 & Hn & Hwf2 & Hc2).
    exists F2. by rewrite Hget, Hn.
Qed.

(** Puts stop succeeding when the buffer is full: what gets in is the
    prefix of [bs] that fits into the free places. *)
Lemma FIFO_PutAll_prefix bs : forall F,
  FIFO_wf FIFO_SIZE F ->
  FIFO_wf FIFO_SIZE (snd (FIFO_PutAll FIFO_SIZE F bs)) /\
  FIFO_contents FIFO_SIZE (snd (FIFO_PutAll FIFO_SIZE F bs))
    = FIFO_contents FIFO_SIZE F
      ++ take (Z.to_nat (FIFO_SIZE - NbBytes F)) bs /\
  (forallb id (fst (FIFO_PutAll FIFO_SIZE F bs)) = true
     <-> NbBytes F + Z.of_nat (length bs) <= FIFO_SIZE \/ bs = []).
Proof.
  induction bs as [|b bs IH]; intros F Hwf.
  - simpl. rewrite take_nil, app_nil_r. split; [done|]. split; [done|]. tauto.
  - simpl. destruct (Z.lt_ge_cases (NbBytes F) FIFO_SIZE) as [Hlt|Hge].
    + destruct (FIFO_Put_ok F b Hwf Hlt) as (F1 & Hput & Hwf1 & Hnb1 & Hc1).
      rewrite Hput. destruct (IH F1 Hwf1) as (IHwf & IHc & IHr).
      destruct (FIFO_PutAll FIFO_SIZE F1 bs) as [rs F2] eqn:E. simpl in *.
      split; [done|]. split.
      * rewrite IHc, Hc1, <- app_assoc. simpl. f_equal.
        replace (Z.to_nat (FIFO_SIZE - NbBytes F))
          with (S (Z.to_nat (FIFO_SIZE - NbBytes F1))) by lia.
        done.
      * rewrite IHr. split.
        -- intros [H| ->]; left; simpl; lia.
        -- intros [H|H]; [|done]. destruct bs; [by right|left]. simpl in *. lia.
    + assert (Hput : FIFO_Put FIFO_SIZE F b = (false, F)).
      { unfold FIFO_Put.
        destruct (Z.ltb_spec (NbBytes F) FIFO_SIZE); [lia|done]. }
      rewrite Hput. destruct (IH F Hwf) as (IHwf & IHc & IHr).
      destruct (FIFO_PutAll FIFO_SIZE F bs) as [rs F2] eqn:E. simpl in *.
      split; [done|]. split.
      * rewrite IHc. f_equal.
        replace (Z.to_nat (FIFO_SIZE - NbBytes F)) with 0%nat by lia.
        by rewrite take_0.
      * split; [done|]. intros [H|H]; [lia|done].
Qed.

(** C7.  Starting from an empty ring buffer, putting a sequence of bytes no
    longer than the capacity succeeds at every call, and as many gets return
    exactly those bytes, in the order in which they were put; the buffer is
    empty again afterwards. *)
Theorem FIFO_Put_then_Get_same_order (F : TFIFO) (bs : list Z) :
  FIFO_wf FIFO_SIZE F ->
  NbBytes F = 0 ->
  Z.of_nat (length bs) <= FIFO_SIZE ->
  exists F1 F2,
    FIFO_PutAll FIFO_SIZE F bs = (map (fun _ => true) bs, F1) /\
    FIFO_GetN FIFO_SIZE (length bs) F1 = (map Some bs, F2) /\
    NbBytes F2 = 0.
Proof.
  intros Hwf Hempty Hlen.
  destruct (FIFO_PutAll_ok bs F Hwf) as (F1 & Hput & Hwf1 & Hnb1 & Hc1); [lia|].
  rewrite (FIFO_contents_empty F Hempty) in Hc1. simpl in Hc1.
  destruct (FIFO_GetN_ok bs F1 [] Hwf1) as (F2 & Hget & Hwf2 & Hc2).
  { by rewrite app_nil_r. }
  exists F1, F2. split; [done|]. split; [done|].
  pose proof (FIFO_contents_length F2) as Hl. rewrite Hc2 in Hl. simpl in Hl.
  destruct Hwf2 as (_ & _ & _ & ? & _). lia.
Qed.

(** C8.  A put on a full buffer returns [false] and a get on an empty buffer
    returns [false]; either leaves the whole buffer (indices, count and
    contents) as it was. *)
Theorem FIFO_full_Put_empty_Get_fail (F G : TFIFO) (b : Z) :
  NbBytes F = FIFO_SIZE ->
  NbBytes G = 0 ->
  FIFO_Put FIFO_SIZE F b = (false, F) /\ FIFO_Get FIFO_SIZE G = (None, G).
Proof.
  intros HF HG. unfold FIFO_Put, FIFO_Get.
  rewrite HF, HG, Z.ltb_irrefl. done.
Qed.

End FIFO_facts.

Lemma FIFO_Put_then_Get_same_order_witness :
  FIFO_wf 4 fifo4_empty /\
  NbBytes fifo4_empty = 0 /\
  Z.of_nat (length [10; 20; 30; 40]) <= 4 /\
  exists F1 F2,
    FIFO_PutAll 4 fifo4_empty [10; 20; 30; 40]
      = ([true; true; true; true], F1) /\
    FIFO_GetN 4 4 F1 = ([Some 10; Some 20; Some 30; Some 40], F2) /\
    NbBytes F2 = 0.
Proof.
  assert (H1 : FIFO_wf 4 fifo4_empty).
  { unfold FIFO_wf. simpl. repeat split; try reflexivity; lia. }
  assert (H2 : NbBytes fifo4_empty = 0) by reflexivity.
  assert (H3 : Z.of_nat (length [10; 20; 30; 40]) <= 4) by (simpl; lia).
  split; [exact H1|]. split; [exact H2|]. split; [exact H3|].
  exact (FIFO_Put_then_Get_same_order 4 fifo4_empty [10; 20; 30; 40] H1 H2 H3).
Defined.

Lemma FIFO_full_Put_empty_Get_fail_witness :
  NbBytes fifo4_full = 4 /\
  NbBytes fifo4_empty = 0 /\
  FIFO_Put 4 fifo4_full 50 = (false, fifo4_full) /\
  FIFO_Get 4 fifo4_empty = (None, fifo4_empty).
Proof.
  split; [reflexivity|]. split; [reflexivity|].
  apply (FIFO_full_Put_empty_Get_fail 4 fifo4_full fifo4_empty 50); reflexivity.
Defined.

(** ** Bytes and the checksum *)

Lemma uint8_byte b : is_byte b -> uint8 b = b.
Proof. unfold is_byte, uint8. intros H. apply Z.mod_small. lia. Qed.

Lemma lxor_byte a b : is_byte a -> is_byte b -> is_byte (Z.lxor a b).
Proof.
  unfold is_byte. intros Ha Hb.
  split; [apply Z.lxor_nonneg; lia|].
  destruct (Z.eq_dec (Z.lxor a b) 0) as [->|Hne]; [lia|].
  apply (Z.log2_lt_pow2 _ 8); [pose proof (Z.lxor_nonneg a b); lia|].
  pose proof (Z.log2_lxor a b ltac:(lia) ltac:(lia)) as Hl.
  assert (Z.log2 a < 8).
  { destruct (Z.eq_dec a 0) as [->|]; [simpl; lia|].
    apply Z.log2_lt_pow2; lia. }
  assert (Z.log2 b < 8).
  { destruct (Z.eq_dec b 0) as [->|]; [simpl; lia|].
    apply Z.log2_lt_pow2; lia. }
  lia.
Qed.

Lemma calculateChecksum_xor c p1 p2 p3 :
  is_byte c -> is_byte p1 -> is_byte p2 -> is_byte p3 ->
  calculateChecksum c p1 p2 p3 = Z.lxor (Z.lxor (Z.lxor c p1) p2) p3.
Proof.
  intros. unfold calculateChecksum. apply uint8_byte.
  auto using lxor_byte.
Qed.

(** ** The packet layer *)

Section Packet_facts.

Variable FIFO_SIZE : Z.

(** A byte that arrives while the receive buffer has room joins the queue. *)
Lemma UART_receive_contents st b :
  FIFO_wf FIFO_SIZE (RxFIFO st) -> NbBytes (RxFIFO st) < FIFO_SIZE ->
  FIFO_wf FIFO_SIZE (RxFIFO (UART_receive FIFO_SIZE b st)) /\
  FIFO_contents FIFO_SIZE (RxFIFO (UART_receive FIFO_SIZE b st))
  = FIFO_contents FIFO_SIZE (RxFIFO st) ++ [b].
Proof.
  intros Hwf Hlt.
  destruct (FIFO_Put_ok FIFO_SIZE _ b Hwf Hlt) as (F & Hput & HwfF & _ & Hc).
  unfold UART_receive. rewrite Hput. simpl. done.
Qed.

(** [Packet_Put] is the five puts of the frame, as far as they succeed. *)
Lemma Packet_Put_PutAll st c p1 p2 p3 :
  let frame := [c; p1; p2; p3; calculateChecksum c p1 p2 p3] in
  fst (Packet_Put FIFO_SIZE c p1 p2 p3 st)
    = forallb id (fst (FIFO_PutAll FIFO_SIZE (TxFIFO st) frame)) /\
  TxFIFO (snd (Packet_Put FIFO_SIZE c p1 p2 p3 st))
    = snd (FIFO_PutAll FIFO_SIZE (TxFIFO st) frame).
Proof.
  unfold Packet_Put, and_then, UART_OutChar. cbn [FIFO_PutAll].
  unfold FIFO_Put. simpl.
  repeat (match goal with
          | |- context [ ?a <? ?b ] => destruct (a <? b) eqn:?; simpl
          end); try done; congruence.
Qed.

(** C3 (amended).  [Packet_Put] returns [true] exactly when all five puts
    of the frame into the transmit buffer succeed, that is when the buffer
    has five free places.  A failed call is not undone: the transmit buffer
    then holds what it held before, followed by the leading bytes of the
    frame that found a free place; its contents are what they were only
    when the buffer was full at the call. *)
Theorem Packet_Put_keeps_enqueued_prefix (st : Tower) (c p1 p2 p3 : Z) :
  FIFO_wf FIFO_SIZE (TxFIFO st) ->
  let frame := [c; p1; p2; p3; calculateChecksum c p1 p2 p3] in
  let result := Packet_Put FIFO_SIZE c p1 p2 p3 st in
  (fst result = true
     <-> fst (FIFO_PutAll FIFO_SIZE (TxFIFO st) frame)
         = [true; true; true; true; true]) /\
  (fst result = true <-> NbBytes (TxFIFO st) + 5 <= FIFO_SIZE) /\
  FIFO_contents FIFO_SIZE (TxFIFO (snd result))
    = FIFO_contents FIFO_SIZE (TxFIFO st)
      ++ take (Z.to_nat (FIFO_SIZE - NbBytes (TxFIFO st))) frame /\
  (FIFO_contents FIFO_SIZE (TxFIFO (snd result))
     = FIFO_contents FIFO_SIZE (TxFIFO st)
   <-> NbBytes (TxFIFO st) = FIFO_SIZE).
Proof.
  intros Hwf frame result.
  destruct (Packet_Put_PutAll st c p1 p2 p3) as [Hr Htx].
  destruct (FIFO_PutAll_prefix FIFO_SIZE frame (TxFIFO st) Hwf)
    as (_ & Hc & Hall).
  fold frame in Hr, Htx. fold result in Hr, Htx.
  assert (Hcont : FIFO_contents FIFO_SIZE (TxFIFO (snd result))
                  = FIFO_contents FIFO_SIZE (TxFIFO st)
                    ++ take (Z.to_nat (FIFO_SIZE - NbBytes (TxFIFO st))) frame)
    by (by rewrite Htx, Hc).
  split; [|split; [|split; [exact Hcont|]]].
  - rewrite Hr.
    assert (Hlen : length (fst (FIFO_PutAll FIFO_SIZE (TxFIFO st) frame))
                   = 5%nat).
    { unfold frame. cbn [FIFO_PutAll].
      repeat (destruct (FIFO_Put _ _ _) as [? ?]). done. }
    destruct (fst (FIFO_PutAll FIFO_SIZE (TxFIFO st) frame))
      as [|[] [|[] [|[] [|[] [|[] [|]]]]]]; simpl in *;
      try discriminate; split; intros; done.
  - rewrite Hr, Hall. unfold frame. simpl.
    split; [intros [?|?]; [lia|done]|auto].
  - rewrite Hcont. destruct Hwf as (_ & _ & _ & Hnb & _).
    split.
    + intros Heq.
      apply (f_equal length) in Heq.
      rewrite length_app, length_take in Heq.
      unfold frame in Heq. simpl length in Heq. lia.
    + intros Hfull.
      replace (Z.to_nat (FIFO_SIZE - NbBytes (TxFIFO st))) with 0%nat by lia.
      by rewrite take_0, app_nil_r.
Qed.

(** C9.  After a successful [Packet_Put] into an empty transmit buffer,
    five gets on that buffer return the command, the three parameters and
    their exclusive or, in this order, and the buffer is empty again. *)
Theorem Packet_Put_then_five_Gets (st st' : Tower) (cmd p1 p2 p3 : Z) :
  FIFO_wf FIFO_SIZE (TxFIFO st) ->
  NbBytes (TxFIFO st) = 0 ->
  is_byte cmd -> is_byte p1 -> is_byte p2 -> is_byte p3 ->
  Packet_Put FIFO_SIZE cmd p1 p2 p3 st = (true, st') ->
  exists F,
    FIFO_GetN FIFO_SIZE 5 (TxFIFO st')
    = ([Some cmd; Some p1; Some p2; Some p3;
        Some (Z.lxor (Z.lxor (Z.lxor cmd p1) p2) p3)], F) /\
    NbBytes F = 0.
Proof.
  intros Hwf Hempty Hc H1 H2 H3 Hput.
  destruct (Packet_Put_PutAll st cmd p1 p2 p3) as [Hr Htx].
  rewrite Hput in Hr, Htx. cbn [fst snd] in Hr, Htx.
  set (frame := [cmd; p1; p2; p3; calculateChecksum cmd p1 p2 p3]) in *.
  destruct (FIFO_PutAll_prefix FIFO_SIZE frame (TxFIFO st) Hwf)
    as (Hwf' & Hcont & Hall).
  rewrite <- Htx in Hwf', Hcont.
  symmetry in Hr. apply Hall in Hr. destruct Hr as [Hr|Hr]; [|discriminate].
  rewrite (FIFO_contents_empty _ _ Hempty) in Hcont. simpl app in Hcont.
  rewrite take_ge in Hcont by (simpl in *; lia).
  destruct (FIFO_GetN_ok FIFO_SIZE frame (TxFIFO st') [] Hwf')
    as (F & Hget & HwfF & HcF).
  { by rewrite app_nil_r. }
  exists F. split.
  - rewrite <- (calculateChecksum_xor cmd p1 p2 p3) by done. exact Hget.
  - pose proof (FIFO_contents_length FIFO_SIZE F) as Hl. rewrite HcF in Hl.
    destruct HwfF as (_ & _ & _ & ? & _). simpl in Hl. lia.
Qed.

(** [UART_InChar] with a byte waiting in the receive buffer. *)
Lemma UART_InChar_ok st b rest :
  FIFO_wf FIFO_SIZE (RxFIFO st) ->
  FIFO_contents FIFO_SIZE (RxFIFO st) = b :: rest ->
  exists F, UART_InChar FIFO_SIZE st = (Some b, set_RxFIFO F st) /\
    FIFO_wf FIFO_SIZE F /\ FIFO_contents FIFO_SIZE F = rest.
Proof.
  intros Hwf Hc.
  assert (Hpos : 0 < NbBytes (RxFIFO st)).
  { pose proof (FIFO_contents_length FIFO_SIZE (RxFIFO st)) as Hl.
    rewrite Hc in Hl. simpl in Hl. lia. }
  destruct (FIFO_Get_ok FIFO_SIZE _ Hwf Hpos)
    as (b' & l & F & Hc' & Hget & HwfF & _ & HcF).
  rewrite Hc in Hc'. injection Hc' as <- <-.
  exists F. unfold UART_InChar. by rewrite Hget.
Qed.

(** C4.  At position 4, a received byte that is not the checksum of the
    four held bytes makes [Packet_Get] shift them left by one (command from
    parameter 1, parameter 1 from parameter 2, parameter 2 from parameter
    3, parameter 3 from the received byte), return [false] and stay at
    position 4; nothing else but the receive buffer, which loses that byte,
    and [Packet_Checksum] changes.  The next byte is then accepted exactly
    when it is the checksum of the shifted window. *)
Theorem Packet_Get_resync_shifts_window (st : Tower) (b : Z) (rest : list Z) :
  FIFO_wf FIFO_SIZE (RxFIFO st) ->
  FIFO_contents FIFO_SIZE (RxFIFO st) = b :: rest ->
  ByteCount st = 4 ->
  b <> calculateChecksum (Packet_Command st) (Packet_Parameter1 st)
         (Packet_Parameter2 st) (Packet_Parameter3 st) ->
  exists st',
    Packet_Get FIFO_SIZE st = (false, st') /\
    Packet_Command st' = Packet_Parameter1 st /\
    Packet_Parameter1 st' = Packet_Parameter2 st /\
    Packet_Parameter2 st' = Packet_Parameter3 st /\
    Packet_Parameter3 st' = b /\
    ByteCount st' = 4 /\
    FIFO_wf FIFO_SIZE (RxFIFO st') /\
    FIFO_contents FIFO_SIZE (RxFIFO st') = rest /\
    TxFIFO st' = TxFIFO st /\
    forall b' rest',
      rest = b' :: rest' ->
      (fst (Packet_Get FIFO_SIZE st') = true
         <-> b' = calculateChecksum (Packet_Parameter1 st)
                    (Packet_Parameter2 st) (Packet_Parameter3 st) b).
Proof.
  intros Hwf Hc Hbc Hne.
  destruct (UART_InChar_ok st b rest Hwf Hc) as (F & Hin & HwfF & HcF).
  eexists. split.
  { unfold Packet_Get. rewrite Hin. simpl. rewrite Hbc. simpl.
    destruct (Z.eqb_spec
      (calculateChecksum (Packet_Command st) (Packet_Parameter1 st)
         (Packet_Parameter2 st) (Packet_Parameter3 st)) b) as [E|_];
      [congruence|reflexivity]. }
  simpl. do 8 (split; [done|]).
  intros b' rest' ->.
  match goal with |- context [Packet_Get _ ?s] => set (st1 := s) end.
  destruct (UART_InChar_ok st1 b' rest' HwfF HcF) as (F' & Hin' & _ & _).
  unfold Packet_Get. rewrite Hin'. simpl. rewrite Hbc. simpl.
  destruct (Z.eqb_spec
    (calculateChecksum (Packet_Parameter1 st) (Packet_Parameter2 st)
       (Packet_Parameter3 st) b) b') as [E|E]; simpl; split; intros; congruence.
Qed.

(** C5.  From position 0, with the five bytes [c], [p1], [p2], [p3] and
    [c xor p1 xor p2 xor p3] at the head of the receive buffer, five calls
    of [Packet_Get] return [false] four times, moving the position to 1, 2,
    3 and 4, and then [true]; after the fifth call the position is 0 again
    and the four fields hold [c], [p1], [p2] and [p3]. *)
Theorem Packet_Get_assembles_valid_frame (st : Tower) (c p1 p2 p3 : Z)
    (rest : list Z) :
  FIFO_wf FIFO_SIZE (RxFIFO st) ->
  is_byte c -> is_byte p1 -> is_byte p2 -> is_byte p3 ->
  FIFO_contents FIFO_SIZE (RxFIFO st)
    = [c; p1; p2; p3; Z.lxor (Z.lxor (Z.lxor c p1) p2) p3] ++ rest ->
  ByteCount st = 0 ->
  exists st1 st2 st3 st4 st5,
    Packet_Get FIFO_SIZE st = (false, st1) /\ ByteCount st1 = 1 /\
    Packet_Get FIFO_SIZE st1 = (false, st2) /\ ByteCount st2 = 2 /\
    Packet_Get FIFO_SIZE st2 = (false, st3) /\ ByteCount st3 = 3 /\
    Packet_Get FIFO_SIZE st3 = (false, st4) /\ ByteCount st4 = 4 /\
    Packet_Get FIFO_SIZE st4 = (true, st5) /\ ByteCount st5 = 0 /\
    Packet_Command st5 = c /\ Packet_Parameter1 st5 = p1 /\
    Packet_Parameter2 st5 = p2 /\ Packet_Parameter3 st5 = p3 /\
    FIFO_contents FIFO_SIZE (RxFIFO st5) = rest.
Proof.
  intros Hwf Hc H1 H2 H3 Hcont Hbc. simpl app in Hcont.
  destruct (UART_InChar_ok st _ _ Hwf Hcont) as (F1 & Hin1 & Hwf1 & Hc1).
  set (st1 := set_ByteCount 1 (set_Packet_Command c (set_RxFIFO F1 st))).
  destruct (UART_InChar_ok st1 _ _ Hwf1 Hc1) as (F2 & Hin2 & Hwf2 & Hc2).
  set (st2 := set_ByteCount 2 (set_Packet_Parameter1 p1 (set_RxFIFO F2 st1))).
  destruct (UART_InChar_ok st2 _ _ Hwf2 Hc2) as (F3 & Hin3 & Hwf3 & Hc3).
  set (st3 := set_ByteCount 3 (set_Packet_Parameter2 p2 (set_RxFIFO F3 st2))).
  destruct (UART_InChar_ok st3 _ _ Hwf3 Hc3) as (F4 & Hin4 & Hwf4 & Hc4).
  set (st4 := set_ByteCount 4 (set_Packet_Parameter3 p3 (set_RxFIFO F4 st3))).
  destruct (UART_InChar_ok st4 _ _ Hwf4 Hc4) as (F5 & Hin5 & Hwf5 & Hc5).
  exists st1, st2, st3, st4.
  exists (set_ByteCount 0
            (set_Packet_Checksum (Z.lxor (Z.lxor (Z.lxor c p1) p2) p3)
               (set_RxFIFO F5 st4))).
  split. { unfold Packet_Get. rewrite Hin1. simpl. rewrite Hbc. reflexivity. }
  split; [reflexivity|].
  split. { unfold Packet_Get. rewrite Hin2. reflexivity. }
  split; [reflexivity|].
  split. { unfold Packet_Get. rewrite Hin3. reflexivity. }
  split; [reflexivity|].
  split. { unfold Packet_Get. rewrite Hin4. reflexivity. }
  split; [reflexivity|].
  split.
  { unfold Packet_Get. rewrite Hin5. simpl.
    rewrite calculateChecksum_xor by done. rewrite Z.eqb_refl. reflexivity. }
  simpl. do 5 (split; [reflexivity|]). exact Hc5.
Qed.

End Packet_facts.

(** C3, as stated, fails: with two free places in a transmit buffer of 256
    bytes, [Packet_Put(1, 2, 3, 4)] returns [false] and leaves the bytes [1]
    and [2] of the frame in the buffer. *)
Lemma Packet_Put_failure_leaves_partial_frame :
  FIFO_wf 256 fifo256_two_free /\
  fst (Packet_Put 256 1 2 3 4 (tower_start fifo256_two_free fifo256_two_free))
    = false /\
  TxFIFO (snd (Packet_Put 256 1 2 3 4
                 (tower_start fifo256_two_free fifo256_two_free)))
    = mkTFIFO 0 0 256 (replicate 254 0 ++ [1; 2]) /\
  TxFIFO (snd (Packet_Put 256 1 2 3 4
                 (tower_start fifo256_two_free fifo256_two_free)))
    <> TxFIFO (tower_start fifo256_two_free fifo256_two_free).
Proof.
  split; [unfold FIFO_wf; simpl; repeat split; try reflexivity; lia|].
  split; [vm_compute; reflexivity|].
  split; [vm_compute; reflexivity|].
  intros H. apply (f_equal NbBytes) in H. vm_compute in H. discriminate H.
Qed.

Lemma Packet_Put_keeps_enqueued_prefix_witness :
  FIFO_wf 8 (TxFIFO (tower_start fifo8_empty fifo8_frame)) /\
  (fst (Packet_Put 8 1 2 3 4 (tower_start fifo8_empty fifo8_frame)) = true
     <-> fst (FIFO_PutAll 8 (TxFIFO (tower_start fifo8_empty fifo8_frame))
                [1; 2; 3; 4; calculateChecksum 1 2 3 4])
         = [true; true; true; true; true]) /\
  (fst (Packet_Put 8 1 2 3 4 (tower_start fifo8_empty fifo8_frame)) = true
     <-> NbBytes (TxFIFO (tower_start fifo8_empty fifo8_frame)) + 5 <= 8) /\
  FIFO_contents 8
    (TxFIFO (snd (Packet_Put 8 1 2 3 4 (tower_start fifo8_empty fifo8_frame))))
  = FIFO_contents 8 (TxFIFO (tower_start fifo8_empty fifo8_frame))
    ++ take (Z.to_nat
               (8 - NbBytes (TxFIFO (tower_start fifo8_empty fifo8_frame))))
         [1; 2; 3; 4; calculateChecksum 1 2 3 4] /\
  (FIFO_contents 8
     (TxFIFO (snd (Packet_Put 8 1 2 3 4 (tower_start fifo8_empty fifo8_frame))))
   = FIFO_contents 8 (TxFIFO (tower_start fifo8_empty fifo8_frame))
   <-> NbBytes (TxFIFO (tower_start fifo8_empty fifo8_frame)) = 8).
Proof.
  assert (H1 : FIFO_wf 8 (TxFIFO (tower_start fifo8_empty fifo8_frame))).
  { unfold FIFO_wf. simpl. repeat split; try reflexivity; lia. }
  split; [exact H1|].
  exact (Packet_Put_keeps_enqueued_prefix 8
           (tower_start fifo8_empty fifo8_frame) 1 2 3 4 H1).
Defined.

Lemma Packet_Put_then_five_Gets_witness :
  FIFO_wf 8 (TxFIFO (tower_start fifo8_empty fifo8_empty)) /\
  NbBytes (TxFIFO (tower_start fifo8_empty fifo8_empty)) = 0 /\
  is_byte 0x0B /\ is_byte 0x01 /\ is_byte 0x26 /\ is_byte 0x81 /\
  Packet_Put 8 0x0B 0x01 0x26 0x81 (tower_start fifo8_empty fifo8_empty)
    = (true, snd (Packet_Put 8 0x0B 0x01 0x26 0x81
                    (tower_start fifo8_empty fifo8_empty))) /\
  exists F,
    FIFO_GetN 8 5
      (TxFIFO (snd (Packet_Put 8 0x0B 0x01 0x26 0x81
                      (tower_start fifo8_empty fifo8_empty))))
    = ([Some 0x0B; Some 0x01; Some 0x26; Some 0x81; Some 0xAD], F) /\
    NbBytes F = 0.
Proof.
  assert (H1 : FIFO_wf 8 (TxFIFO (tower_start fifo8_empty fifo8_empty))).
  { unfold FIFO_wf. simpl. repeat split; try reflexivity; lia. }
  assert (H2 : NbBytes (TxFIFO (tower_start fifo8_empty fifo8_empty)) = 0)
    by reflexivity.
  assert (Hc : is_byte 0x0B) by (unfold is_byte; lia).
  assert (Hp1 : is_byte 0x01) by (unfold is_byte; lia).
  assert (Hp2 : is_byte 0x26) by (unfold is_byte; lia).
  assert (Hp3 : is_byte 0x81) by (unfold is_byte; lia).
  assert (H3 : Packet_Put 8 0x0B 0x01 0x26 0x81
                 (tower_start fifo8_empty fifo8_empty)
               = (true, snd (Packet_Put 8 0x0B 0x01 0x26 0x81
                               (tower_start fifo8_empty fifo8_empty))))
    by (vm_compute; reflexivity).
  repeat (split; [assumption|]).
  exact (Packet_Put_then_five_Gets 8 _ _ 0x0B 0x01 0x26 0x81
           H1 H2 Hc Hp1 Hp2 Hp3 H3).
Defined.

Lemma Packet_Get_resync_shifts_window_witness :
  FIFO_wf 8 (RxFIFO (tower_await_checksum fifo8_two fifo8_empty)) /\
  FIFO_contents 8 (RxFIFO (tower_await_checksum fifo8_two fifo8_empty))
    = 9 :: [7] /\
  ByteCount (tower_await_checksum fifo8_two fifo8_empty) = 4 /\
  9 <> calculateChecksum 1 2 3 4 /\
  exists st',
    Packet_Get 8 (tower_await_checksum fifo8_two fifo8_empty) = (false, st') /\
    Packet_Command st' = 2 /\
    Packet_Parameter1 st' = 3 /\
    Packet_Parameter2 st' = 4 /\
    Packet_Parameter3 st' = 9 /\
    ByteCount st' = 4 /\
    FIFO_wf 8 (RxFIFO st') /\
    FIFO_contents 8 (RxFIFO st') = [7] /\
    TxFIFO st' = fifo8_empty /\
    forall b' rest',
      [7] = b' :: rest' ->
      (fst (Packet_Get 8 st') = true <-> b' = calculateChecksum 2 3 4 9).
Proof.
  assert (H1 : FIFO_wf 8 (RxFIFO (tower_await_checksum fifo8_two fifo8_empty))).
  { unfold FIFO_wf. simpl. repeat split; try reflexivity; lia. }
  assert (H2 : FIFO_contents 8
                 (RxFIFO (tower_await_checksum fifo8_two fifo8_empty))
               = 9 :: [7]) by reflexivity.
  assert (H3 : ByteCount (tower_await_checksum fifo8_two fifo8_empty) = 4)
    by reflexivity.
  assert (H4 : 9 <> calculateChecksum 1 2 3 4) by (vm_compute; lia).
  repeat (split; [assumption|]).
  exact (Packet_Get_resync_shifts_window 8 _ 9 [7] H1 H2 H3 H4).
Defined.

Lemma Packet_Get_assembles_valid_frame_witness :
  FIFO_wf 8 (RxFIFO (tower_start fifo8_frame fifo8_empty)) /\
  is_byte 0x0B /\ is_byte 0x01 /\ is_byte 0x26 /\ is_byte 0x81 /\
  FIFO_contents 8 (RxFIFO (tower_start fifo8_frame fifo8_empty))
    = [0x0B; 0x01; 0x26; 0x81; 0xAD] ++ [] /\
  ByteCount (tower_start fifo8_frame fifo8_empty) = 0 /\
  exists st1 st2 st3 st4 st5,
    Packet_Get 8 (tower_start fifo8_frame fifo8_empty) = (false, st1) /\
    ByteCount st1 = 1 /\
    Packet_Get 8 st1 = (false, st2) /\ ByteCount st2 = 2 /\
    Packet_Get 8 st2 = (false, st3) /\ ByteCount st3 = 3 /\
    Packet_Get 8 st3 = (false, st4) /\ ByteCount st4 = 4 /\
    Packet_Get 8 st4 = (true, st5) /\ ByteCount st5 = 0 /\
    Packet_Command st5 = 0x0B /\ Packet_Parameter1 st5 = 0x01 /\
    Packet_Parameter2 st5 = 0x26 /\ Packet_Parameter3 st5 = 0x81 /\
    FIFO_contents 8 (RxFIFO st5) = [].
Proof.
  assert (H1 : FIFO_wf 8 (RxFIFO (tower_start fifo8_frame fifo8_empty))).
  { unfold FIFO_wf. simpl. repeat split; try reflexivity; lia. }
  assert (Hc : is_byte 0x0B) by (unfold is_byte; lia).
  assert (Hp1 : is_byte 0x01) by (unfold is_byte; lia).
  assert (Hp2 : is_byte 0x26) by (unfold is_byte; lia).
  assert (Hp3 : is_byte 0x81) by (unfold is_byte; lia).
  assert (H2 : FIFO_contents 8 (RxFIFO (tower_start fifo8_frame fifo8_empty))
               = [0x0B; 0x01; 0x26; 0x81; 0xAD] ++ []) by reflexivity.
  assert (H3 : ByteCount (tower_start fifo8_frame fifo8_empty) = 0)
    by reflexivity.
  repeat (split; [assumption|]).
  exact (Packet_Get_assembles_valid_frame 8 _ 0x0B 0x01 0x26 0x81 []
           H1 Hc Hp1 Hp2 Hp3 H2 H3).
Defined.

(** ** The allocator *)

Section Alloc_facts.

Variable FLASH_DATA_START FLASH_SIZE : Z.

(** The loops of [Flash_AllocateVar] end within the fuel they are given. *)
Lemma Flash_AllocateVar_check_total st size i af fuel : forall j,
  (Z.to_nat (size - j) < fuel)%nat ->
  is_Some (Flash_AllocateVar_check FLASH_DATA_START FLASH_SIZE st size i
             fuel j af).
Proof.
  induction fuel as [|fuel IH]; intros j Hf; [lia|]. simpl.
  destruct (Z.ltb_spec j size); [|by eexists].
  destruct (_ || _); [by eexists|]. apply IH. lia.
Qed.

Lemma Flash_AllocateVar_scan_total st size fuel : forall i af ai,
  1 <= size ->
  (Z.to_nat (FLASH_SIZE - i) < fuel)%nat ->
  is_Some (Flash_AllocateVar_scan FLASH_DATA_START FLASH_SIZE st size fuel i
             af ai).
Proof.
  induction fuel as [|fuel IH]; intros i af ai Hs Hf; [lia|]. simpl.
  destruct (Z.ltb_spec i FLASH_SIZE); [|by eexists].
  destruct (_ =? _).
  - destruct (Flash_AllocateVar_check_total st size i af (Z.to_nat size) 1)
      as [found ->]; [lia|].
    destruct found; [by eexists|]. apply IH; lia.
  - apply IH; lia.
Qed.

Lemma Flash_AllocateVar_total variable size st :
  is_Some (Flash_AllocateVar FLASH_DATA_START FLASH_SIZE variable size st).
Proof.
  unfold Flash_AllocateVar.
  destruct (_ || _) eqn:E; [|by eexists].
  assert (Hs : 1 <= size).
  { destruct (Z.eqb_spec size 1), (Z.eqb_spec size 2), (Z.eqb_spec size 4);
      simpl in E; try lia; discriminate. }
  destruct (Flash_AllocateVar_scan_total st size (S (Z.to_nat FLASH_SIZE)) 0
              true (uint8 (-1)) Hs) as [[found index] ->]; [lia|].
  destruct found; by eexists.
Qed.

(** The scenario of §8: in a sector of at least two bytes, all erased, a
    two-byte slot is allocated at the base address. *)
Lemma Flash_AllocateVar_erased_sector variable st :
  2 <= FLASH_SIZE ->
  sector st = replicate (Z.to_nat FLASH_SIZE) 0xFF ->
  Flash_AllocateVar FLASH_DATA_START FLASH_SIZE variable 2 st
  = Some (true, uint32 FLASH_DATA_START).
Proof.
  intros Hs Hsec.
  assert (Hfb : forall i, 0 <= i < FLASH_SIZE ->
            _FB FLASH_DATA_START (FLASH_DATA_START + i) st = 0xFF).
  { intros i Hi. unfold _FB, array_get. rewrite Hsec.
    replace (FLASH_DATA_START + i - FLASH_DATA_START) with i by lia.
    destruct (Z.ltb_spec i 0); [lia|].
    rewrite lookup_replicate_2 by lia. done. }
  unfold Flash_AllocateVar. simpl.
  destruct (Z.ltb_spec 0 FLASH_SIZE); [|lia].
  rewrite (Hfb 0) by lia. simpl.
  change (0 + 1) with 1.
  destruct (Z.geb_spec 1 FLASH_SIZE); [lia|].
  rewrite (Hfb 1) by lia. simpl.
  by rewrite Z.add_0_r.
Qed.

(** Once [addressFound] is [false] the inner loop can only return [false]. *)
Lemma Flash_AllocateVar_check_false st size i fuel : forall j,
  (Z.to_nat (size - j) < fuel)%nat ->
  Flash_AllocateVar_check FLASH_DATA_START FLASH_SIZE st size i fuel j false
  = Some false.
Proof.
  induction fuel as [|fuel IH]; intros j Hf; [lia|]. simpl.
  destruct (Z.ltb_spec j size); [|done].
  destruct (_ || _); [done|]. apply IH. lia.
Qed.

(** ... and the outer loop never accepts a candidate any more. *)
Lemma Flash_AllocateVar_scan_false st size fuel : forall i ai,
  1 <= size ->
  (Z.to_nat (FLASH_SIZE - i) < fuel)%nat ->
  Flash_AllocateVar_scan FLASH_DATA_START FLASH_SIZE st size fuel i false ai
  = Some (false, ai).
Proof.
  induction fuel as [|fuel IH]; intros i ai Hs Hf; [lia|]. simpl.
  destruct (Z.ltb_spec i FLASH_SIZE); [|done].
  destruct (_ =? _).
  - rewrite Flash_AllocateVar_check_false by lia. apply IH; lia.
  - apply IH; lia.
Qed.

(** The inner loop clears [addressFound] when a byte of the run is taken. *)
Lemma Flash_AllocateVar_check_taken st size i k fuel : forall j af,
  j <= k < size ->
  _FB FLASH_DATA_START (FLASH_DATA_START + (i + k)) st <> 0xFF ->
  (Z.to_nat (size - j) < fuel)%nat ->
  Flash_AllocateVar_check FLASH_DATA_START FLASH_SIZE st size i fuel j af
  = Some false.
Proof.
  induction fuel as [|fuel IH]; intros j af Hk Hne Hf; [lia|]. simpl.
  destruct (Z.ltb_spec j size); [|lia].
  destruct (_ || _) eqn:E; [done|].
  apply orb_false_elim in E as [_ E]. apply negb_false_iff, Z.eqb_eq in E.
  assert (j <> k) by (intros ->; contradiction).
  apply IH; [lia|done|lia].
Qed.

(** A broken run at offset 0 makes the whole call fail, whatever the rest
    of the sector holds. *)
Lemma Flash_AllocateVar_broken_first_run variable size k st :
  size = 2 \/ size = 4 ->
  0 < FLASH_SIZE ->
  _FB FLASH_DATA_START (FLASH_DATA_START + 0) st = 0xFF ->
  1 <= k < size ->
  _FB FLASH_DATA_START (FLASH_DATA_START + (0 + k)) st <> 0xFF ->
  Flash_AllocateVar FLASH_DATA_START FLASH_SIZE variable size st
  = Some (false, variable).
Proof.
  intros Hsize HS H0 Hk Hne. unfold Flash_AllocateVar.
  assert ((size =? 1) || (size =? 2) || (size =? 4) = true) as ->.
  { destruct Hsize as [-> | ->]; reflexivity. }
  cbn [Flash_AllocateVar_scan].
  destruct (Z.ltb_spec 0 FLASH_SIZE); [|lia].
  rewrite H0. cbn [Z.eqb Pos.eqb].
  rewrite (Flash_AllocateVar_check_taken st size 0 k) by (try done; lia).
  rewrite Flash_AllocateVar_scan_false by lia. done.
Qed.

(** With no erased byte at any candidate offset the loop never touches
    [addressFound]. *)
Lemma Flash_AllocateVar_scan_none st size fuel : forall i af ai,
  1 <= size -> 0 <= i ->
  (forall o, 0 <= o < FLASH_SIZE ->
     _FB FLASH_DATA_START (FLASH_DATA_START + o) st <> 0xFF) ->
  (Z.to_nat (FLASH_SIZE - i) < fuel)%nat ->
  Flash_AllocateVar_scan FLASH_DATA_START FLASH_SIZE st size fuel i af ai
  = Some (af, ai).
Proof.
  induction fuel as [|fuel IH]; intros i af ai Hs Hi Hnone Hf; [lia|]. simpl.
  destruct (Z.ltb_spec i FLASH_SIZE); [|done].
  destruct (Z.eqb_spec (_FB FLASH_DATA_START (FLASH_DATA_START + i) st) 255)
    as [E|_].
  - exfalso. apply (Hnone i); [lia|exact E].
  - apply IH; try done; lia.
Qed.

(** A sector without an erased byte: the call reports success and hands
    out the address 255 bytes above the base. *)
Lemma Flash_AllocateVar_full_sector variable size st :
  size = 1 \/ size = 2 \/ size = 4 ->
  (forall o, 0 <= o < FLASH_SIZE ->
     _FB FLASH_DATA_START (FLASH_DATA_START + o) st <> 0xFF) ->
  Flash_AllocateVar FLASH_DATA_START FLASH_SIZE variable size st
  = Some (true, uint32 (FLASH_DATA_START + 255)).
Proof.
  intros Hsize Hnone. unfold Flash_AllocateVar.
  assert ((size =? 1) || (size =? 2) || (size =? 4) = true) as ->.
  { destruct Hsize as [-> | [-> | ->]]; reflexivity. }
  rewrite Flash_AllocateVar_scan_none by (try done; lia). done.
Qed.

End Alloc_facts.

(** ** The guard of the writes *)

Section Guard_facts.

Variable FLASH_DATA_START FLASH_SIZE : Z.

(** For offsets that fit in eight bits, [index] is the offset. *)
Lemma write_index_small off :
  0 <= FLASH_DATA_START -> FLASH_DATA_START + off < 2 ^ 32 -> 0 <= off < 256 ->
  write_index FLASH_DATA_START (FLASH_DATA_START + off) = off.
Proof.
  intros HS Hlt Hoff. unfold write_index, uint8, uint32.
  rewrite (Z.mod_small (FLASH_DATA_START + off)) by lia.
  replace (FLASH_DATA_START + off - FLASH_DATA_START) with off by lia.
  rewrite (Z.mod_small off (2 ^ 32)) by lia.
  apply Z.mod_small. lia.
Qed.

(** For such offsets a write beyond the sector or off its alignment is
    refused at once and changes nothing. *)
Lemma Flash_Write_rejects (w : width) (off v : Z) (st : Flash) :
  0 <= FLASH_DATA_START -> FLASH_DATA_START + off < 2 ^ 32 -> 0 <= off < 256 ->
  FLASH_SIZE <= off \/ off mod width_bytes w <> 0 ->
  Flash_Write FLASH_DATA_START FLASH_SIZE w (FLASH_DATA_START + off) v st
  = Some (false, st).
Proof.
  intros HS Hlt Hoff Hbad.
  destruct w; unfold Flash_Write, Flash_Write8, Flash_Write16, Flash_Write32,
    Flash_Write64; rewrite write_index_small by done; simpl in Hbad.
  all: destruct (Z.ltb_spec off 0); [lia|].
  all: destruct (Z.geb_spec off FLASH_SIZE); [done|]; simpl.
  - exfalso. rewrite Z.mod_1_r in Hbad. lia.
  - destruct (Z.eqb_spec (off mod 2) 0); [|done]. exfalso. lia.
  - destruct (Z.eqb_spec (off mod 4) 0); [|done]. exfalso. lia.
  - destruct (Z.eqb_spec (off mod 8) 0); [|done]. exfalso. lia.
Qed.

(** The guard sees the address modulo 256 only. *)
Lemma write_index_wraps address k :
  write_index FLASH_DATA_START (address + 256 * k)
  = write_index FLASH_DATA_START address.
Proof.
  unfold write_index, uint8, uint32.
  change (2 ^ 32) with 4294967296. change (2 ^ 8) with 256.
  Z.div_mod_to_equations. lia.
Qed.

Lemma Flash_Write_address_wraps (w : width) (address k v : Z) (st : Flash) :
  Flash_Write FLASH_DATA_START FLASH_SIZE w (address + 256 * k) v st
  = Flash_Write FLASH_DATA_START FLASH_SIZE w address v st.
Proof.
  destruct w; unfold Flash_Write, Flash_Write8, Flash_Write16, Flash_Write32,
    Flash_Write64; by rewrite write_index_wraps.
Qed.

End Guard_facts.

(** C1 does not hold of the code.  First input: byte 1 of the sector is
    programmed and all others are erased; offsets 2 and 3 are a free
    two-byte run, yet the call fails, because [addressFound], cleared at
    the broken run at offset 0, is never set again.  Second input: no byte
    is erased; the call succeeds, with the initial [addressIndex] of 255,
    because [addressFound] is still [true] when no candidate was looked
    at. *)
Theorem Flash_AllocateVar_misses_free_run :
  Flash_AllocateVar 0x80000 8 0 2
    (flash8 [0xFF; 0x00; 0xFF; 0xFF; 0xFF; 0xFF; 0xFF; 0xFF])
  = Some (false, 0) /\
  Flash_AllocateVar 0x80000 8 0 1 (flash8 [0; 0; 0; 0; 0; 0; 0; 0])
  = Some (true, 0x80000 + 255).
Proof. split; vm_compute; reflexivity. Qed.

(** C2 does not hold of the code.  The offset is reduced to eight bits
    before it is tested, so a 16-bit write 256 bytes beyond the base of an
    eight-byte sector passes the guard as offset 0: it returns [true] and
    overwrites the first two bytes of the sector. *)
Theorem Flash_Write16_accepts_offset_256 :
  Flash_Write16 0x80000 8 (0x80000 + 256) 0x1234
    (flash8 [0xFF; 0xFF; 0xFF; 0xFF; 0xFF; 0xFF; 0xFF; 0xFF])
  = Some (true,
          mkFlash [0x34; 0x12; 0xFF; 0xFF; 0xFF; 0xFF; 0xFF; 0xFF] 0x80
                  [0x07; 0x08; 0x00; 0x00; 0xFF; 0xFF; 0x12; 0x34;
                   0xFF; 0xFF; 0xFF; 0xFF]
                  (mkTFCCOB 0x07
                     [0x34; 0x12; 0xFF; 0xFF; 0xFF; 0xFF; 0xFF; 0xFF])).
Proof. vm_compute. reflexivity. Qed.

(** ** Bytes of an integer

    Masks and shifts as remainders and quotients, for [lia]. *)

Lemma land_255 x : Z.land x 255 = x mod 256.
Proof.
  change 255 with (Z.ones 8). rewrite Z.land_ones by lia. reflexivity.
Qed.

Lemma land_65535 x : Z.land x 65535 = x mod 65536.
Proof.
  change 65535 with (Z.ones 16). rewrite Z.land_ones by lia. reflexivity.
Qed.

Lemma land_4294967295 x : Z.land x 4294967295 = x mod 4294967296.
Proof.
  change 4294967295 with (Z.ones 32). rewrite Z.land_ones by lia.
  reflexivity.
Qed.

Lemma land_255_l x : Z.land 255 x = x mod 256.
Proof. rewrite Z.land_comm. apply land_255. Qed.

Lemma shiftr_8 x : Z.shiftr x 8 = x / 256.
Proof. rewrite Z.shiftr_div_pow2 by lia. reflexivity. Qed.

Lemma shiftr_16 x : Z.shiftr x 16 = x / 65536.
Proof. rewrite Z.shiftr_div_pow2 by lia. reflexivity. Qed.

Lemma shiftr_32 x : Z.shiftr x 32 = x / 4294967296.
Proof. rewrite Z.shiftr_div_pow2 by lia. reflexivity. Qed.

(** Equations between the halves that the unions take of a value and the
    bytes that shifts take of it. *)
Ltac bytes_arith :=
  unfold uint16union_Lo, uint16union_Hi, uint32union_Lo, uint32union_Hi,
         uint64union_Lo, uint64union_Hi;
  rewrite ?land_255, ?land_255_l, ?land_65535, ?land_4294967295,
          ?shiftr_8, ?shiftr_16, ?shiftr_32;
  Z.div_mod_to_equations; lia.

Lemma land_255_byte b : is_byte b -> Z.land 255 b = b.
Proof.
  unfold is_byte. intros H. rewrite land_255_l. apply Z.mod_small. lia.
Qed.

Lemma land_255_is_byte x : is_byte (Z.land x 255).
Proof. unfold is_byte. rewrite land_255. apply Z.mod_pos_bound. lia. Qed.

Lemma list_length_8 (s : list Z) :
  length s = 8%nat ->
  exists b0 b1 b2 b3 b4 b5 b6 b7, s = [b0; b1; b2; b3; b4; b5; b6; b7].
Proof.
  intros H. do 8 (destruct s as [|? s]; [discriminate|]).
  destruct s; [|discriminate]. by repeat eexists.
Qed.

Lemma list_length_12 (s : list Z) :
  length s = 12%nat ->
  exists r0 r1 r2 r3 r4 r5 r6 r7 r8 r9 r10 r11,
    s = [r0; r1; r2; r3; r4; r5; r6; r7; r8; r9; r10; r11].
Proof.
  intros H. do 12 (destruct s as [|? s]; [discriminate|]).
  destruct s; [|discriminate]. by repeat eexists.
Qed.

(** ** The flash driver

    Laws of its monad, and one step of a run. *)

Lemma bind_ret_l {A B} (a : A) (k : A -> FlashM B) st :
  bind (ret a) k st = k a st.
Proof. reflexivity. Qed.

Lemma bind_modify_l {B} (f : Flash -> Flash) (k : unit -> FlashM B) st :
  bind (modify f) k st = k tt (f st).
Proof. reflexivity. Qed.

Lemma bind_assoc {A B C} (c : FlashM A) (k1 : A -> FlashM B)
    (k2 : B -> FlashM C) st :
  bind (bind c k1) k2 st = bind c (fun a => bind (k1 a) k2) st.
Proof. unfold bind. destruct (c st) as [[a st1]|]; reflexivity. Qed.

Lemma bind_wait_CCIF {B} (k : unit -> FlashM B) st :
  CCIF_clear (FTFE_FSTAT st) = false -> bind wait_CCIF k st = k tt st.
Proof. intros H. unfold bind, wait_CCIF. by rewrite H. Qed.

Lemma bind_launch_program {B} a b (k : bool -> FlashM B) st :
  bind (launch_program a b) k st
  = bind (LaunchCommand a b (CommonCommandObject st)) k st.
Proof. reflexivity. Qed.

Ltac flash_step Hccif :=
  first [ rewrite bind_assoc
        | rewrite bind_ret_l
        | rewrite bind_modify_l
        | rewrite bind_wait_CCIF by exact Hccif ].

Ltac eval_execute :=
  match goal with
  | |- context [FTFE_execute ?a ?b ?st] =>
      let st' := eval lazy -[Z.land] in (FTFE_execute a b st) in
      change (FTFE_execute a b st) with st'
  end.

Section Flash_facts.

(** [FlashBackup] copies the sector into the mirror. *)
Lemma FlashBackup_data (FLASH_DATA_START FLASH_SIZE : Z) (st : Flash) :
  length (sector st) = Z.to_nat FLASH_SIZE ->
  (fun i => _FB FLASH_DATA_START (FLASH_DATA_START + i) st)
    <$> seqZ 0 FLASH_SIZE
  = sector st.
Proof.
  intros Hlen. apply list_eq. intros i. rewrite list_lookup_fmap.
  destruct (decide (i < length (sector st))%nat) as [Hi|Hi].
  - rewrite lookup_seqZ_lt by lia. simpl.
    destruct (lookup_lt_is_Some_2 (sector st) i Hi) as [x Hx].
    rewrite Hx. f_equal. unfold _FB, array_get.
    replace (FLASH_DATA_START + (0 + Z.of_nat i) - FLASH_DATA_START)
      with (Z.of_nat i) by lia.
    destruct (Z.ltb_spec (Z.of_nat i) 0); [lia|].
    by rewrite Nat2Z.id, Hx.
  - rewrite lookup_seqZ_ge by lia. simpl.
    symmetry. apply lookup_ge_None. lia.
Qed.

(** Erase, then program the staged mirror: with the eight-byte sector at
    [0x80000], the address [LaunchCommand] writes into the registers, the
    sector becomes the mirror. *)
Lemma commit_mirror (st : Flash) :
  FTFE_ready st ->
  command (CommonCommandObject st) = PROGRAM_PHRASE_COMMAND ->
  length (sector st) = 8%nat ->
  length (data (CommonCommandObject st)) = 8%nat ->
  Forall is_byte (data (CommonCommandObject st)) ->
  exists st',
    (erased <- Flash_Erase 0x80000 8 ;;
     launched <- launch_program 0x80000 8 ;;
     ret (true && erased && launched)) st = Some (true, st') /\
    sector st' = data (CommonCommandObject st) /\
    FTFE_FSTAT st' = FTFE_FSTAT st /\
    length (FTFE_FCCOB st') = 12%nat.
Proof.
  intros [Hccif Hregs] Hcmd Hlen Hdlen Hbytes.
  destruct st as [s f regs [c d]]. simpl in *. subst c.
  destruct (list_length_8 s Hlen)
    as (b0 & b1 & b2 & b3 & b4 & b5 & b6 & b7 & ->).
  destruct (list_length_8 d Hdlen)
    as (d0 & d1 & d2 & d3 & d4 & d5 & d6 & d7 & ->).
  destruct (list_length_12 regs Hregs)
    as (r0 & r1 & r2 & r3 & r4 & r5 & r6 & r7 & r8 & r9 & r10 & r11 & ->).
  repeat match goal with
         | H : Forall _ (_ :: _) |- _ => apply Forall_cons in H; destruct H
         end.
  unfold Flash_Erase, LaunchCommand.
  cbn [command SetupCommand].
  change (ERASE_FLASH_SECTOR_COMMAND =? PROGRAM_PHRASE_COMMAND) with false.
  change (ERASE_FLASH_SECTOR_COMMAND =? ERASE_FLASH_SECTOR_COMMAND) with true.
  cbv iota.
  repeat flash_step Hccif.
  eval_execute.
  rewrite bind_launch_program. unfold LaunchCommand, ProgramPhrase.
  cbn [command CommonCommandObject].
  change (7 =? PROGRAM_PHRASE_COMMAND) with true.
  cbv iota.
  repeat flash_step Hccif.
  eval_execute.
  repeat flash_step Hccif.
  eexists. split; [reflexivity|].
  lazy -[Z.land]. split; [|done].
  repeat f_equal; by apply land_255_byte.
Qed.

(** An aligned write inside the sector: the run and the new sector. *)
Lemma Flash_Write_ok (w : width) (o v : Z) (st : Flash) :
  sector_wf 8 st -> FTFE_ready st ->
  0 <= o < 8 -> o mod width_bytes w = 0 ->
  0 <= v < 2 ^ (8 * width_bytes w) ->
  exists st',
    Flash_Write 0x80000 8 w (0x80000 + o) v st = Some (true, st') /\
    sector st' = store_le (Z.to_nat (width_bytes w)) o v (sector st) /\
    FTFE_FSTAT st' = FTFE_FSTAT st /\
    length (FTFE_FCCOB st') = 12%nat.
Proof.
  intros [Hlen Hbytes] [Hccif Hregs] Ho Hal Hv.
  destruct st as [s f regs cco]. cbn [sector FTFE_FSTAT FTFE_FCCOB] in *.
  assert (Hguard : (o <? 0) = false /\ (o >=? 8) = false).
  { split; [apply Z.ltb_ge; lia|rewrite Z.geb_leb; apply Z.leb_gt; lia]. }
  destruct Hguard as [Hg1 Hg2].
  destruct w; cbn [width_bytes] in Hal, Hv;
    cbv [Flash_Write Flash_Write8 Flash_Write16 Flash_Write32 Flash_Write64];
    rewrite write_index_small by lia;
    rewrite Hg1, Hg2, ?Hal; cbn [orb negb Z.eqb];
    unfold setup_program, FlashBackup, store_data;
    repeat first [ rewrite bind_assoc | rewrite bind_ret_l
                 | rewrite bind_modify_l ];
    cbv [set_CommonCommandObject SetupCommand sector FTFE_FSTAT FTFE_FCCOB
         CommonCommandObject command data];
    rewrite FlashBackup_data by exact Hlen;
    cbv [sector];
    match goal with
    | |- context [bind (Flash_Erase _ _) _ ?S] =>
        destruct (commit_mirror S) as (st' & Hrun & Hsec & Hfs & Hlr);
          [ by split
          | reflexivity
          | exact Hlen
          | cbv [CommonCommandObject data]; by rewrite !length_array_set
          | cbv [CommonCommandObject data];
            repeat (apply Forall_array_set;
                    [|first [apply land_255_is_byte | unfold is_byte; lia]]);
            exact Hbytes
          | ]
    end.
  all: exists st'; split; [exact Hrun|]; split; [|by split].
  all: refine (eq_trans Hsec _);
    cbn [CommonCommandObject data width_bytes Z.to_nat Pos.to_nat Pos.iter_op
         Init.Nat.add store_le].
  all: repeat (apply array_set_ext; [|lia|]); try reflexivity.
  all: try (clear; bytes_arith).
  unfold is_byte in *. rewrite land_255. symmetry. apply Z.mod_small. lia.
Qed.

Lemma byte_of_0 v : byte_of v 0 = Z.land v 0xFF.
Proof. unfold byte_of. by rewrite Z.shiftr_0_r. Qed.

Lemma byte_of_shiftr v k :
  0 <= k -> byte_of (Z.shiftr v 8) k = byte_of v (k + 1).
Proof.
  intros Hk. unfold byte_of. rewrite Z.shiftr_shiftr by lia.
  do 2 f_equal. lia.
Qed.

Lemma byte_of_is_byte v k : is_byte (byte_of v k).
Proof. apply land_255_is_byte. Qed.

Lemma length_store_le n : forall o v s, length (store_le n o v s) = length s.
Proof.
  induction n as [|n IH]; intros o v s; simpl; [done|].
  by rewrite IH, length_array_set.
Qed.

Lemma array_get_store_le n : forall o v s j,
  0 <= o -> (Z.to_nat o + n <= length s)%nat -> 0 <= j ->
  array_get (store_le n o v s) j
  = if (o <=? j) && (j <? o + Z.of_nat n) then byte_of v (j - o)
    else array_get s j.
Proof.
  induction n as [|n IH]; intros o v s j Ho Hlen Hj; simpl store_le.
  - destruct (Z.leb_spec o j), (Z.ltb_spec j (o + Z.of_nat 0)); simpl;
      try done; lia.
  - rewrite IH; [|lia|rewrite length_array_set; lia|lia].
    destruct (Z.leb_spec (o + 1) j), (Z.ltb_spec j (o + 1 + Z.of_nat n)),
             (Z.leb_spec o j), (Z.ltb_spec j (o + Z.of_nat (S n)));
      simpl; try lia.
    + rewrite byte_of_shiftr by lia. f_equal. lia.
    + apply array_get_set_ne; lia.
    + assert (j = o) as -> by lia. rewrite Z.sub_diag, byte_of_0.
      apply array_get_set_eq; lia.
    + apply array_get_set_ne; lia.
Qed.

Lemma Forall_store_le n : forall o v s,
  Forall is_byte s -> Forall is_byte (store_le n o v s).
Proof.
  induction n as [|n IH]; intros o v s Hs; simpl; [done|].
  apply IH, Forall_array_set; [done|]. apply land_255_is_byte.
Qed.

(** What a successful aligned write leaves in the sector. *)
Lemma Flash_Write_sector (w : width) (o v : Z) (st : Flash) :
  sector_wf 8 st -> FTFE_ready st ->
  0 <= o < 8 -> o mod width_bytes w = 0 ->
  0 <= v < 2 ^ (8 * width_bytes w) ->
  exists st',
    Flash_Write 0x80000 8 w (0x80000 + o) v st = Some (true, st') /\
    sector_wf 8 st' /\ FTFE_ready st' /\
    forall j, 0 <= j ->
      _FB 0x80000 (0x80000 + j) st'
      = if (o <=? j) && (j <? o + width_bytes w) then byte_of v (j - o)
        else _FB 0x80000 (0x80000 + j) st.
Proof.
  intros Hwf Hready Ho Hal Hv.
  destruct (Flash_Write_ok w o v st Hwf Hready Ho Hal Hv)
    as (st' & Hrun & Hsec & Hfs & Hlr).
  destruct Hwf as [Hlen Hb]. destruct Hready as [Hc _].
  assert (Hfit : o + width_bytes w <= 8).
  { destruct w; simpl in *; Z.div_mod_to_equations; lia. }
  exists st'. split; [exact Hrun|]. split; [|split].
  - split; rewrite Hsec; [by rewrite length_store_le|by apply Forall_store_le].
  - split; [by rewrite Hfs|done].
  - intros j Hj. unfold _FB. rewrite Hsec.
    replace (524288 + j - 524288) with j by lia.
    rewrite array_get_store_le by (destruct w; simpl in *; lia).
    replace (Z.of_nat (Z.to_nat (width_bytes w))) with (width_bytes w)
      by (destruct w; reflexivity).
    reflexivity.
Qed.

(** C10.  With the eight-byte sector at [0x80000] and an idle controller,
    a write of any width at an aligned offset inside the sector succeeds,
    and afterwards the byte at offset [o + k] of the sector is byte [k] of
    the value, counting from the least significant byte: the value is
    stored in little-endian order. *)
Theorem Flash_Write_little_endian (FLASH_DATA_START FLASH_SIZE : Z)
    (w : width) (o v : Z) (st : Flash) :
  FLASH_DATA_START = 0x80000 ->
  FLASH_SIZE = 8 ->
  sector_wf FLASH_SIZE st ->
  FTFE_ready st ->
  0 <= o < FLASH_SIZE ->
  o mod width_bytes w = 0 ->
  0 <= v < 2 ^ (8 * width_bytes w) ->
  exists st',
    Flash_Write FLASH_DATA_START FLASH_SIZE w (FLASH_DATA_START + o) v st
      = Some (true, st') /\
    forall k, 0 <= k < width_bytes w ->
      _FB FLASH_DATA_START (FLASH_DATA_START + (o + k)) st' = byte_of v k.
Proof.
  intros -> -> Hwf Hready Ho Hal Hv.
  destruct (Flash_Write_sector w o v st Hwf Hready Ho Hal Hv)
    as (st' & Hrun & _ & _ & Hget).
  exists st'. split; [exact Hrun|].
  intros k Hk. rewrite Hget by lia.
  destruct (Z.leb_spec o (o + k)); [|lia].
  destruct (Z.ltb_spec (o + k) (o + width_bytes w)); [|lia].
  simpl. f_equal. lia.
Qed.

(** C6.  With the eight-byte sector at [0x80000] and an idle controller,
    a write of any width at an aligned offset inside the sector succeeds,
    sets the bytes at offsets [o .. o + width - 1] to the bytes of the value
    and leaves every other byte of the sector as it was.  In particular,
    after writing [0xABCD] at offset 0 and then [0x00FF] at offset 4, the
    half-word at offset 0 still reads [0xABCD]. *)
Theorem Flash_Write_changes_only_target (FLASH_DATA_START FLASH_SIZE : Z)
    (w : width) (o v : Z) (st : Flash) :
  FLASH_DATA_START = 0x80000 ->
  FLASH_SIZE = 8 ->
  sector_wf FLASH_SIZE st ->
  FTFE_ready st ->
  0 <= o < FLASH_SIZE ->
  o mod width_bytes w = 0 ->
  0 <= v < 2 ^ (8 * width_bytes w) ->
  (exists st',
     Flash_Write FLASH_DATA_START FLASH_SIZE w (FLASH_DATA_START + o) v st
       = Some (true, st') /\
     length (sector st') = length (sector st) /\
     (forall k, 0 <= k < width_bytes w ->
        _FB FLASH_DATA_START (FLASH_DATA_START + (o + k)) st' = byte_of v k) /\
     (forall j, 0 <= j < FLASH_SIZE -> ~ (o <= j < o + width_bytes w) ->
        _FB FLASH_DATA_START (FLASH_DATA_START + j) st'
        = _FB FLASH_DATA_START (FLASH_DATA_START + j) st)) /\
  (exists st1 st2,
     Flash_Write16 FLASH_DATA_START FLASH_SIZE (FLASH_DATA_START + 0) 0xABCD st
       = Some (true, st1) /\
     Flash_Write16 FLASH_DATA_START FLASH_SIZE (FLASH_DATA_START + 4) 0x00FF st1
       = Some (true, st2) /\
     _FB FLASH_DATA_START (FLASH_DATA_START + 0) st2
     + 2 ^ 8 * _FB FLASH_DATA_START (FLASH_DATA_START + 1) st2 = 0xABCD).
Proof.
  intros -> -> Hwf Hready Ho Hal Hv. split.
  - destruct (Flash_Write_sector w o v st Hwf Hready Ho Hal Hv)
      as (st' & Hrun & [Hlen' _] & _ & Hget).
    exists st'. split; [exact Hrun|].
    split; [destruct Hwf as [Hlen _]; congruence|]. split.
    + intros k Hk. rewrite Hget by lia.
      destruct (Z.leb_spec o (o + k)); [|lia].
      destruct (Z.ltb_spec (o + k) (o + width_bytes w)); [|lia].
      simpl. f_equal. lia.
    + intros j Hj Hout. rewrite Hget by lia.
      destruct (Z.leb_spec o j), (Z.ltb_spec j (o + width_bytes w));
        simpl; try done; lia.
  - destruct (Flash_Write_sector W16 0 0xABCD st Hwf Hready)
      as (st1 & Hrun1 & Hwf1 & Hready1 & Hget1); [lia|done|simpl; lia|].
    destruct (Flash_Write_sector W16 4 0x00FF st1 Hwf1 Hready1)
      as (st2 & Hrun2 & _ & _ & Hget2); [lia|done|simpl; lia|].
    exists st1, st2. split; [exact Hrun1|]. split; [exact Hrun2|].
    rewrite !Hget2, !Hget1 by lia. reflexivity.
Qed.

End Flash_facts.

Lemma Flash_Write_little_endian_witness :
  0x80000 = 0x80000 /\
  8 = 8 /\
  sector_wf 8 (flash8 [1; 2; 3; 4; 5; 6; 7; 8]) /\
  FTFE_ready (flash8 [1; 2; 3; 4; 5; 6; 7; 8]) /\
  0 <= 4 < 8 /\
  4 mod width_bytes W32 = 0 /\
  0 <= 0x01020304 < 2 ^ (8 * width_bytes W32) /\
  exists st',
    Flash_Write 0x80000 8 W32 (0x80000 + 4) 0x01020304
      (flash8 [1; 2; 3; 4; 5; 6; 7; 8]) = Some (true, st') /\
    forall k, 0 <= k < width_bytes W32 ->
      _FB 0x80000 (0x80000 + (4 + k)) st' = byte_of 0x01020304 k.
Proof.
  assert (H1 : sector_wf 8 (flash8 [1; 2; 3; 4; 5; 6; 7; 8])).
  { split; [reflexivity|]. repeat constructor; unfold is_byte; lia. }
  assert (H2 : FTFE_ready (flash8 [1; 2; 3; 4; 5; 6; 7; 8]))
    by (split; reflexivity).
  assert (H3 : 0 <= 4 < 8) by lia.
  assert (H4 : 4 mod width_bytes W32 = 0) by reflexivity.
  assert (H5 : 0 <= 0x01020304 < 2 ^ (8 * width_bytes W32)) by (simpl; lia).
  split; [reflexivity|]. split; [reflexivity|].
  repeat (split; [assumption|]).
  exact (Flash_Write_little_endian 0x80000 8 W32 4 0x01020304 _
           eq_refl eq_refl H1 H2 H3 H4 H5).
Defined.

Lemma Flash_Write_changes_only_target_witness :
  0x80000 = 0x80000 /\
  8 = 8 /\
  sector_wf 8 (flash8 [1; 2; 3; 4; 5; 6; 7; 8]) /\
  FTFE_ready (flash8 [1; 2; 3; 4; 5; 6; 7; 8]) /\
  0 <= 2 < 8 /\
  2 mod width_bytes W16 = 0 /\
  0 <= 0x1234 < 2 ^ (8 * width_bytes W16) /\
  (exists st',
     Flash_Write 0x80000 8 W16 (0x80000 + 2) 0x1234
       (flash8 [1; 2; 3; 4; 5; 6; 7; 8]) = Some (true, st') /\
     length (sector st') = length (sector (flash8 [1; 2; 3; 4; 5; 6; 7; 8])) /\
     (forall k, 0 <= k < width_bytes W16 ->
        _FB 0x80000 (0x80000 + (2 + k)) st' = byte_of 0x1234 k) /\
     (forall j, 0 <= j < 8 -> ~ (2 <= j < 2 + width_bytes W16) ->
        _FB 0x80000 (0x80000 + j) st'
        = _FB 0x80000 (0x80000 + j) (flash8 [1; 2; 3; 4; 5; 6; 7; 8]))) /\
  (exists st1 st2,
     Flash_Write16 0x80000 8 (0x80000 + 0) 0xABCD
       (flash8 [1; 2; 3; 4; 5; 6; 7; 8]) = Some (true, st1) /\
     Flash_Write16 0x80000 8 (0x80000 + 4) 0x00FF st1 = Some (true, st2) /\
     _FB 0x80000 (0x80000 + 0) st2 + 2 ^ 8 * _FB 0x80000 (0x80000 + 1) st2
     = 0xABCD).
Proof.
  assert (H1 : sector_wf 8 (flash8 [1; 2; 3; 4; 5; 6; 7; 8])).
  { split; [reflexivity|]. repeat constructor; unfold is_byte; lia. }
  assert (H2 : FTFE_ready (flash8 [1; 2; 3; 4; 5; 6; 7; 8]))
    by (split; reflexivity).
  assert (H3 : 0 <= 2 < 8) by lia.
  assert (H4 : 2 mod width_bytes W16 = 0) by reflexivity.
  assert (H5 : 0 <= 0x1234 < 2 ^ (8 * width_bytes W16)) by (simpl; lia).
  split; [reflexivity|]. split; [reflexivity|].
  repeat (split; [assumption|]).
  exact (Flash_Write_changes_only_target 0x80000 8 W16 2 0x1234 _
           eq_refl eq_refl H1 H2 H3 H4 H5).
Defined.

(** * The rest of the firmware: properties *)

(** ** Ring buffers under arbitrary use *)

Section FIFO_run_facts.

Variable FIFO_SIZE : Z.

Lemma FIFO_Put_full F b :
  FIFO_SIZE <= NbBytes F -> FIFO_Put FIFO_SIZE F b = (false, F).
Proof.
  intros H. unfold FIFO_Put.
  destruct (Z.ltb_spec (NbBytes F) FIFO_SIZE); [lia|done].
Qed.

Lemma FIFO_Get_empty F :
  NbBytes F <= 0 -> FIFO_Get FIFO_SIZE F = (None, F).
Proof.
  intros H. unfold FIFO_Get.
  destruct (Z.ltb_spec 0 (NbBytes F)); [lia|done].
Qed.

Lemma FIFO_wf_count F :
  FIFO_wf FIFO_SIZE F ->
  NbBytes F = Z.of_nat (length (FIFO_contents FIFO_SIZE F)) /\
  0 <= NbBytes F <= FIFO_SIZE.
Proof.
  intros (_ & _ & _ & Hnb & _). rewrite FIFO_contents_length. lia.
Qed.

(** Every call keeps the invariant and does to the queue what the contract
    says. *)
Lemma FIFO_run_sim ops : forall F,
  FIFO_wf FIFO_SIZE F ->
  fst (FIFO_run FIFO_SIZE F ops)
    = fst (queue_run (Z.to_nat FIFO_SIZE) (FIFO_contents FIFO_SIZE F) ops) /\
  FIFO_wf FIFO_SIZE (snd (FIFO_run FIFO_SIZE F ops)) /\
  FIFO_contents FIFO_SIZE (snd (FIFO_run FIFO_SIZE F ops))
    = snd (queue_run (Z.to_nat FIFO_SIZE) (FIFO_contents FIFO_SIZE F) ops).
Proof.
  induction ops as [|[b|] ops IH]; intros F Hwf; [done| |].
  - destruct (FIFO_wf_count F Hwf) as [Hn Hb].
    cbn [FIFO_run queue_run].
    destruct (Nat.ltb_spec (length (FIFO_contents FIFO_SIZE F))
                (Z.to_nat FIFO_SIZE)) as [Hlt|Hge].
    + destruct (FIFO_Put_ok FIFO_SIZE F b Hwf) as (F1 & -> & Hwf1 & _ & Hc1);
        [lia|].
      destruct (IH F1 Hwf1) as (IH1 & IH2 & IH3). rewrite Hc1 in IH1, IH3.
      destruct (FIFO_run FIFO_SIZE F1 ops) as [rs F2].
      destruct (queue_run _ _ ops) as [rs' q']. simpl in *.
      by subst.
    + rewrite FIFO_Put_full by lia.
      destruct (IH F Hwf) as (IH1 & IH2 & IH3).
      destruct (FIFO_run FIFO_SIZE F ops) as [rs F2].
      destruct (queue_run _ _ ops) as [rs' q']. simpl in *.
      by subst.
  - destruct (FIFO_wf_count F Hwf) as [Hn Hb].
    cbn [FIFO_run queue_run].
    destruct (Z.eq_dec (NbBytes F) 0) as [H0|H0].
    + rewrite FIFO_Get_empty by lia.
      rewrite (FIFO_contents_empty FIFO_SIZE F H0).
      destruct (IH F Hwf) as (IH1 & IH2 & IH3).
      rewrite (FIFO_contents_empty FIFO_SIZE F H0) in IH1, IH3.
      destruct (FIFO_run FIFO_SIZE F ops) as [rs F2].
      destruct (queue_run _ _ ops) as [rs' q']. simpl in *.
      by subst.
    + destruct (FIFO_Get_ok FIFO_SIZE F Hwf)
        as (b & l & F1 & Hc & -> & Hwf1 & _ & Hc1); [lia|].
      rewrite Hc.
      destruct (IH F1 Hwf1) as (IH1 & IH2 & IH3). rewrite Hc1 in IH1, IH3.
      destruct (FIFO_run FIFO_SIZE F1 ops) as [rs F2].
      destruct (queue_run _ _ ops) as [rs' q']. simpl in *.
      by subst.
Qed.

(** X1.  A ring buffer that satisfies the invariant behaves, under any
    sequence of puts and gets, as a queue of capacity [FIFO_SIZE]: every
    call returns what the queue returns, the invariant still holds at the
    end, the bytes held are those of the queue, in its order, and the count
    is their number. *)
Theorem FIFO_run_refines_queue (F : TFIFO) (ops : list FIFO_op) :
  FIFO_wf FIFO_SIZE F ->
  let capacity := Z.to_nat FIFO_SIZE in
  let q := FIFO_contents FIFO_SIZE F in
  let F' := snd (FIFO_run FIFO_SIZE F ops) in
  fst (FIFO_run FIFO_SIZE F ops) = fst (queue_run capacity q ops) /\
  FIFO_wf FIFO_SIZE F' /\
  FIFO_contents FIFO_SIZE F' = snd (queue_run capacity q ops) /\
  NbBytes F' = Z.of_nat (length (snd (queue_run capacity q ops))) /\
  NbBytes F' <= FIFO_SIZE.
Proof.
  intros Hwf capacity q F'.
  destruct (FIFO_run_sim ops F Hwf) as (H1 & H2 & H3).
  fold F' in H2, H3. fold q capacity in H1, H3.
  destruct (FIFO_wf_count F' H2) as [Hn Hb].
  rewrite H3 in Hn. split; [done|]. split; [done|]. split; [done|].
  split; [done|lia].
Qed.

(** X2.  [FIFO_Init] makes a queue of any structure whose array has
    [FIFO_SIZE] places, whatever its indices and its count were: the
    calls that follow behave as those on a queue that starts empty. *)
Theorem FIFO_Init_starts_empty_queue (F : TFIFO) (ops : list FIFO_op) :
  0 < FIFO_SIZE ->
  length (Buffer F) = Z.to_nat FIFO_SIZE ->
  let capacity := Z.to_nat FIFO_SIZE in
  let F' := snd (FIFO_run FIFO_SIZE (FIFO_Init F) ops) in
  FIFO_contents FIFO_SIZE (FIFO_Init F) = [] /\
  fst (FIFO_run FIFO_SIZE (FIFO_Init F) ops)
    = fst (queue_run capacity [] ops) /\
  FIFO_wf FIFO_SIZE F' /\
  FIFO_contents FIFO_SIZE F' = snd (queue_run capacity [] ops).
Proof.
  intros HS Hlen capacity F'.
  destruct (FIFO_Init_wf FIFO_SIZE F HS Hlen) as [Hwf H0].
  pose proof (FIFO_contents_empty FIFO_SIZE _ H0) as Hc.
  destruct (FIFO_run_sim ops _ Hwf) as (H1 & H2 & H3).
  rewrite Hc in H1, H3. done.
Qed.

End FIFO_run_facts.

Lemma FIFO_run_refines_queue_witness :
  FIFO_wf 4 fifo4_full /\
  fst (FIFO_run 4 fifo4_full [Op_Put 50; Op_Get; Op_Put 60; Op_Get])
  = [Res_Put false; Res_Get (Some 20); Res_Put true; Res_Get (Some 30)].
Proof.
  assert (H1 : FIFO_wf 4 fifo4_full).
  { unfold FIFO_wf. simpl. repeat split; try reflexivity; lia. }
  split; [exact H1|].
  exact (proj1 (FIFO_run_refines_queue 4 fifo4_full
                  [Op_Put 50; Op_Get; Op_Put 60; Op_Get] H1)).
Defined.

Lemma FIFO_Init_starts_empty_queue_witness :
  0 < 4 /\ length (Buffer fifo4_full) = Z.to_nat 4 /\
  FIFO_contents 4 (FIFO_Init fifo4_full) = [].
Proof.
  assert (H1 : 0 < 4) by lia.
  assert (H2 : length (Buffer fifo4_full) = Z.to_nat 4) by reflexivity.
  split; [exact H1|]. split; [exact H2|].
  exact (proj1 (FIFO_Init_starts_empty_queue 4 fifo4_full [] H1 H2)).
Defined.

(** ** Register bits *)

Lemma bits_set_testbit x k : 0 <= k -> bits_set x (2 ^ k) = Z.testbit x k.
Proof.
  intros Hk. unfold bits_set.
  destruct (Z.testbit x k) eqn:E.
  - destruct (Z.eqb_spec (Z.land x (2 ^ k)) 0) as [H0|]; [|done].
    apply (f_equal (fun y => Z.testbit y k)) in H0.
    rewrite Z.land_spec, E, Z.pow2_bits_true, Z.bits_0 in H0 by done.
    discriminate.
  - destruct (Z.eqb_spec (Z.land x (2 ^ k)) 0) as [|Hne]; [done|].
    exfalso. apply Hne. apply Z.bits_inj'. intros n Hn.
    rewrite Z.land_spec, Z.bits_0, Z.pow2_bits_eqb by done.
    destruct (Z.eqb_spec k n) as [->|]; [by rewrite E|apply andb_false_r].
Qed.

Lemma testbit_clear_bits8 x k j :
  0 <= k -> 0 <= j < 8 ->
  Z.testbit (clear_bits8 x (2 ^ k)) j = Z.testbit x j && negb (k =? j).
Proof.
  intros Hk Hj. unfold clear_bits8, uint8.
  rewrite Z.mod_pow2_bits_low by lia.
  rewrite Z.land_spec, Z.lnot_spec, Z.pow2_bits_eqb by lia. done.
Qed.

Lemma testbit_lor_pow2 x k j :
  0 <= k -> 0 <= j ->
  Z.testbit (Z.lor x (2 ^ k)) j = Z.testbit x j || (k =? j).
Proof. intros Hk Hj. by rewrite Z.lor_spec, Z.pow2_bits_eqb. Qed.

Lemma bits_set_clear x k j :
  0 <= k < 8 -> 0 <= j < 8 ->
  bits_set (clear_bits8 x (2 ^ k)) (2 ^ j)
  = bits_set x (2 ^ j) && negb (k =? j).
Proof.
  intros Hk Hj. rewrite !bits_set_testbit by lia.
  apply testbit_clear_bits8; lia.
Qed.

Lemma bits_set_lor x k j :
  0 <= k -> 0 <= j ->
  bits_set (Z.lor x (2 ^ k)) (2 ^ j) = bits_set x (2 ^ j) || (k =? j).
Proof.
  intros Hk Hj. rewrite !bits_set_testbit by lia.
  apply testbit_lor_pow2; lia.
Qed.

(** The two masks of each register select different bits. *)
Lemma clear_RDRF_RDRF x :
  bits_set (clear_bits8 x UART_S1_RDRF_MASK) UART_S1_RDRF_MASK = false.
Proof. exact (eq_trans (bits_set_clear x 5 5 ltac:(lia) ltac:(lia)) (andb_false_r _)). Qed.

Lemma clear_RDRF_TDRE x :
  bits_set (clear_bits8 x UART_S1_RDRF_MASK) UART_S1_TDRE_MASK
  = bits_set x UART_S1_TDRE_MASK.
Proof. exact (eq_trans (bits_set_clear x 5 7 ltac:(lia) ltac:(lia)) (andb_true_r _)). Qed.

Lemma clear_TDRE_TDRE x :
  bits_set (clear_bits8 x UART_S1_TDRE_MASK) UART_S1_TDRE_MASK = false.
Proof. exact (eq_trans (bits_set_clear x 7 7 ltac:(lia) ltac:(lia)) (andb_false_r _)). Qed.

Lemma clear_TDRE_RDRF x :
  bits_set (clear_bits8 x UART_S1_TDRE_MASK) UART_S1_RDRF_MASK
  = bits_set x UART_S1_RDRF_MASK.
Proof. exact (eq_trans (bits_set_clear x 7 5 ltac:(lia) ltac:(lia)) (andb_true_r _)). Qed.

Lemma clear_TIE_TIE x :
  bits_set (clear_bits8 x UART_C2_TIE_MASK) UART_C2_TIE_MASK = false.
Proof. exact (eq_trans (bits_set_clear x 7 7 ltac:(lia) ltac:(lia)) (andb_false_r _)). Qed.

Lemma clear_TIE_RIE x :
  bits_set (clear_bits8 x UART_C2_TIE_MASK) UART_C2_RIE_MASK
  = bits_set x UART_C2_RIE_MASK.
Proof. exact (eq_trans (bits_set_clear x 7 5 ltac:(lia) ltac:(lia)) (andb_true_r _)). Qed.

Lemma lor_RDRF_RDRF x :
  bits_set (Z.lor x UART_S1_RDRF_MASK) UART_S1_RDRF_MASK = true.
Proof. exact (eq_trans (bits_set_lor x 5 5 ltac:(lia) ltac:(lia)) (orb_true_r _)). Qed.

Lemma lor_RDRF_TDRE x :
  bits_set (Z.lor x UART_S1_RDRF_MASK) UART_S1_TDRE_MASK
  = bits_set x UART_S1_TDRE_MASK.
Proof. exact (eq_trans (bits_set_lor x 5 7 ltac:(lia) ltac:(lia)) (orb_false_r _)). Qed.

Lemma lor_TDRE_TDRE x :
  bits_set (Z.lor x UART_S1_TDRE_MASK) UART_S1_TDRE_MASK = true.
Proof. exact (eq_trans (bits_set_lor x 7 7 ltac:(lia) ltac:(lia)) (orb_true_r _)). Qed.

Lemma lor_TDRE_RDRF x :
  bits_set (Z.lor x UART_S1_TDRE_MASK) UART_S1_RDRF_MASK
  = bits_set x UART_S1_RDRF_MASK.
Proof. exact (eq_trans (bits_set_lor x 7 5 ltac:(lia) ltac:(lia)) (orb_false_r _)). Qed.

Lemma lor_TIE_TIE x :
  bits_set (Z.lor x UART_C2_TIE_MASK) UART_C2_TIE_MASK = true.
Proof. exact (eq_trans (bits_set_lor x 7 7 ltac:(lia) ltac:(lia)) (orb_true_r _)). Qed.

Lemma lor_TIE_RIE x :
  bits_set (Z.lor x UART_C2_TIE_MASK) UART_C2_RIE_MASK
  = bits_set x UART_C2_RIE_MASK.
Proof. exact (eq_trans (bits_set_lor x 7 5 ltac:(lia) ltac:(lia)) (orb_false_r _)). Qed.

(** ** The interrupt handler *)

Section UART_facts.

Variable FIFO_SIZE : Z.


(** What the transmit half leaves alone. *)
Lemma UART_ISR_transmit_keeps s :
  let s' := UART_ISR_transmit FIFO_SIZE s in
  (RxFIFO (serial_tower s')) = (RxFIFO (serial_tower s)) /\ (bits_set (UART2_C2 (serial_tower s')) UART_C2_RIE_MASK) = (bits_set (UART2_C2 (serial_tower s)) UART_C2_RIE_MASK) /\ (bits_set (UART2_S1 s') UART_S1_RDRF_MASK) = (bits_set (UART2_S1 s) UART_S1_RDRF_MASK) /\
  UART2_D s' = UART2_D s /\
  Packet_Command (serial_tower s') = Packet_Command (serial_tower s) /\
  Packet_Parameter1 (serial_tower s') = Packet_Parameter1 (serial_tower s) /\
  Packet_Parameter2 (serial_tower s') = Packet_Parameter2 (serial_tower s) /\
  Packet_Parameter3 (serial_tower s') = Packet_Parameter3 (serial_tower s) /\
  Packet_Checksum (serial_tower s') = Packet_Checksum (serial_tower s) /\
  ByteCount (serial_tower s') = ByteCount (serial_tower s).
Proof.
  unfold UART_ISR_transmit.
  destruct ((bits_set (UART2_C2 (serial_tower s)) UART_C2_TIE_MASK)); [|done]. destruct ((bits_set (UART2_S1 s) UART_S1_TDRE_MASK)); [|done].
  destruct (FIFO_Get _ _) as [[d|] F]; simpl;
    rewrite ?clear_TDRE_RDRF, ?clear_TIE_RIE; done.
Qed.

(** What the receive half leaves alone. *)
Lemma UART_ISR_receive_keeps s :
  let s' := UART_ISR_receive FIFO_SIZE s in
  (TxFIFO (serial_tower s')) = (TxFIFO (serial_tower s)) /\ UART2_C2 (serial_tower s') = UART2_C2 (serial_tower s) /\
  (bits_set (UART2_S1 s') UART_S1_TDRE_MASK) = (bits_set (UART2_S1 s) UART_S1_TDRE_MASK) /\ transmitted s' = transmitted s /\
  Packet_Command (serial_tower s') = Packet_Command (serial_tower s) /\
  Packet_Parameter1 (serial_tower s') = Packet_Parameter1 (serial_tower s) /\
  Packet_Parameter2 (serial_tower s') = Packet_Parameter2 (serial_tower s) /\
  Packet_Parameter3 (serial_tower s') = Packet_Parameter3 (serial_tower s) /\
  Packet_Checksum (serial_tower s') = Packet_Checksum (serial_tower s) /\
  ByteCount (serial_tower s') = ByteCount (serial_tower s).
Proof.
  unfold UART_ISR_receive.
  destruct ((bits_set (UART2_C2 (serial_tower s)) UART_C2_RIE_MASK)); [|done]. destruct ((bits_set (UART2_S1 s) UART_S1_RDRF_MASK)); [|done].
  destruct (FIFO_Put _ _ _) as [r F]; simpl;
    rewrite ?clear_RDRF_TDRE; done.
Qed.

(** The receive half takes the byte in the data register when the receive
    interrupt is enabled and a byte has arrived. *)
Lemma UART_ISR_receive_byte s :
  (bits_set (UART2_C2 (serial_tower s)) UART_C2_RIE_MASK) = true -> (bits_set (UART2_S1 s) UART_S1_RDRF_MASK) = true ->
  let s' := UART_ISR_receive FIFO_SIZE s in
  (RxFIFO (serial_tower s')) = snd (FIFO_Put FIFO_SIZE ((RxFIFO (serial_tower s))) (UART2_D s)) /\
  (bits_set (UART2_S1 s') UART_S1_RDRF_MASK) = false.
Proof.
  intros H1 H2. unfold UART_ISR_receive. rewrite H1, H2.
  destruct (FIFO_Put _ _ _) as [r F]; simpl.
  by rewrite clear_RDRF_RDRF.
Qed.

Lemma UART_ISR_receive_idle s :
  (bits_set (UART2_S1 s) UART_S1_RDRF_MASK) = false -> UART_ISR_receive FIFO_SIZE s = s.
Proof.
  intros H. unfold UART_ISR_receive. rewrite H. by destruct ((bits_set (UART2_C2 (serial_tower s)) UART_C2_RIE_MASK)).
Qed.

Lemma UART_ISR_transmit_idle s :
  (bits_set (UART2_C2 (serial_tower s)) UART_C2_TIE_MASK) = false \/ (bits_set (UART2_S1 s) UART_S1_TDRE_MASK) = false -> UART_ISR_transmit FIFO_SIZE s = s.
Proof.
  intros H. unfold UART_ISR_transmit.
  destruct ((bits_set (UART2_C2 (serial_tower s)) UART_C2_TIE_MASK)); [|done]. destruct ((bits_set (UART2_S1 s) UART_S1_TDRE_MASK)); [|done].
  by destruct H.
Qed.

(** The effect of a put on the queue, full or not. *)
Lemma FIFO_Put_contents F b :
  FIFO_wf FIFO_SIZE F ->
  FIFO_wf FIFO_SIZE (snd (FIFO_Put FIFO_SIZE F b)) /\
  FIFO_contents FIFO_SIZE (snd (FIFO_Put FIFO_SIZE F b))
  = FIFO_contents FIFO_SIZE F
    ++ take (Z.to_nat (FIFO_SIZE - NbBytes F)) [b] /\
  NbBytes (snd (FIFO_Put FIFO_SIZE F b))
  = NbBytes F + (if NbBytes F <? FIFO_SIZE then 1 else 0).
Proof.
  intros Hwf.
  destruct (Z.ltb_spec (NbBytes F) FIFO_SIZE) as [Hlt|Hge].
  - destruct (FIFO_Put_ok FIFO_SIZE F b Hwf Hlt) as (F1 & -> & Hwf1 & Hn & Hc).
    simpl. split; [done|]. split; [|done]. rewrite Hc. f_equal.
    replace (Z.to_nat (FIFO_SIZE - NbBytes F))
      with (S (Z.to_nat (FIFO_SIZE - NbBytes F - 1))) by lia.
    simpl. by rewrite take_nil.
  - rewrite FIFO_Put_full by lia. simpl. split; [done|]. split; [|lia].
    replace (Z.to_nat (FIFO_SIZE - NbBytes F)) with 0%nat by lia.
    by rewrite take_0, app_nil_r.
Qed.

Lemma UART_ISR_run_receives_gen es : forall s,
  FIFO_wf FIFO_SIZE ((RxFIFO (serial_tower s))) ->
  (bits_set (UART2_C2 (serial_tower s)) UART_C2_RIE_MASK) = true ->
  (bits_set (UART2_S1 s) UART_S1_RDRF_MASK) = false ->
  let s' := UART_ISR_run FIFO_SIZE es s in
  FIFO_wf FIFO_SIZE ((RxFIFO (serial_tower s'))) /\
  FIFO_contents FIFO_SIZE ((RxFIFO (serial_tower s')))
  = FIFO_contents FIFO_SIZE ((RxFIFO (serial_tower s)))
    ++ take (Z.to_nat (FIFO_SIZE - NbBytes ((RxFIFO (serial_tower s))))) (arrivals es) /\
  (bits_set (UART2_C2 (serial_tower s')) UART_C2_RIE_MASK) = true /\ (bits_set (UART2_S1 s') UART_S1_RDRF_MASK) = false /\
  Packet_Command (serial_tower s') = Packet_Command (serial_tower s) /\
  Packet_Parameter1 (serial_tower s') = Packet_Parameter1 (serial_tower s) /\
  Packet_Parameter2 (serial_tower s') = Packet_Parameter2 (serial_tower s) /\
  Packet_Parameter3 (serial_tower s') = Packet_Parameter3 (serial_tower s) /\
  Packet_Checksum (serial_tower s') = Packet_Checksum (serial_tower s) /\
  ByteCount (serial_tower s') = ByteCount (serial_tower s).
Proof.
  induction es as [|e es IH]; intros s Hwf Hrie Hrdrf.
  { simpl. rewrite take_nil, app_nil_r. done. }
  cbn [UART_ISR_run]. unfold UART_ISR.
  set (s0 := UART_signal e s).
  set (s1 := UART_ISR_receive FIFO_SIZE s0).
  destruct (UART_ISR_transmit_keeps s1)
    as (Hk1 & Hk2 & Hk3 & _ & Hk5 & Hk6 & Hk7 & Hk8 & Hk9 & Hk10).
  destruct (UART_ISR_receive_keeps s0)
    as (_ & Hr2 & _ & _ & Hr5 & Hr6 & Hr7 & Hr8 & Hr9 & Hr10).
  fold s1 in Hr2, Hr5, Hr6, Hr7, Hr8, Hr9, Hr10.
  set (s2 := UART_ISR_transmit FIFO_SIZE s1) in *.
  assert (Htow : serial_tower s0 = serial_tower s) by (by destruct e).
  assert (Hrie1 : (bits_set (UART2_C2 (serial_tower s2)) UART_C2_RIE_MASK) = true) by (by rewrite Hk2, Hr2, Htow).
  destruct e as [b|].
  - assert (H0 : (bits_set (UART2_S1 s0) UART_S1_RDRF_MASK) = true) by apply lor_RDRF_RDRF.
    destruct (UART_ISR_receive_byte s0) as [Hrx Hrd]; [by rewrite Htow|done|].
    fold s1 in Hrx, Hrd. rewrite Htow in Hrx.
    change (UART2_D s0) with b in Hrx.
    destruct (FIFO_Put_contents ((RxFIFO (serial_tower s))) b Hwf) as (Hwf1 & Hc1 & Hn1).
    rewrite <- Hrx, <- Hk1 in Hwf1, Hc1, Hn1.
    destruct (IH s2 Hwf1 Hrie1) as (I1 & I2 & I3 & I4 & I5 & I6 & I7 & I8 & I9 & I10);
      [by rewrite Hk3|].
    split; [done|]. split.
    { rewrite I2, Hc1, <- app_assoc. f_equal. rewrite Hn1.
      cbn [arrivals].
      destruct (Z.ltb_spec (NbBytes ((RxFIFO (serial_tower s)))) FIFO_SIZE).
      - replace (Z.to_nat (FIFO_SIZE - NbBytes ((RxFIFO (serial_tower s)))))
          with (S (Z.to_nat (FIFO_SIZE - (NbBytes ((RxFIFO (serial_tower s))) + 1)))) by lia.
        simpl. by rewrite take_nil.
      - replace (Z.to_nat (FIFO_SIZE - NbBytes ((RxFIFO (serial_tower s))))) with 0%nat by lia.
        replace (Z.to_nat (FIFO_SIZE - (NbBytes ((RxFIFO (serial_tower s))) + 0))) with 0%nat
          by lia.
        by rewrite !take_0. }
    rewrite I5, I6, I7, I8, I9, I10, Hk5, Hk6, Hk7, Hk8, Hk9, Hk10,
      Hr5, Hr6, Hr7, Hr8, Hr9, Hr10, Htow. done.
  - assert (H0 : (bits_set (UART2_S1 s0) UART_S1_RDRF_MASK) = false).
    { unfold s0. simpl. by rewrite lor_TDRE_RDRF. }
    assert (Hs1 : s1 = s0) by (by apply UART_ISR_receive_idle).
    assert (Hrx : (RxFIFO (serial_tower s2)) = (RxFIFO (serial_tower s))) by (by rewrite Hk1, Hs1, Htow).
    destruct (IH s2) as (I1 & I2 & I3 & I4 & I5 & I6 & I7 & I8 & I9 & I10);
      [by rewrite Hrx|done|by rewrite Hk3, Hs1|].
    rewrite Hrx in I2. cbn [arrivals].
    rewrite I5, I6, I7, I8, I9, I10, Hk5, Hk6, Hk7, Hk8, Hk9, Hk10,
      Hr5, Hr6, Hr7, Hr8, Hr9, Hr10, Htow. done.
Qed.

(** With the transmit interrupt disabled the handler sends nothing. *)
Lemma UART_ISR_run_TIE_clear es : forall s,
  (bits_set (UART2_C2 (serial_tower s)) UART_C2_TIE_MASK) = false ->
  let s' := UART_ISR_run FIFO_SIZE es s in
  (TxFIFO (serial_tower s')) = (TxFIFO (serial_tower s)) /\ transmitted s' = transmitted s /\ (bits_set (UART2_C2 (serial_tower s')) UART_C2_TIE_MASK) = false.
Proof.
  induction es as [|e es IH]; intros s Htie; [done|].
  cbn [UART_ISR_run]. unfold UART_ISR.
  set (s0 := UART_signal e s).
  assert (Htow : serial_tower s0 = serial_tower s) by (by destruct e).
  assert (Htr : transmitted s0 = transmitted s) by (by destruct e).
  destruct (UART_ISR_receive_keeps s0) as (Hr1 & Hr2 & _ & Hr4 & _).
  set (s1 := UART_ISR_receive FIFO_SIZE s0) in *.
  assert (Hs2 : UART_ISR_transmit FIFO_SIZE s1 = s1).
  { apply UART_ISR_transmit_idle. left. by rewrite Hr2, Htow. }
  rewrite Hs2.
  destruct (IH s1) as (I1 & I2 & I3); [by rewrite Hr2, Htow|].
  by rewrite I1, I2, I3, Hr1, Hr4, Htow, Htr.
Qed.

Lemma UART_ISR_run_transmits_gen es : forall s,
  FIFO_wf FIFO_SIZE ((TxFIFO (serial_tower s))) ->
  (bits_set (UART2_C2 (serial_tower s)) UART_C2_TIE_MASK) = true ->
  (bits_set (UART2_S1 s) UART_S1_TDRE_MASK) = false ->
  let s' := UART_ISR_run FIFO_SIZE es s in
  let queued := FIFO_contents FIFO_SIZE ((TxFIFO (serial_tower s))) in
  transmitted s' = transmitted s ++ take (requests es) queued /\
  FIFO_wf FIFO_SIZE ((TxFIFO (serial_tower s'))) /\
  FIFO_contents FIFO_SIZE ((TxFIFO (serial_tower s'))) = drop (requests es) queued /\
  (bits_set (UART2_C2 (serial_tower s')) UART_C2_TIE_MASK) = (requests es <=? length queued)%nat.
Proof.
  induction es as [|e es IH]; intros s Hwf Htie Htdre.
  { simpl. rewrite take_0, app_nil_r, drop_0. done. }
  cbn [UART_ISR_run]. unfold UART_ISR.
  set (s0 := UART_signal e s).
  assert (Htow : serial_tower s0 = serial_tower s) by (by destruct e).
  assert (Htr : transmitted s0 = transmitted s) by (by destruct e).
  destruct (UART_ISR_receive_keeps s0) as (Hr1 & Hr2 & Hr3 & Hr4 & _).
  set (s1 := UART_ISR_receive FIFO_SIZE s0) in *.
  destruct e as [b|].
  - assert (Hs2 : UART_ISR_transmit FIFO_SIZE s1 = s1).
    { apply UART_ISR_transmit_idle. right. rewrite Hr3. unfold s0. simpl.
      by rewrite lor_RDRF_TDRE. }
    rewrite Hs2.
    destruct (IH s1) as (I1 & I2 & I3 & I4).
    + by rewrite Hr1, Htow.
    + by rewrite Hr2, Htow.
    + rewrite Hr3. unfold s0. simpl. by rewrite lor_RDRF_TDRE.
    + rewrite Hr1, Htow in I1, I3, I4. rewrite Hr4, Htr in I1. done.
  - assert (Htie1 : (bits_set (UART2_C2 (serial_tower s1)) UART_C2_TIE_MASK) = true) by (by rewrite Hr2, Htow).
    assert (Htdre1 : (bits_set (UART2_S1 s1) UART_S1_TDRE_MASK) = true).
    { rewrite Hr3. unfold s0. simpl. apply lor_TDRE_TDRE. }
    assert (Hwf1 : FIFO_wf FIFO_SIZE ((TxFIFO (serial_tower s1)))) by (by rewrite Hr1, Htow).
    cbn [requests].
    destruct (Z.eq_dec (NbBytes ((TxFIFO (serial_tower s1)))) 0) as [H0|H0].
    + assert (Hq : FIFO_contents FIFO_SIZE ((TxFIFO (serial_tower s))) = []).
      { rewrite <- Htow, <- Hr1. by apply FIFO_contents_empty. }
      rewrite Hq.
      set (s2 := UART_ISR_transmit FIFO_SIZE s1).
      assert (H2 : (TxFIFO (serial_tower s2)) = (TxFIFO (serial_tower s1)) /\ transmitted s2 = transmitted s1 /\
                   (bits_set (UART2_C2 (serial_tower s2)) UART_C2_TIE_MASK) = false).
      { unfold s2, UART_ISR_transmit. rewrite Htie1, Htdre1.
        rewrite FIFO_Get_empty by lia. simpl.
        by rewrite clear_TIE_TIE. }
      destruct H2 as (H2a & H2b & H2c).
      destruct (UART_ISR_run_TIE_clear es s2 H2c) as (I1 & I2 & I3).
      rewrite I1, I2, I3, H2a, H2b, Hr4, Htr.
      rewrite take_nil, drop_nil, app_nil_r.
      split; [done|]. split; [done|]. split; [|done].
      by apply FIFO_contents_empty.
    + destruct (FIFO_wf_count FIFO_SIZE _ Hwf1) as [_ Hb].
      destruct (FIFO_Get_ok FIFO_SIZE ((TxFIFO (serial_tower s1))) Hwf1)
        as (d & l & F & Hc & Hget & HwfF & _ & HcF); [lia|].
      assert (Hq : FIFO_contents FIFO_SIZE ((TxFIFO (serial_tower s))) = d :: l).
      { by rewrite <- Htow, <- Hr1. }
      rewrite Hq.
      set (s2 := UART_ISR_transmit FIFO_SIZE s1).
      assert (H2 : (TxFIFO (serial_tower s2)) = F /\ transmitted s2 = transmitted s1 ++ [d] /\
                   (bits_set (UART2_C2 (serial_tower s2)) UART_C2_TIE_MASK) = true /\ (bits_set (UART2_S1 s2) UART_S1_TDRE_MASK) = false).
      { unfold s2, UART_ISR_transmit. rewrite Htie1, Htdre1, Hget. simpl.
        by rewrite clear_TDRE_TDRE. }
      destruct H2 as (H2a & H2b & H2c & H2d).
      destruct (IH s2) as (I1 & I2 & I3 & I4); [by rewrite H2a|done|done|].
      rewrite H2a, HcF in I1, I3, I4.
      rewrite I1, I3, I4, H2b, Hr4, Htr, <- app_assoc. done.
Qed.

(** X3.  Reception.  With the receive interrupt enabled and no byte
    pending, the handler, run after each event of any sequence of arrivals
    and transmitter requests, appends the arriving bytes to the receive
    queue in their order as long as it has a free place; bytes that arrive
    when it is full are dropped.  The packet being assembled is not
    touched. *)
Theorem UART_ISR_queues_arrivals (es : list UART_event) (s : Serial) :
  FIFO_wf FIFO_SIZE ((RxFIFO (serial_tower s))) ->
  (bits_set (UART2_C2 (serial_tower s)) UART_C2_RIE_MASK) = true ->
  (bits_set (UART2_S1 s) UART_S1_RDRF_MASK) = false ->
  let s' := UART_ISR_run FIFO_SIZE es s in
  FIFO_wf FIFO_SIZE ((RxFIFO (serial_tower s'))) /\
  FIFO_contents FIFO_SIZE ((RxFIFO (serial_tower s')))
  = FIFO_contents FIFO_SIZE ((RxFIFO (serial_tower s)))
    ++ take (Z.to_nat (FIFO_SIZE - NbBytes ((RxFIFO (serial_tower s))))) (arrivals es) /\
  Packet_Command (serial_tower s') = Packet_Command (serial_tower s) /\
  Packet_Parameter1 (serial_tower s') = Packet_Parameter1 (serial_tower s) /\
  Packet_Parameter2 (serial_tower s') = Packet_Parameter2 (serial_tower s) /\
  Packet_Parameter3 (serial_tower s') = Packet_Parameter3 (serial_tower s) /\
  ByteCount (serial_tower s') = ByteCount (serial_tower s).
Proof.
  intros Hwf Hrie Hrdrf.
  destruct (UART_ISR_run_receives_gen es s Hwf Hrie Hrdrf)
    as (I1 & I2 & _ & _ & I5 & I6 & I7 & I8 & _ & I10).
  done.
Qed.

(** X4.  Transmission.  With the transmit interrupt enabled and the
    transmitter busy, the handler, run after each event of any sequence,
    gives the transmitter one queued byte per request, in the order of the
    queue; the request that finds the queue empty disables the transmit
    interrupt, and nothing is sent after that. *)
Theorem UART_ISR_sends_queue_in_order (es : list UART_event) (s : Serial) :
  FIFO_wf FIFO_SIZE ((TxFIFO (serial_tower s))) ->
  (bits_set (UART2_C2 (serial_tower s)) UART_C2_TIE_MASK) = true ->
  (bits_set (UART2_S1 s) UART_S1_TDRE_MASK) = false ->
  let s' := UART_ISR_run FIFO_SIZE es s in
  let queued := FIFO_contents FIFO_SIZE ((TxFIFO (serial_tower s))) in
  transmitted s' = transmitted s ++ take (requests es) queued /\
  FIFO_contents FIFO_SIZE ((TxFIFO (serial_tower s'))) = drop (requests es) queued /\
  (bits_set (UART2_C2 (serial_tower s')) UART_C2_TIE_MASK) = (requests es <=? length queued)%nat.
Proof.
  intros Hwf Htie Htdre.
  destruct (UART_ISR_run_transmits_gen es s Hwf Htie Htdre)
    as (I1 & _ & I3 & I4).
  done.
Qed.

(** X5.  With both interrupts enabled, [UART_Poll] moves the same bytes as
    [UART_ISR]: the two leave the same receive queue, the same transmit
    queue and the same bytes sent.  They differ in the registers:
    [UART_Poll] writes neither the status nor the control register, so it
    never disables the transmit interrupt. *)
Theorem UART_Poll_moves_bytes_as_UART_ISR (s : Serial) :
  (bits_set (UART2_C2 (serial_tower s)) UART_C2_RIE_MASK) = true ->
  (bits_set (UART2_C2 (serial_tower s)) UART_C2_TIE_MASK) = true ->
  let p := UART_Poll FIFO_SIZE s in
  let i := UART_ISR FIFO_SIZE s in
  (RxFIFO (serial_tower p)) = (RxFIFO (serial_tower i)) /\ (TxFIFO (serial_tower p)) = (TxFIFO (serial_tower i)) /\ transmitted p = transmitted i /\
  UART2_S1 p = UART2_S1 s /\
  UART2_C2 (serial_tower p) = UART2_C2 (serial_tower s).
Proof.
  intros Hrie Htie.
  unfold UART_Poll, UART_ISR, UART_ISR_receive. rewrite Hrie.
  destruct ((bits_set (UART2_S1 s) UART_S1_RDRF_MASK)) eqn:Hrd.
  - destruct (FIFO_Put _ _ _) as [r F].
    unfold UART_ISR_transmit. simpl. rewrite Htie, clear_RDRF_TDRE.
    destruct ((bits_set (UART2_S1 s) UART_S1_TDRE_MASK)); [|done].
    destruct (FIFO_Get _ _) as [[d|] F']; done.
  - unfold UART_ISR_transmit. rewrite Htie.
    destruct ((bits_set (UART2_S1 s) UART_S1_TDRE_MASK)); [|done].
    destruct (FIFO_Get _ _) as [[d|] F']; done.
Qed.

End UART_facts.

(** ** Packets across the link *)

Section Link_facts.

Variable FIFO_SIZE : Z.

Lemma UART_OutChar_ok st b :
  FIFO_wf FIFO_SIZE (TxFIFO st) -> NbBytes (TxFIFO st) < FIFO_SIZE ->
  exists F,
    UART_OutChar FIFO_SIZE b st
    = (true, set_UART2_C2 (Z.lor (UART2_C2 st) UART_C2_TIE_MASK)
               (set_TxFIFO F st)) /\
    FIFO_wf FIFO_SIZE F /\ NbBytes F = NbBytes (TxFIFO st) + 1 /\
    FIFO_contents FIFO_SIZE F = FIFO_contents FIFO_SIZE (TxFIFO st) ++ [b].
Proof.
  intros Hwf Hlt.
  destruct (FIFO_Put_ok FIFO_SIZE _ b Hwf Hlt) as (F & Hput & HwfF & Hn & Hc).
  exists F. unfold UART_OutChar. rewrite Hput. done.
Qed.

(** A frame that finds five free places is queued whole; only the
    transmit queue and the transmit-interrupt enable change. *)
Lemma Packet_Put_ok st c p1 p2 p3 :
  FIFO_wf FIFO_SIZE (TxFIFO st) -> NbBytes (TxFIFO st) + 5 <= FIFO_SIZE ->
  exists F C2,
    Packet_Put FIFO_SIZE c p1 p2 p3 st
    = (true, set_UART2_C2 C2 (set_TxFIFO F st)) /\
    bits_set C2 UART_C2_TIE_MASK = true /\
    bits_set C2 UART_C2_RIE_MASK = bits_set (UART2_C2 st) UART_C2_RIE_MASK /\
    FIFO_wf FIFO_SIZE F /\ NbBytes F = NbBytes (TxFIFO st) + 5 /\
    FIFO_contents FIFO_SIZE F
    = FIFO_contents FIFO_SIZE (TxFIFO st)
      ++ [c; p1; p2; p3; calculateChecksum c p1 p2 p3].
Proof.
  intros Hwf Hroom. unfold Packet_Put, and_then.
  destruct (UART_OutChar_ok st c Hwf) as (F1 & -> & Hwf1 & Hn1 & Hc1); [lia|].
  set (st1 := set_UART2_C2 _ (set_TxFIFO F1 st)).
  destruct (UART_OutChar_ok st1 p1 Hwf1) as (F2 & -> & Hwf2 & Hn2 & Hc2);
    [simpl; lia|].
  set (st2 := set_UART2_C2 _ (set_TxFIFO F2 st1)).
  destruct (UART_OutChar_ok st2 p2 Hwf2) as (F3 & -> & Hwf3 & Hn3 & Hc3);
    [simpl in *; lia|].
  set (st3 := set_UART2_C2 _ (set_TxFIFO F3 st2)).
  destruct (UART_OutChar_ok st3 p3 Hwf3) as (F4 & -> & Hwf4 & Hn4 & Hc4);
    [simpl in *; lia|].
  set (st4 := set_UART2_C2 _ (set_TxFIFO F4 st3)).
  destruct (UART_OutChar_ok st4 (calculateChecksum c p1 p2 p3) Hwf4)
    as (F5 & -> & Hwf5 & Hn5 & Hc5); [simpl in *; lia|].
  exists F5, (Z.lor (UART2_C2 st4) UART_C2_TIE_MASK).
  split; [done|]. split; [apply lor_TIE_TIE|]. split.
  { simpl. by rewrite !lor_TIE_RIE. }
  split; [done|]. split; [simpl in *; lia|].
  simpl in *. rewrite Hc5, Hc4, Hc3, Hc2, Hc1, <- !app_assoc. done.
Qed.

(** Five calls of [Packet_Get] on a frame whose checksum is right. *)
Lemma Packet_Get_times_frame st c p1 p2 p3 rest :
  FIFO_wf FIFO_SIZE (RxFIFO st) ->
  is_byte c -> is_byte p1 -> is_byte p2 -> is_byte p3 ->
  FIFO_contents FIFO_SIZE (RxFIFO st)
    = [c; p1; p2; p3; calculateChecksum c p1 p2 p3] ++ rest ->
  ByteCount st = 0 ->
  exists F,
    Packet_Get_times FIFO_SIZE 5 st
    = ([false; false; false; false; true],
       mkTower F (TxFIFO st) (UART2_C2 st) c p1 p2 p3
               (calculateChecksum c p1 p2 p3) 0) /\
    FIFO_wf FIFO_SIZE F /\ FIFO_contents FIFO_SIZE F = rest.
Proof.
  intros Hwf Hc H1 H2 H3 Hcont Hbc. simpl app in Hcont.
  destruct (UART_InChar_ok FIFO_SIZE st _ _ Hwf Hcont)
    as (F1 & Hin1 & Hwf1 & Hc1).
  set (st1 := set_ByteCount 1 (set_Packet_Command c (set_RxFIFO F1 st))).
  destruct (UART_InChar_ok FIFO_SIZE st1 _ _ Hwf1 Hc1)
    as (F2 & Hin2 & Hwf2 & Hc2).
  set (st2 := set_ByteCount 2 (set_Packet_Parameter1 p1 (set_RxFIFO F2 st1))).
  destruct (UART_InChar_ok FIFO_SIZE st2 _ _ Hwf2 Hc2)
    as (F3 & Hin3 & Hwf3 & Hc3).
  set (st3 := set_ByteCount 3 (set_Packet_Parameter2 p2 (set_RxFIFO F3 st2))).
  destruct (UART_InChar_ok FIFO_SIZE st3 _ _ Hwf3 Hc3)
    as (F4 & Hin4 & Hwf4 & Hc4).
  set (st4 := set_ByteCount 4 (set_Packet_Parameter3 p3 (set_RxFIFO F4 st3))).
  destruct (UART_InChar_ok FIFO_SIZE st4 _ _ Hwf4 Hc4)
    as (F5 & Hin5 & Hwf5 & Hc5).
  assert (G1 : Packet_Get FIFO_SIZE st = (false, st1)).
  { unfold Packet_Get. rewrite Hin1. simpl. rewrite Hbc. reflexivity. }
  assert (G2 : Packet_Get FIFO_SIZE st1 = (false, st2)).
  { unfold Packet_Get. rewrite Hin2. reflexivity. }
  assert (G3 : Packet_Get FIFO_SIZE st2 = (false, st3)).
  { unfold Packet_Get. rewrite Hin3. reflexivity. }
  assert (G4 : Packet_Get FIFO_SIZE st3 = (false, st4)).
  { unfold Packet_Get. rewrite Hin4. reflexivity. }
  assert (G5 : Packet_Get FIFO_SIZE st4
               = (true, set_ByteCount 0
                          (set_Packet_Checksum (calculateChecksum c p1 p2 p3)
                             (set_RxFIFO F5 st4)))).
  { unfold Packet_Get. rewrite Hin5. simpl.
    rewrite Z.eqb_refl. reflexivity. }
  exists F5. cbn [Packet_Get_times]. rewrite G1, G2, G3, G4, G5. done.
Qed.

(** X6.  A packet crosses the link.  The sender queues a packet with
    [Packet_Put] and its handler serves at least five requests of the
    transmitter; the bytes it sent arrive at the receiver, whose handler
    queues them; five calls of [Packet_Get] at the receiver then return
    [false] four times and [true] once, and leave the command and the
    parameters that were sent in the packet variables.  Other events may
    occur on either side in between. *)
Theorem Packet_crosses_the_link (sender receiver : Serial)
    (c p1 p2 p3 : Z) (es_sender es_receiver : list UART_event) :
  is_byte c -> is_byte p1 -> is_byte p2 -> is_byte p3 ->
  FIFO_wf FIFO_SIZE (TxFIFO (serial_tower sender)) ->
  NbBytes (TxFIFO (serial_tower sender)) = 0 ->
  5 <= FIFO_SIZE ->
  bits_set (UART2_S1 sender) UART_S1_TDRE_MASK = false ->
  transmitted sender = [] ->
  (5 <= requests es_sender)%nat ->
  FIFO_wf FIFO_SIZE (RxFIFO (serial_tower receiver)) ->
  NbBytes (RxFIFO (serial_tower receiver)) = 0 ->
  bits_set (UART2_C2 (serial_tower receiver)) UART_C2_RIE_MASK = true ->
  bits_set (UART2_S1 receiver) UART_S1_RDRF_MASK = false ->
  ByteCount (serial_tower receiver) = 0 ->
  let queued := Packet_Put FIFO_SIZE c p1 p2 p3 (serial_tower sender) in
  let sender' :=
    UART_ISR_run FIFO_SIZE es_sender
      (mkSerial (snd queued) (UART2_S1 sender) (UART2_D sender)
                (transmitted sender)) in
  arrivals es_receiver = transmitted sender' ->
  let receiver' := UART_ISR_run FIFO_SIZE es_receiver receiver in
  let got := Packet_Get_times FIFO_SIZE 5 (serial_tower receiver') in
  fst queued = true /\
  transmitted sender' = [c; p1; p2; p3; calculateChecksum c p1 p2 p3] /\
  fst got = [false; false; false; false; true] /\
  Packet_Command (snd got) = c /\
  Packet_Parameter1 (snd got) = p1 /\
  Packet_Parameter2 (snd got) = p2 /\
  Packet_Parameter3 (snd got) = p3 /\
  ByteCount (snd got) = 0.
Proof.
  intros Hc H1 H2 H3 HwfT HnT HS Htdre Htr Hreq HwfR HnR Hrie Hrdrf Hbc.
  cbv zeta.
  destruct (Packet_Put_ok (serial_tower sender) c p1 p2 p3 HwfT)
    as (F & C2 & Hput & Htie & _ & HwfF & HnF & HcF); [lia|].
  rewrite (FIFO_contents_empty _ _ HnT) in HcF. simpl app in HcF.
  rewrite Hput. cbn [fst snd].
  set (frame := [c; p1; p2; p3; calculateChecksum c p1 p2 p3]) in *.
  set (s0 := mkSerial _ _ _ _).
  destruct (UART_ISR_run_transmits_gen FIFO_SIZE es_sender s0)
    as (Hsent & _); [exact HwfF|exact Htie|exact Htdre|].
  set (sender' := UART_ISR_run FIFO_SIZE es_sender s0) in *.
  change (transmitted s0) with (transmitted sender) in Hsent.
  change (FIFO_contents FIFO_SIZE (TxFIFO (serial_tower s0)))
    with (FIFO_contents FIFO_SIZE F) in Hsent.
  rewrite HcF, Htr in Hsent. simpl app in Hsent.
  rewrite take_ge in Hsent by (simpl; lia).
  intros Harr. rewrite Hsent in Harr.
  destruct (UART_ISR_run_receives_gen FIFO_SIZE es_receiver receiver
              HwfR Hrie Hrdrf)
    as (HwfR' & HcR' & _ & _ & _ & _ & _ & _ & _ & Hbc').
  set (receiver' := UART_ISR_run FIFO_SIZE es_receiver receiver) in *.
  rewrite (FIFO_contents_empty _ _ HnR), Harr, HnR in HcR'.
  rewrite take_ge in HcR' by (simpl; lia). simpl app in HcR'.
  destruct (Packet_Get_times_frame (serial_tower receiver') c p1 p2 p3 []
              HwfR' Hc H1 H2 H3)
    as (F' & Hget & _ & _); [done|by rewrite Hbc'|].
  rewrite Hget. done.
Qed.

End Link_facts.

(** ** The allocator, in general *)

Section Alloc_general.

Variable FLASH_DATA_START FLASH_SIZE : Z.

(** The inner loop leaves [addressFound] as it is when the rest of the run
    is erased and inside the sector. *)
Lemma Flash_AllocateVar_check_clean st size i fuel : forall j af,
  (forall n, j <= n < size ->
     i + n < FLASH_SIZE /\
     _FB FLASH_DATA_START (FLASH_DATA_START + (i + n)) st = 0xFF) ->
  (Z.to_nat (size - j) < fuel)%nat ->
  Flash_AllocateVar_check FLASH_DATA_START FLASH_SIZE st size i fuel j af
  = Some af.
Proof.
  induction fuel as [|fuel IH]; intros j af Hrun Hf; [lia|]. simpl.
  destruct (Z.ltb_spec j size); [|done].
  destruct (Hrun j) as [Hin Hff]; [lia|].
  destruct (Z.geb_spec (i + j) FLASH_SIZE); [lia|].
  rewrite Hff. simpl. apply IH; [|lia]. intros n Hn. apply Hrun. lia.
Qed.

(** It clears [addressFound] when the run leaves the sector or meets a
    byte that is not erased. *)
Lemma Flash_AllocateVar_check_broken st size i k fuel : forall j af,
  j <= k < size ->
  FLASH_SIZE <= i + k \/
  _FB FLASH_DATA_START (FLASH_DATA_START + (i + k)) st <> 0xFF ->
  (Z.to_nat (size - j) < fuel)%nat ->
  Flash_AllocateVar_check FLASH_DATA_START FLASH_SIZE st size i fuel j af
  = Some false.
Proof.
  induction fuel as [|fuel IH]; intros j af Hk Hbad Hf; [lia|]. simpl.
  destruct (Z.ltb_spec j size); [|lia].
  destruct (_ || _) eqn:E; [done|].
  apply orb_false_elim in E as [E1 E2].
  apply negb_false_iff, Z.eqb_eq in E2.
  rewrite Z.geb_leb in E1. apply Z.leb_gt in E1.
  assert (j <> k) by (intros ->; destruct Hbad; [lia|contradiction]).
  apply IH; [lia|done|lia].
Qed.

(** The outer loop passes the candidates whose first byte is not erased. *)
Lemma Flash_AllocateVar_scan_skip st size (k : nat) : forall fuel i af ai,
  (forall m, 0 <= m < Z.of_nat k ->
     i + m * size < FLASH_SIZE /\
     _FB FLASH_DATA_START (FLASH_DATA_START + (i + m * size)) st <> 0xFF) ->
  Flash_AllocateVar_scan FLASH_DATA_START FLASH_SIZE st size (k + fuel) i
    af ai
  = Flash_AllocateVar_scan FLASH_DATA_START FLASH_SIZE st size fuel
      (i + Z.of_nat k * size) af ai.
Proof.
  induction k as [|k IH]; intros fuel i af ai Hskip.
  { simpl. f_equal. lia. }
  cbn [Nat.add Flash_AllocateVar_scan].
  destruct (Hskip 0) as [Hin Hne]; [lia|].
  rewrite Z.mul_0_l, Z.add_0_r in Hin, Hne.
  destruct (Z.ltb_spec i FLASH_SIZE); [|lia].
  destruct (Z.eqb_spec (_FB FLASH_DATA_START (FLASH_DATA_START + i) st) 255);
    [contradiction|].
  rewrite IH.
  - f_equal. lia.
  - intros m Hm. destruct (Hskip (m + 1)) as [H1 H2]; [lia|].
    replace (i + size + m * size) with (i + (m + 1) * size) by lia. done.
Qed.

(** The call decides at the first candidate whose byte is erased. *)
Lemma Flash_AllocateVar_candidate (variable size k : Z)
    (st : Flash) :
  size = 1 \/ size = 2 \/ size = 4 ->
  0 <= k -> k * size < FLASH_SIZE -> FLASH_SIZE <= 256 ->
  (forall m, 0 <= m < k ->
     _FB FLASH_DATA_START (FLASH_DATA_START + m * size) st <> 0xFF) ->
  _FB FLASH_DATA_START (FLASH_DATA_START + k * size) st = 0xFF ->
  ((forall j, 1 <= j < size ->
      k * size + j < FLASH_SIZE /\
      _FB FLASH_DATA_START (FLASH_DATA_START + (k * size + j)) st = 0xFF) ->
   Flash_AllocateVar FLASH_DATA_START FLASH_SIZE variable size st
   = Some (true, uint32 (FLASH_DATA_START + k * size))) /\
  ((exists j, 1 <= j < size /\
      (FLASH_SIZE <= k * size + j \/
       _FB FLASH_DATA_START (FLASH_DATA_START + (k * size + j)) st <> 0xFF)) ->
   Flash_AllocateVar FLASH_DATA_START FLASH_SIZE variable size st
   = Some (false, variable)).
Proof.
  intros Hsize Hk Hin H256 Hskip Hfirst.
  assert (Hs : 1 <= size) by lia.
  assert (Hkn : (Z.to_nat k < Z.to_nat FLASH_SIZE)%nat) by nia.
  assert (Hscan : forall af ai,
    Flash_AllocateVar_scan FLASH_DATA_START FLASH_SIZE st size
      (S (Z.to_nat FLASH_SIZE)) 0 af ai
    = Flash_AllocateVar_scan FLASH_DATA_START FLASH_SIZE st size
        (S (Z.to_nat FLASH_SIZE) - Z.to_nat k) (k * size) af ai).
  { intros af ai.
    replace (S (Z.to_nat FLASH_SIZE))
      with (Z.to_nat k + (S (Z.to_nat FLASH_SIZE) - Z.to_nat k))%nat at 1
      by lia.
    rewrite Flash_AllocateVar_scan_skip.
    - f_equal. lia.
    - intros m Hm. rewrite Z.add_0_l. split; [nia|]. apply Hskip. lia. }
  unfold Flash_AllocateVar.
  assert ((size =? 1) || (size =? 2) || (size =? 4) = true) as ->.
  { destruct Hsize as [-> | [-> | ->]]; reflexivity. }
  rewrite Hscan.
  replace (S (Z.to_nat FLASH_SIZE) - Z.to_nat k)%nat
    with (S (Z.to_nat FLASH_SIZE - Z.to_nat k))%nat by lia.
  cbn [Flash_AllocateVar_scan].
  destruct (Z.ltb_spec (k * size) FLASH_SIZE); [|lia].
  rewrite Hfirst. change (255 =? 255) with true. cbv iota.
  split.
  - intros Hrun.
    rewrite Flash_AllocateVar_check_clean by (try done; lia).
    unfold uint8. rewrite Z.mod_small by nia. done.
  - intros (j & Hj & Hbad).
    rewrite (Flash_AllocateVar_check_broken st size (k * size) j)
      by (try done; lia).
    rewrite Flash_AllocateVar_scan_false; [done|lia|nia].
Qed.

(** X7.  [Flash_AllocateVar] decides at the first candidate offset (a
    multiple of [size]) whose byte is erased.  When the [size] bytes from
    there on are erased and inside the sector, it returns [true] with that
    address; when one of them is not, it returns [false] and leaves the
    pointer alone, whatever the sector holds further on. *)
Theorem Flash_AllocateVar_first_erased_candidate (variable size k : Z)
    (st : Flash) :
  size = 1 \/ size = 2 \/ size = 4 ->
  0 <= k -> k * size < FLASH_SIZE -> FLASH_SIZE <= 256 ->
  (forall m, 0 <= m < k ->
     _FB FLASH_DATA_START (FLASH_DATA_START + m * size) st <> 0xFF) ->
  _FB FLASH_DATA_START (FLASH_DATA_START + k * size) st = 0xFF ->
  ((forall j, 1 <= j < size ->
      k * size + j < FLASH_SIZE /\
      _FB FLASH_DATA_START (FLASH_DATA_START + (k * size + j)) st = 0xFF) ->
   Flash_AllocateVar FLASH_DATA_START FLASH_SIZE variable size st
   = Some (true, uint32 (FLASH_DATA_START + k * size))) /\
  ((exists j, 1 <= j < size /\
      (FLASH_SIZE <= k * size + j \/
       _FB FLASH_DATA_START (FLASH_DATA_START + (k * size + j)) st <> 0xFF)) ->
   Flash_AllocateVar FLASH_DATA_START FLASH_SIZE variable size st
   = Some (false, variable)).
Proof. exact (Flash_AllocateVar_candidate variable size k st). Qed.

End Alloc_general.

Lemma Flash_AllocateVar_first_erased_candidate_witness :
  Flash_AllocateVar 0x80000 8 0 2
    (flash8 [0x26; 0x81; 0xFF; 0xFF; 0xFF; 0x00; 0xFF; 0xFF])
  = Some (true, uint32 (0x80000 + 1 * 2)).
Proof.
  apply (Flash_AllocateVar_first_erased_candidate 0x80000 8 0 2 1
           (flash8 [0x26; 0x81; 0xFF; 0xFF; 0xFF; 0x00; 0xFF; 0xFF])).
  - right. left. reflexivity.
  - lia.
  - lia.
  - lia.
  - intros m Hm. assert (m = 0) as -> by lia. vm_compute. discriminate.
  - reflexivity.
  - intros j Hj. assert (j = 1) as -> by lia. split; [lia|reflexivity].
Defined.

(** ** Erasing, and writes one after the other *)

Section Erase_facts.

Variable FLASH_SIZE : Z.

(** [Flash_Erase] with the sector at [0x80000]: the run and the state it
    leaves. *)
Lemma Flash_Erase_ok (st : Flash) :
  0 < FLASH_SIZE -> FTFE_ready st ->
  exists st',
    Flash_Erase 0x80000 FLASH_SIZE st = Some (true, st') /\
    sector st' = replicate (length (sector st)) 0xFF /\
    FTFE_FSTAT st' = FTFE_FSTAT st /\
    length (FTFE_FCCOB st') = 12%nat /\
    CommonCommandObject st' = CommonCommandObject st.
Proof.
  intros HS [Hccif Hregs].
  destruct st as [s f regs cco]. simpl in *.
  destruct (list_length_12 regs Hregs)
    as (r0 & r1 & r2 & r3 & r4 & r5 & r6 & r7 & r8 & r9 & r10 & r11 & ->).
  unfold Flash_Erase, LaunchCommand.
  cbn [command SetupCommand].
  change (ERASE_FLASH_SECTOR_COMMAND =? PROGRAM_PHRASE_COMMAND) with false.
  change (ERASE_FLASH_SECTOR_COMMAND =? ERASE_FLASH_SECTOR_COMMAND) with true.
  cbv iota.
  repeat flash_step Hccif.
  unfold FTFE_execute, FTFE_address.
  cbn [set_FTFE_FCCOB FTFE_FCCOB sector].
  change (array_get (array_set _ _ _) 0) with ERASE_FLASH_SECTOR_COMMAND.
  change (ERASE_FLASH_SECTOR_COMMAND =? ERASE_FLASH_SECTOR_COMMAND) with true.
  cbv iota.
  match goal with
  | |- context [(0 <=? ?x) && (?y <? FLASH_SIZE)] =>
      change x with 0; change y with 0
  end.
  destruct (Z.ltb_spec 0 FLASH_SIZE); [|lia].
  cbn [Z.leb Z.compare andb].
  repeat flash_step Hccif.
  eexists. split; [reflexivity|]. done.
Qed.

End Erase_facts.

Section Erase_theorems.

Variable FLASH_SIZE : Z.

(** X8.  With the data sector at [0x80000], the address [LaunchCommand]
    gives the controller, and an idle controller, [Flash_Erase] returns
    [true] and leaves every byte of the sector erased, whatever it held;
    the staging mirror keeps its contents, and the controller is idle
    again, so that a second erase succeeds as well and finds nothing to
    change. *)
Theorem Flash_Erase_erases_whole_sector (st : Flash) :
  sector_wf FLASH_SIZE st -> 0 < FLASH_SIZE -> FTFE_ready st ->
  exists st',
    Flash_Erase 0x80000 FLASH_SIZE st = Some (true, st') /\
    (forall j, 0 <= j < FLASH_SIZE ->
       _FB 0x80000 (0x80000 + j) st' = 0xFF) /\
    sector_wf FLASH_SIZE st' /\ FTFE_ready st' /\
    CommonCommandObject st' = CommonCommandObject st /\
    exists st'',
      Flash_Erase 0x80000 FLASH_SIZE st' = Some (true, st'') /\
      sector st'' = sector st'.
Proof.
  intros [Hlen Hbytes] HS Hready.
  destruct (Flash_Erase_ok FLASH_SIZE st HS Hready)
    as (st' & Hrun & Hsec & Hfs & Hregs & Hcco).
  assert (Hready' : FTFE_ready st').
  { destruct Hready as [Hc _]. split; [by rewrite Hfs|done]. }
  exists st'. split; [done|]. split; [|split; [|split; [done|split; [done|]]]].
  - intros j Hj. unfold _FB, array_get. rewrite Hsec.
    replace (0x80000 + j - 0x80000) with j by lia.
    destruct (Z.ltb_spec j 0); [lia|].
    by rewrite lookup_replicate_2 by lia.
  - split.
    + by rewrite Hsec, length_replicate.
    + rewrite Hsec. apply Forall_replicate. unfold is_byte. lia.
  - destruct (Flash_Erase_ok FLASH_SIZE st' HS Hready')
      as (st'' & Hrun' & Hsec' & _).
    exists st''. split; [done|].
    by rewrite Hsec', Hsec, length_replicate.
Qed.

End Erase_theorems.

Lemma Flash_Erase_erases_whole_sector_witness :
  exists st',
    Flash_Erase 0x80000 8 (flash8 [1; 2; 3; 4; 5; 6; 7; 8]) = Some (true, st') /\
    (forall j, 0 <= j < 8 -> _FB 0x80000 (0x80000 + j) st' = 0xFF).
Proof.
  assert (H1 : sector_wf 8 (flash8 [1; 2; 3; 4; 5; 6; 7; 8])).
  { split; [reflexivity|]. repeat constructor; unfold is_byte; lia. }
  assert (H2 : 0 < 8) by lia.
  assert (H3 : FTFE_ready (flash8 [1; 2; 3; 4; 5; 6; 7; 8]))
    by (split; reflexivity).
  destruct (Flash_Erase_erases_whole_sector 8 _ H1 H2 H3)
    as (st' & Hrun & Hff & _).
  exists st'. split; [exact Hrun|exact Hff].
Defined.

Section Write_sequences.

(** X9.  Two aligned writes, one after the other, into the eight-byte
    sector at [0x80000]: both return [true], and afterwards every byte of
    the sector is the byte of the second value that belongs there, or else
    the byte of the first value that belongs there, or else what it was
    before the two writes.  No write loses what an earlier one stored
    elsewhere, and a later write to the same place wins. *)
Theorem Flash_Write_then_Flash_Write (w1 w2 : width) (o1 v1 o2 v2 : Z)
    (st : Flash) :
  sector_wf 8 st -> FTFE_ready st ->
  0 <= o1 < 8 -> o1 mod width_bytes w1 = 0 ->
  0 <= v1 < 2 ^ (8 * width_bytes w1) ->
  0 <= o2 < 8 -> o2 mod width_bytes w2 = 0 ->
  0 <= v2 < 2 ^ (8 * width_bytes w2) ->
  exists st1 st2,
    Flash_Write 0x80000 8 w1 (0x80000 + o1) v1 st = Some (true, st1) /\
    Flash_Write 0x80000 8 w2 (0x80000 + o2) v2 st1 = Some (true, st2) /\
    forall j, 0 <= j < 8 ->
      _FB 0x80000 (0x80000 + j) st2
      = if (o2 <=? j) && (j <? o2 + width_bytes w2)
        then byte_of v2 (j - o2)
        else if (o1 <=? j) && (j <? o1 + width_bytes w1)
             then byte_of v1 (j - o1)
             else _FB 0x80000 (0x80000 + j) st.
Proof.
  intros Hwf Hready Ho1 Ha1 Hv1 Ho2 Ha2 Hv2.
  destruct (Flash_Write_sector w1 o1 v1 st Hwf Hready Ho1 Ha1 Hv1)
    as (st1 & Hrun1 & Hwf1 & Hready1 & Hb1).
  destruct (Flash_Write_sector w2 o2 v2 st1 Hwf1 Hready1 Ho2 Ha2 Hv2)
    as (st2 & Hrun2 & _ & _ & Hb2).
  exists st1, st2. split; [done|]. split; [done|].
  intros j Hj. rewrite Hb2 by lia.
  destruct ((o2 <=? j) && (j <? o2 + width_bytes w2)); [done|].
  apply Hb1. lia.
Qed.

End Write_sequences.

Lemma Flash_Write_then_Flash_Write_witness :
  exists st1 st2,
    Flash_Write 0x80000 8 W16 (0x80000 + 0) 0x8126
      (flash8 [0xFF; 0xFF; 0xFF; 0xFF; 0xFF; 0xFF; 0xFF; 0xFF])
    = Some (true, st1) /\
    Flash_Write 0x80000 8 W8 (0x80000 + 1) 0x55 st1 = Some (true, st2) /\
    _FB 0x80000 (0x80000 + 0) st2 = 0x26 /\
    _FB 0x80000 (0x80000 + 1) st2 = 0x55.
Proof.
  assert (H1 : sector_wf 8
                 (flash8 [0xFF; 0xFF; 0xFF; 0xFF; 0xFF; 0xFF; 0xFF; 0xFF])).
  { split; [reflexivity|]. repeat constructor; unfold is_byte; lia. }
  assert (H2 : FTFE_ready
                 (flash8 [0xFF; 0xFF; 0xFF; 0xFF; 0xFF; 0xFF; 0xFF; 0xFF]))
    by (split; reflexivity).
  destruct (Flash_Write_then_Flash_Write W16 W8 0 0x8126 1 0x55 _ H1 H2)
    as (st1 & st2 & Hr1 & Hr2 & Hb); try (simpl; lia); try reflexivity.
  exists st1, st2. split; [exact Hr1|]. split; [exact Hr2|].
  split; [exact (Hb 0 ltac:(lia))|exact (Hb 1 ltac:(lia))].
Defined.

(** ** The real-time clock *)

Lemma bits_set_set_bits32 x k :
  0 <= k < 32 -> bits_set (set_bits32 x (2 ^ k)) (2 ^ k) = true.
Proof.
  intros Hk. rewrite bits_set_testbit by lia. unfold set_bits32, uint32.
  rewrite Z.mod_pow2_bits_low by lia.
  rewrite Z.lor_spec, Z.pow2_bits_true by lia. apply orb_true_r.
Qed.

Lemma RTC_Set_TSR hours minutes seconds r :
  0 <= hours -> 0 <= minutes -> 0 <= seconds ->
  1 <= hours * 3600 + minutes * 60 + seconds < 2 ^ 32 ->
  RTC_TSR (RTC_Set hours minutes seconds r)
  = hours * 3600 + minutes * 60 + seconds - 1.
Proof.
  intros Hh Hm Hs Ht. unfold RTC_Set, RTC_TSR_TSR, uint32. simpl.
  rewrite land_4294967295.
  change (2 ^ 32) with 4294967296 in *.
  Z.div_mod_to_equations. lia.
Qed.

Lemma RTC_Get_value r :
  0 <= RTC_TSR r < 256 * 3600 ->
  fst (RTC_Get r)
  = (RTC_TSR r / 3600, RTC_TSR r mod 3600 / 60, RTC_TSR r mod 60).
Proof.
  intros Ht. unfold RTC_Get, uint8, uint32. cbn [fst].
  change (2 ^ 8) with 256. change (2 ^ 32) with 4294967296.
  set (t := RTC_TSR r) in *.
  assert (H1 : (t / 3600) mod 256 = t / 3600).
  { apply Z.mod_small. Z.div_mod_to_equations. lia. }
  rewrite H1.
  assert (H2 : (t - t / 3600 * 3600) mod 4294967296 = t mod 3600).
  { Z.div_mod_to_equations. lia. }
  rewrite H2.
  assert (H3 : (t mod 3600 / 60) mod 256 = t mod 3600 / 60).
  { apply Z.mod_small. Z.div_mod_to_equations. lia. }
  rewrite H3.
  assert (H4 : (t mod 60) mod 256 = t mod 60).
  { apply Z.mod_small. Z.div_mod_to_equations. lia. }
  rewrite H4. done.
Qed.

(** X10.  [RTC_Get] splits the count of seconds it reads into hours,
    minutes and seconds that add up to it, with minutes and seconds below
    60, as long as the count is below 256 hours; hours are below 24 for a
    count below one day, and are not reduced to a day otherwise.  The
    count itself is left as it is and the counter is enabled on return. *)
Theorem RTC_Get_splits_the_count (r : RTC) :
  0 <= RTC_TSR r < 256 * 3600 ->
  exists hours minutes seconds r',
    RTC_Get r = ((hours, minutes, seconds), r') /\
    hours * 3600 + minutes * 60 + seconds = RTC_TSR r /\
    hours = RTC_TSR r / 3600 /\
    0 <= minutes < 60 /\ 0 <= seconds < 60 /\
    (RTC_TSR r < 86400 -> 0 <= hours < 24) /\
    RTC_TSR r' = RTC_TSR r /\
    bits_set (RTC_SR r') RTC_SR_TCE_MASK = true.
Proof.
  intros Ht. pose proof (RTC_Get_value r Ht) as Hv.
  destruct (RTC_Get r) as [[[h m] s] r'] eqn:E. cbn [fst] in Hv.
  injection Hv as -> -> ->.
  exists (RTC_TSR r / 3600), (RTC_TSR r mod 3600 / 60), (RTC_TSR r mod 60), r'.
  split; [done|].
  assert (Hr' : RTC_TSR r' = RTC_TSR r /\
                bits_set (RTC_SR r') RTC_SR_TCE_MASK = true).
  { unfold RTC_Get in E. injection E as _ _ _ <-. split; [done|].
    apply (bits_set_set_bits32 _ 4). lia. }
  destruct Hr' as [Hr1 Hr2].
  split; [Z.div_mod_to_equations; lia|].
  split; [done|].
  split; [Z.div_mod_to_equations; lia|].
  split; [Z.div_mod_to_equations; lia|].
  split; [intros; Z.div_mod_to_equations; lia|].
  done.
Qed.

(** X11.  [RTC_Set] stores one second less than the time it is given:
    for a time of day other than 0:00:00, the counter register holds
    [hours * 3600 + minutes * 60 + seconds - 1] afterwards, the counter is
    enabled, and [RTC_Get], called before the counter has advanced, reads
    the time one second before the one that was set.  For 0:00:00 the
    subtraction wraps and the register holds [2^32 - 1]. *)
Theorem RTC_Set_stores_one_second_less (hours minutes seconds : Z) (r : RTC) :
  0 <= hours <= 23 -> 0 <= minutes <= 59 -> 0 <= seconds <= 59 ->
  let total := hours * 3600 + minutes * 60 + seconds in
  let r1 := RTC_Set hours minutes seconds r in
  bits_set (RTC_SR r1) RTC_SR_TCE_MASK = true /\
  (total = 0 -> RTC_TSR r1 = 2 ^ 32 - 1) /\
  (total <> 0 ->
   RTC_TSR r1 = total - 1 /\
   exists h m s r2,
     RTC_Get r1 = ((h, m, s), r2) /\
     h * 3600 + m * 60 + s = total - 1 /\
     0 <= h < 24 /\ 0 <= m < 60 /\ 0 <= s < 60).
Proof.
  intros Hh Hm Hs total r1.
  split; [apply (bits_set_set_bits32 _ 4); lia|]. split.
  - intros H0. assert (hours = 0 /\ minutes = 0 /\ seconds = 0)
      as (-> & -> & ->) by (unfold total in H0; lia).
    reflexivity.
  - intros Hne.
    assert (Htsr : RTC_TSR r1 = total - 1).
    { apply RTC_Set_TSR; unfold total in *; lia. }
    split; [done|]. clearbody r1.
    assert (Ht : 0 <= RTC_TSR r1 < 256 * 3600)
      by (rewrite Htsr; unfold total in *; lia).
    pose proof (RTC_Get_value r1 Ht) as Hv.
    destruct (RTC_Get r1) as [[[h m] s] r2] eqn:E. cbn [fst] in Hv.
    injection Hv as -> -> ->.
    do 4 eexists. split; [reflexivity|].
    rewrite Htsr. unfold total in *.
    repeat split; Z.div_mod_to_equations; lia.
Qed.

Lemma RTC_Get_splits_the_count_witness :
  exists hours minutes seconds r',
    RTC_Get (mkRTC 0 0 45296) = ((hours, minutes, seconds), r') /\
    hours * 3600 + minutes * 60 + seconds = 45296.
Proof.
  destruct (RTC_Get_splits_the_count (mkRTC 0 0 45296))
    as (h & m & s & r' & H1 & H2 & _); [simpl; lia|].
  exists h, m, s, r'. split; [exact H1|exact H2].
Defined.

Lemma RTC_Set_stores_one_second_less_witness :
  RTC_TSR (RTC_Set 12 34 56 (mkRTC 0 0 0)) = 12 * 3600 + 34 * 60 + 56 - 1.
Proof.
  destruct (RTC_Set_stores_one_second_less 12 34 56 (mkRTC 0 0 0))
    as (_ & _ & H); [lia|lia|lia|].
  destruct H as [H _]; [lia|]. exact H.
Defined.

(** ** Half-words *)

Lemma lor_shiftl_small lo hi k :
  0 <= k -> 0 <= lo < 2 ^ k -> Z.lor lo (Z.shiftl hi k) = lo + hi * 2 ^ k.
Proof.
  intros Hk Hlo.
  assert (Hland : Z.land lo (Z.shiftl hi k) = 0).
  { apply Z.bits_inj'. intros n Hn. rewrite Z.land_spec, Z.bits_0.
    destruct (Z.lt_ge_cases n k).
    - rewrite Z.shiftl_spec_low by lia. apply andb_false_r.
    - rewrite <- (Z.mod_small lo (2 ^ k)) by lia.
      rewrite Z.mod_pow2_bits_high by lia. done. }
  rewrite <- Z.lxor_lor by done.
  rewrite <- Z.add_nocarry_lxor by done.
  by rewrite Z.shiftl_mul_pow2.
Qed.

Lemma uint16union_l_value Lo Hi :
  is_byte Lo -> uint16union_l Lo Hi = Lo + 256 * Hi.
Proof.
  intros H. unfold uint16union_l, is_byte in *.
  rewrite (lor_shiftl_small Lo Hi 8) by lia. lia.
Qed.

Lemma byte_of_uint16union_l Lo Hi :
  is_byte Lo -> is_byte Hi ->
  0 <= uint16union_l Lo Hi < 2 ^ 16 /\
  byte_of (uint16union_l Lo Hi) 0 = Lo /\
  byte_of (uint16union_l Lo Hi) 1 = Hi.
Proof.
  intros HL HH. rewrite uint16union_l_value by done.
  unfold byte_of, is_byte in *. simpl Z.mul.
  rewrite Z.shiftr_0_r, shiftr_8, !land_255.
  change (2 ^ 16) with 65536.
  repeat split; Z.div_mod_to_equations; lia.
Qed.

Lemma _FB_is_byte START a st :
  Forall is_byte (sector st) -> is_byte (_FB START a st).
Proof.
  intros H. unfold _FB, array_get.
  destruct (_ <? 0); [unfold is_byte; lia|].
  destruct (sector st !! _) as [x|] eqn:E; simpl; [|unfold is_byte; lia].
  by eapply Forall_lookup_1 in E.
Qed.

Lemma _FH_value START a st :
  Forall is_byte (sector st) ->
  _FH START a st = _FB START a st + 256 * _FB START (a + 1) st.
Proof.
  intros H. unfold _FH.
  pose proof (_FB_is_byte START a st H) as Hb. unfold is_byte in Hb.
  rewrite (lor_shiftl_small _ _ 8) by lia. lia.
Qed.

Lemma _FH_erased START a st :
  Forall is_byte (sector st) ->
  (_FH START a st =? 0xFFFF)
  = (_FB START a st =? 0xFF) && (_FB START (a + 1) st =? 0xFF).
Proof.
  intros H. rewrite _FH_value by done.
  pose proof (_FB_is_byte START a st H) as H1.
  pose proof (_FB_is_byte START (a + 1) st H) as H2.
  unfold is_byte in *.
  destruct (Z.eqb_spec (_FB START a st) 255),
           (Z.eqb_spec (_FB START (a + 1) st) 255); simpl; lia.
Qed.

(** ** [Packet_Put], whatever the room *)

Section Put_facts.

Variable FIFO_SIZE : Z.

Lemma UART_OutChar_keeps b st :
  let st' := snd (UART_OutChar FIFO_SIZE b st) in
  RxFIFO st' = RxFIFO st /\
  Packet_Command st' = Packet_Command st /\
  Packet_Parameter1 st' = Packet_Parameter1 st /\
  Packet_Parameter2 st' = Packet_Parameter2 st /\
  Packet_Parameter3 st' = Packet_Parameter3 st /\
  Packet_Checksum st' = Packet_Checksum st /\
  ByteCount st' = ByteCount st.
Proof.
  unfold UART_OutChar. destruct (FIFO_Put _ _ _) as [[] F]; done.
Qed.

Lemma and_then_keeps (P : Tower -> Tower -> Prop) c1 c2 :
  (forall st, P st st) ->
  (forall st1 st2 st3, P st1 st2 -> P st2 st3 -> P st1 st3) ->
  (forall st, P st (snd (c1 st))) ->
  (forall st, P st (snd (c2 st))) ->
  forall st, P st (snd ((c1 &&& c2) st)).
Proof.
  intros Hrefl Htrans H1 H2 st. unfold and_then.
  pose proof (H1 st) as Ha. destruct (c1 st) as [[] st1]; simpl in *.
  - eapply Htrans; [exact Ha|apply H2].
  - done.
Qed.

Lemma same_packet_refl st : same_packet st st.
Proof. by repeat split. Qed.

Lemma same_packet_trans st1 st2 st3 :
  same_packet st1 st2 -> same_packet st2 st3 -> same_packet st1 st3.
Proof.
  unfold same_packet.
  intros (A1 & A2 & A3 & A4 & A5 & A6 & A7) (B1 & B2 & B3 & B4 & B5 & B6 & B7).
  repeat split; congruence.
Qed.

Lemma Packet_Put_keeps c p1 p2 p3 st :
  same_packet st (snd (Packet_Put FIFO_SIZE c p1 p2 p3 st)).
Proof.
  unfold Packet_Put.
  repeat (apply and_then_keeps;
          [apply same_packet_refl | apply same_packet_trans | |
           intros ?; apply UART_OutChar_keeps]).
  intros ?; apply UART_OutChar_keeps.
Qed.

Lemma Packet_Put_wf c p1 p2 p3 st :
  FIFO_wf FIFO_SIZE (TxFIFO st) ->
  FIFO_wf FIFO_SIZE (TxFIFO (snd (Packet_Put FIFO_SIZE c p1 p2 p3 st))).
Proof.
  intros Hwf. destruct (Packet_Put_PutAll FIFO_SIZE st c p1 p2 p3) as [_ ->].
  by apply FIFO_PutAll_prefix.
Qed.

Lemma Packet_Put_result c p1 p2 p3 st :
  FIFO_wf FIFO_SIZE (TxFIFO st) ->
  fst (Packet_Put FIFO_SIZE c p1 p2 p3 st)
  = (NbBytes (TxFIFO st) + 5 <=? FIFO_SIZE).
Proof.
  intros Hwf. destruct (Packet_Put_PutAll FIFO_SIZE st c p1 p2 p3) as [-> _].
  destruct (FIFO_PutAll_prefix FIFO_SIZE
              [c; p1; p2; p3; calculateChecksum c p1 p2 p3] (TxFIFO st) Hwf)
    as (_ & _ & Hall).
  destruct (Z.leb_spec (NbBytes (TxFIFO st) + 5) FIFO_SIZE) as [H|H].
  - apply Hall. left. simpl. lia.
  - destruct (forallb _ _) eqn:E; [|done].
    destruct (proj1 Hall eq_refl) as [E'|E']; [simpl in E'; lia|discriminate].
Qed.

End Put_facts.

(** ** The handlers and the flash *)

Section Handler_flash_facts.

Lemma with_flash_Write (w : width) (o v : Z) (a : App) :
  flash_ok a -> 0 <= o < 8 -> o mod width_bytes w = 0 ->
  0 <= v < 2 ^ (8 * width_bytes w) ->
  exists f',
    with_flash (Flash_Write 0x80000 8 w (0x80000 + o) v) a
    = Some (true, set_app_flash f' a) /\
    sector_wf 8 f' /\ FTFE_ready f' /\
    forall j, 0 <= j ->
      _FB 0x80000 (0x80000 + j) f'
      = if (o <=? j) && (j <? o + width_bytes w) then byte_of v (j - o)
        else _FB 0x80000 (0x80000 + j) (app_flash a).
Proof.
  intros [Hwf Hready] Ho Hal Hv.
  destruct (Flash_Write_sector w o v (app_flash a) Hwf Hready Ho Hal Hv)
    as (f' & Hrun & Hwf' & Hready' & Hb).
  exists f'. unfold with_flash. rewrite Hrun. done.
Qed.

(** The block that allocates a half-word and stores a default in it, when
    the first candidate with an erased byte is the half-word [k] and that
    half-word is erased. *)
Lemma allocate_default_ok (get_P : App -> Z) (set_P : Z -> App -> App)
    (value k : Z) (status : bool) (a : App) :
  (forall p x, get_P (set_P p x) = p) ->
  (forall p x, app_flash (set_P p x) = app_flash x) ->
  flash_ok a -> 0 <= k < 4 -> 0 <= value < 2 ^ 16 ->
  (forall m, 0 <= m < k ->
     _FB 0x80000 (0x80000 + m * 2) (app_flash a) <> 0xFF) ->
  _FB 0x80000 (0x80000 + k * 2) (app_flash a) = 0xFF ->
  _FB 0x80000 (0x80000 + (k * 2 + 1)) (app_flash a) = 0xFF ->
  exists f',
    allocate_default 0x80000 8 get_P set_P value status a
    = Some (status, set_app_flash f' (set_P (0x80000 + k * 2) a)) /\
    sector_wf 8 f' /\ FTFE_ready f' /\
    forall j, 0 <= j ->
      _FB 0x80000 (0x80000 + j) f'
      = if (k * 2 <=? j) && (j <? k * 2 + 2) then byte_of value (j - k * 2)
        else _FB 0x80000 (0x80000 + j) (app_flash a).
Proof.
  intros Hgs Hfs Hok Hk Hv Hskip H0 H1.
  unfold allocate_default.
  destruct (Flash_AllocateVar_candidate 0x80000 8 (get_P a) 2 k (app_flash a))
    as [Halloc _]; try done; try lia.
  rewrite Halloc.
  2:{ intros j Hj. assert (j = 1) as -> by lia. split; [lia|done]. }
  assert (Hu : uint32 (0x80000 + k * 2) = 0x80000 + k * 2).
  { unfold uint32. apply Z.mod_small. lia. }
  rewrite Hu. cbv iota. rewrite Hgs.
  assert (Hok' : flash_ok (set_P (0x80000 + k * 2) a)).
  { unfold flash_ok. by rewrite Hfs. }
  destruct (with_flash_Write W16 (k * 2) value _ Hok')
    as (f' & Hrun & Hwf' & Hready' & Hb);
    [lia|rewrite Z.mod_mul; simpl; lia|exact Hv|].
  change (Flash_Write 0x80000 8 W16) with (Flash_Write16 0x80000 8) in Hrun.
  rewrite Hrun. exists f'. rewrite andb_true_r.
  split; [done|]. split; [done|]. split; [done|].
  intros j Hj. rewrite Hb by done. by rewrite Hfs.
Qed.

End Handler_flash_facts.

(** Offsets of literal addresses, computed. *)
Ltac flash_offsets :=
  repeat match goal with
         | |- context [?x - 524288] =>
             let v := eval vm_compute in (x - 524288) in
             lazymatch v with
             | Z0 => change (x - 524288) with v
             | Zpos _ => change (x - 524288) with v
             end
         end;
  cbn [Z.eqb Pos.eqb Z.leb Z.ltb Z.compare Pos.compare Pos.compare_cont
       andb Z.mul Z.add Pos.mul Pos.add Pos.succ].

Section Flash_Init_facts.

Lemma sector_bytes (f : Flash) :
  length (sector f) = 8%nat ->
  sector f = (fun j => _FB 0x80000 (0x80000 + j) f) <$> [0; 1; 2; 3; 4; 5; 6; 7].
Proof.
  intros Hlen. symmetry. exact (FlashBackup_data 0x80000 8 f Hlen).
Qed.

(** With both half-words programmed [Flash_Init] has nothing to do. *)
Lemma Flash_Init_programmed (a : App) :
  _FH 0x80000 (FLASH_TOWER_NUM_ADDR 0x80000) (app_flash a) <> 0xFFFF ->
  _FH 0x80000 (FLASH_TOWER_MODE_ADDR 0x80000) (app_flash a) <> 0xFFFF ->
  Flash_Init 0x80000 8 a = Some (true, a).
Proof.
  intros H1 H2. unfold Flash_Init.
  destruct (Z.eqb_spec (_FH 0x80000 (FLASH_TOWER_NUM_ADDR 0x80000)
                          (app_flash a)) 0xFFFF); [done|].
  destruct (Z.eqb_spec (_FH 0x80000 (FLASH_TOWER_MODE_ADDR 0x80000)
                          (app_flash a)) 0xFFFF); [done|].
  done.
Qed.

(** Facts about the byte at offset [j] as facts about the byte at an
    address. *)
Lemma _FB_at (f : Flash) (F : Z -> Z) :
  (forall j, 0 <= j -> _FB 0x80000 (0x80000 + j) f = F j) ->
  forall p, 0x80000 <= p -> _FB 0x80000 p f = F (p - 0x80000).
Proof.
  intros H p Hp. rewrite <- H by lia. f_equal. lia.
Qed.

Lemma _FB_at_erased (f : Flash) :
  (forall j, 0 <= j < 8 -> _FB 0x80000 (0x80000 + j) f = 0xFF) ->
  forall p, 0x80000 <= p < 0x80008 -> _FB 0x80000 p f = 0xFF.
Proof.
  intros H p Hp. rewrite <- (H (p - 0x80000)) by lia. f_equal. lia.
Qed.

(** [Flash_Init] on an erased sector. *)
Lemma Flash_Init_erased (a : App) :
  flash_ok a ->
  (forall j, 0 <= j < 8 -> _FB 0x80000 (0x80000 + j) (app_flash a) = 0xFF) ->
  exists f',
    Flash_Init 0x80000 8 a
    = Some (true, mkApp (app_tower a) f' (app_rtc a) (app_ftm a)
                        (GPIOA_PCOR a) 0x80000 0x80002 (Command a)) /\
    sector_wf 8 f' /\ FTFE_ready f' /\
    sector f' = [0x26; 0x81; 0x01; 0x00; 0xFF; 0xFF; 0xFF; 0xFF].
Proof.
  intros Hok Hff.
  pose proof Hok as [[Hlen Hbytes] Hready].
  pose proof (_FB_at_erased _ Hff) as A0.
  unfold Flash_Init.
  assert (E1 : (_FH 0x80000 (FLASH_TOWER_NUM_ADDR 0x80000) (app_flash a)
                =? 0xFFFF) = true).
  { rewrite _FH_erased by done. unfold FLASH_TOWER_NUM_ADDR.
    rewrite !A0 by lia. done. }
  rewrite E1.
  destruct (allocate_default_ok TowerNumber set_TowerNumber
              TOWER_DEFAULT_NUMBER 0 true a
              (fun _ _ => eq_refl) (fun _ _ => eq_refl) Hok
              ltac:(lia) ltac:(unfold TOWER_DEFAULT_NUMBER; lia))
    as (f1 & Hrun1 & Hwf1 & Hready1 & Hb1);
    [intros; lia|apply A0; lia|apply A0; lia|].
  rewrite Hrun1.
  set (a1 := set_app_flash f1 (set_TowerNumber (0x80000 + 0 * 2) a)).
  assert (Hok1 : flash_ok a1) by (by split).
  pose proof (_FB_at _ _ Hb1) as A1.
  change (app_flash a1) with f1.
  assert (E2 : (_FH 0x80000 (FLASH_TOWER_MODE_ADDR 0x80000) f1
                =? 0xFFFF) = true).
  { rewrite _FH_erased by apply Hwf1.
    unfold FLASH_TOWER_MODE_ADDR, FLASH_TOWER_NUM_ADDR.
    rewrite !A1 by lia. cbn -[_FB]. rewrite !A0 by lia. done. }
  rewrite E2.
  destruct (allocate_default_ok TowerMode set_TowerMode
              TOWER_DEFAULT_MODE 1 true a1
              (fun _ _ => eq_refl) (fun _ _ => eq_refl) Hok1
              ltac:(lia) ltac:(unfold TOWER_DEFAULT_MODE; lia))
    as (f2 & Hrun2 & Hwf2 & Hready2 & Hb2);
    change (app_flash a1) with f1.
  { intros m Hm. assert (m = 0) as -> by lia.
    rewrite A1 by lia. vm_compute. discriminate. }
  { rewrite A1 by lia. cbn -[_FB]. apply A0. lia. }
  { rewrite A1 by lia. cbn -[_FB]. apply A0. lia. }
  rewrite Hrun2. exists f2.
  split; [done|]. split; [done|]. split; [done|].
  rewrite (sector_bytes f2) by apply Hwf2.
  change (app_flash a1) with f1 in Hb2.
  pose proof (_FB_at _ _ Hb2) as A2.
  cbn [fmap list_fmap].
  rewrite !A2 by lia. cbn -[_FB byte_of].
  rewrite !A1 by lia. cbn -[_FB byte_of].
  rewrite !A0 by lia.
  reflexivity.
Qed.

End Flash_Init_facts.

Section Flash_handlers.

Variable FIFO_SIZE : Z.

(** X12.  On an erased eight-byte sector at [0x80000], with an idle
    controller, [Flash_Init] returns [true], points [TowerNumber] at the
    first half-word and [TowerMode] at the second, and stores the defaults
    [0x8126] and [0x0001] there, low byte first; the other four bytes stay
    erased.  Called again, it returns [true] and changes nothing. *)
Theorem Flash_Init_stores_defaults (a : App) :
  flash_ok a ->
  (forall j, 0 <= j < 8 -> _FB 0x80000 (0x80000 + j) (app_flash a) = 0xFF) ->
  exists a',
    Flash_Init 0x80000 8 a = Some (true, a') /\
    TowerNumber a' = 0x80000 /\ TowerMode a' = 0x80002 /\
    sector (app_flash a') = [0x26; 0x81; 0x01; 0x00; 0xFF; 0xFF; 0xFF; 0xFF] /\
    _FH 0x80000 (FLASH_TOWER_NUM_ADDR 0x80000) (app_flash a')
    = TOWER_DEFAULT_NUMBER /\
    _FH 0x80000 (FLASH_TOWER_MODE_ADDR 0x80000) (app_flash a')
    = TOWER_DEFAULT_MODE /\
    app_tower a' = app_tower a /\
    Flash_Init 0x80000 8 a' = Some (true, a').
Proof.
  intros Hok Hff.
  destruct (Flash_Init_erased a Hok Hff) as (f' & Hrun & Hwf & Hready & Hsec).
  eexists. split; [exact Hrun|]. cbn [TowerNumber TowerMode app_flash app_tower].
  assert (E1 : _FH 0x80000 (FLASH_TOWER_NUM_ADDR 0x80000) f'
               = TOWER_DEFAULT_NUMBER).
  { unfold _FH, _FB. rewrite Hsec. reflexivity. }
  assert (E2 : _FH 0x80000 (FLASH_TOWER_MODE_ADDR 0x80000) f'
               = TOWER_DEFAULT_MODE).
  { unfold _FH, _FB. rewrite Hsec. reflexivity. }
  do 6 (split; [done|]).
  apply Flash_Init_programmed; cbn [app_flash]; rewrite ?E1, ?E2; done.
Qed.

(** X13.  The program-byte command with offset 8 restores the defaults:
    whatever the sector holds, [HandleFlashProgramByte] erases it, runs
    [Flash_Init] and returns [true]; the sector then holds the default
    number and mode followed by four erased bytes, and the two pointers
    lead to them. *)
Theorem HandleFlashProgramByte_8_restores_defaults (a : App) :
  flash_ok a ->
  Packet_Parameter1 (app_tower a) = 8 ->
  exists a',
    HandleFlashProgramByte 0x80000 8 a = Some (true, a') /\
    sector (app_flash a') = [0x26; 0x81; 0x01; 0x00; 0xFF; 0xFF; 0xFF; 0xFF] /\
    TowerNumber a' = 0x80000 /\ TowerMode a' = 0x80002 /\
    app_tower a' = app_tower a.
Proof.
  intros [Hwf Hready] HP1. unfold HandleFlashProgramByte. rewrite HP1.
  cbn [Z.geb Z.ltb Z.eqb Z.compare Pos.compare Pos.compare_cont andb Pos.eqb].
  destruct (Flash_Erase_ok 8 (app_flash a) ltac:(lia) Hready)
    as (f1 & Hrun1 & Hsec1 & Hfs1 & Hregs1 & _).
  unfold with_flash. rewrite Hrun1.
  set (a1 := set_app_flash f1 a).
  assert (Hlen : length (sector (app_flash a)) = 8%nat) by apply Hwf.
  rewrite Hlen in Hsec1.
  assert (Hok1 : flash_ok a1).
  { split; [split|split].
    - change (app_flash a1) with f1. by rewrite Hsec1.
    - change (app_flash a1) with f1. rewrite Hsec1.
      apply Forall_replicate. unfold is_byte. lia.
    - change (app_flash a1) with f1. rewrite Hfs1. apply Hready.
    - done. }
  assert (Hff : forall j, 0 <= j < 8 ->
            _FB 0x80000 (0x80000 + j) (app_flash a1) = 0xFF).
  { intros j Hj. change (app_flash a1) with f1. unfold _FB, array_get.
    rewrite Hsec1. replace (0x80000 + j - 0x80000) with j by lia.
    destruct (Z.ltb_spec j 0); [lia|].
    by rewrite lookup_replicate_2 by lia. }
  destruct (Flash_Init_erased a1 Hok1 Hff) as (f' & Hrun & _ & _ & Hsec).
  rewrite Hrun. eexists. split; [reflexivity|]. done.
Qed.

(** X14.  A byte programmed is the byte read.  The program-byte command
    with an offset below 8 returns [true], stores its third parameter at
    that offset of the sector and changes no other byte of it; a read-byte
    command for that offset, given five free places in the transmit queue,
    then returns [true] and queues the packet of the command, the offset,
    zero and that byte. *)
Theorem HandleFlashProgramByte_then_HandleFlashReadByte (a : App)
    (o v : Z) :
  flash_ok a ->
  Packet_Parameter1 (app_tower a) = o -> 0 <= o < 8 ->
  Packet_Parameter3 (app_tower a) = v -> is_byte v ->
  exists a1,
    HandleFlashProgramByte 0x80000 8 a = Some (true, a1) /\
    flash_ok a1 /\ app_tower a1 = app_tower a /\
    (forall j, 0 <= j < 8 ->
       _FB 0x80000 (0x80000 + j) (app_flash a1)
       = if j =? o then v else _FB 0x80000 (0x80000 + j) (app_flash a)) /\
    forall a2,
      app_flash a2 = app_flash a1 ->
      Packet_Parameter1 (app_tower a2) = o ->
      FIFO_wf FIFO_SIZE (TxFIFO (app_tower a2)) ->
      NbBytes (TxFIFO (app_tower a2)) + 5 <= FIFO_SIZE ->
      exists a3,
        HandleFlashReadByte FIFO_SIZE 0x80000 8 a2 = Some (true, a3) /\
        FIFO_contents FIFO_SIZE (TxFIFO (app_tower a3))
        = FIFO_contents FIFO_SIZE (TxFIFO (app_tower a2))
          ++ [uint8 (Command a2); o; 0; v;
              calculateChecksum (uint8 (Command a2)) o 0 v] /\
        app_flash a3 = app_flash a2.
Proof.
  intros Hok HP1 Ho HP3 Hv.
  unfold HandleFlashProgramByte. rewrite HP1, HP3.
  destruct (Z.geb_spec o 0); [|lia]. destruct (Z.ltb_spec o 8); [|lia].
  cbn [andb].
  destruct (with_flash_Write W8 o v a Hok Ho)
    as (f' & Hrun & Hwf' & Hready' & Hb);
    [apply Z.mod_1_r|unfold is_byte in Hv; simpl; lia|].
  change (Flash_Write 0x80000 8 W8) with (Flash_Write8 0x80000 8) in Hrun.
  rewrite Hrun. eexists. split; [reflexivity|].
  cbn [app_flash app_tower set_app_flash].
  assert (Hbv : byte_of v 0 = v).
  { rewrite byte_of_0, land_255. unfold is_byte in Hv.
    apply Z.mod_small. lia. }
  assert (Hbytes : forall j, 0 <= j < 8 ->
            _FB 0x80000 (0x80000 + j) f'
            = if j =? o then v else _FB 0x80000 (0x80000 + j) (app_flash a)).
  { intros j Hj. rewrite Hb by lia. cbn [width_bytes].
    destruct (Z.eqb_spec j o) as [->|Hne].
    - destruct (Z.leb_spec o o); [|lia]. destruct (Z.ltb_spec o (o + 1)); [|lia].
      simpl. by rewrite Z.sub_diag.
    - destruct (Z.leb_spec o j), (Z.ltb_spec j (o + 1)); simpl; try done. lia. }
  split; [by split|]. split; [done|]. split; [done|].
  intros a2 Hfl HP1' Hwf2 Hroom.
  unfold HandleFlashReadByte. rewrite HP1', Hfl.
  destruct (Z.geb_spec o 0); [|lia]. destruct (Z.ltb_spec o 8); [|lia].
  cbn [andb]. rewrite (Hbytes o) by lia. rewrite Z.eqb_refl.
  destruct (Packet_Put_ok FIFO_SIZE (app_tower a2) (uint8 (Command a2)) o 0 v
              Hwf2 Hroom) as (F & C2 & Hput & _ & _ & _ & _ & Hc).
  unfold with_tower. rewrite Hput.
  eexists. split; [reflexivity|]. cbn. done.
Qed.

End Flash_handlers.

Section Number_and_mode.

Variable FIFO_SIZE : Z.

Lemma write_parameters_ok (get_P : App -> Z) (o : Z) (status : bool)
    (a : App) :
  flash_ok a -> get_P a = 0x80000 + o -> 0 <= o < 8 -> o mod 2 = 0 ->
  is_byte (Packet_Parameter2 (app_tower a)) ->
  is_byte (Packet_Parameter3 (app_tower a)) ->
  exists f',
    write_parameters 0x80000 8 get_P status a
    = Some (status, set_app_flash f' a) /\
    sector_wf 8 f' /\ FTFE_ready f' /\
    forall j, 0 <= j ->
      _FB 0x80000 (0x80000 + j) f'
      = if j =? o then Packet_Parameter2 (app_tower a)
        else if j =? o + 1 then Packet_Parameter3 (app_tower a)
        else _FB 0x80000 (0x80000 + j) (app_flash a).
Proof.
  intros Hok HP Ho Hal H2 H3. unfold write_parameters. rewrite HP.
  destruct (byte_of_uint16union_l _ _ H2 H3) as (Hv & Hb0 & Hb1).
  destruct (with_flash_Write W16 o _ a Hok Ho Hal Hv)
    as (f' & Hrun & Hwf' & Hready' & Hb).
  change (Flash_Write 0x80000 8 W16) with (Flash_Write16 0x80000 8) in Hrun.
  rewrite Hrun, andb_true_r. exists f'.
  split; [done|]. split; [done|]. split; [done|].
  intros j Hj. rewrite Hb by done. cbn [width_bytes].
  destruct (Z.eqb_spec j o) as [->|Hne].
  - destruct (Z.leb_spec o o); [|lia]. destruct (Z.ltb_spec o (o + 2)); [|lia].
    simpl. by rewrite Z.sub_diag.
  - destruct (Z.eqb_spec j (o + 1)) as [->|Hne'].
    + destruct (Z.leb_spec o (o + 1)); [|lia].
      destruct (Z.ltb_spec (o + 1) (o + 2)); [|lia].
      simpl. by replace (o + 1 - o) with 1 by lia.
    + destruct (Z.leb_spec o j), (Z.ltb_spec j (o + 2)); simpl; try done. lia.
Qed.

(** The two bytes of a half-word that was stored. *)
Lemma default_bytes v :
  0 <= v < 2 ^ 16 ->
  byte_of v 0 = uint16union_Lo v /\ byte_of v 1 = uint16union_Hi v.
Proof.
  intros Hv. unfold byte_of, uint16union_Lo, uint16union_Hi.
  by rewrite Z.shiftr_0_r.
Qed.

(** The reply of the two getters. *)
Lemma get_reply (c lo hi : Z) (a : App) :
  FIFO_wf FIFO_SIZE (TxFIFO (app_tower a)) ->
  NbBytes (TxFIFO (app_tower a)) + 5 <= FIFO_SIZE ->
  exists a',
    with_tower (Packet_Put FIFO_SIZE c 1 lo hi) a = Some (true, a') /\
    FIFO_contents FIFO_SIZE (TxFIFO (app_tower a'))
    = FIFO_contents FIFO_SIZE (TxFIFO (app_tower a))
      ++ [c; 1; lo; hi; calculateChecksum c 1 lo hi] /\
    app_flash a' = app_flash a.
Proof.
  intros Hwf Hroom.
  destruct (Packet_Put_ok FIFO_SIZE (app_tower a) c 1 lo hi Hwf Hroom)
    as (F & C2 & Hput & _ & _ & _ & _ & Hc).
  unfold with_tower. rewrite Hput. eexists. split; [reflexivity|]. done.
Qed.

(** X15.  Setting and getting the tower number.  With [TowerNumber] at
    the base of the sector, a set request returns [true].  It stores the
    half-word made of its second (low) and third (high) parameter, unless
    the stored number reads [0xFFFF]: then it stores the default [0x8126]
    and not the number requested.  The rest of the sector is unchanged.  A
    get request that follows, given five free places in the transmit
    queue, queues the packet of the command, 1 and the low and the high
    byte of what was stored. *)
Theorem HandleTowerNumber_set_then_get (a : App) (lo hi : Z) :
  flash_ok a -> TowerNumber a = 0x80000 ->
  Packet_Parameter1 (app_tower a) = 2 ->
  Packet_Parameter2 (app_tower a) = lo -> is_byte lo ->
  Packet_Parameter3 (app_tower a) = hi -> is_byte hi ->
  let stored :=
    if _FH 0x80000 (FLASH_TOWER_NUM_ADDR 0x80000) (app_flash a) =? 0xFFFF
    then TOWER_DEFAULT_NUMBER else uint16union_l lo hi in
  exists a1,
    HandleTowerNumber FIFO_SIZE 0x80000 8 a = Some (true, a1) /\
    flash_ok a1 /\ TowerNumber a1 = 0x80000 /\ app_tower a1 = app_tower a /\
    _FH 0x80000 (FLASH_TOWER_NUM_ADDR 0x80000) (app_flash a1) = stored /\
    (forall j, 2 <= j < 8 ->
       _FB 0x80000 (0x80000 + j) (app_flash a1)
       = _FB 0x80000 (0x80000 + j) (app_flash a)) /\
    forall a2,
      app_flash a2 = app_flash a1 -> TowerNumber a2 = 0x80000 ->
      Packet_Parameter1 (app_tower a2) = 1 ->
      Packet_Parameter2 (app_tower a2) = 0 ->
      Packet_Parameter3 (app_tower a2) = 0 ->
      FIFO_wf FIFO_SIZE (TxFIFO (app_tower a2)) ->
      NbBytes (TxFIFO (app_tower a2)) + 5 <= FIFO_SIZE ->
      exists a3,
        HandleTowerNumber FIFO_SIZE 0x80000 8 a2 = Some (true, a3) /\
        FIFO_contents FIFO_SIZE (TxFIFO (app_tower a3))
        = FIFO_contents FIFO_SIZE (TxFIFO (app_tower a2))
          ++ [uint8 (Command a2); 1;
              uint16union_Lo stored; uint16union_Hi stored;
              calculateChecksum (uint8 (Command a2)) 1
                (uint16union_Lo stored) (uint16union_Hi stored)].
Proof.
  intros Hok HP HP1 HP2 Hlo HP3 Hhi stored.
  pose proof Hok as [[Hlen Hbytes] Hready].
  assert (Hset : exists f' b0 b1,
    HandleTowerNumber FIFO_SIZE 0x80000 8 a
    = Some (true, set_app_flash f' (set_TowerNumber 0x80000 a)) /\
    sector_wf 8 f' /\ FTFE_ready f' /\
    is_byte b0 /\ is_byte b1 /\
    b0 = uint16union_Lo stored /\ b1 = uint16union_Hi stored /\
    stored = b0 + 256 * b1 /\
    forall j, 0 <= j ->
      _FB 0x80000 (0x80000 + j) f'
      = if j =? 0 then b0 else if j =? 1 then b1
        else _FB 0x80000 (0x80000 + j) (app_flash a)).
  { unfold HandleTowerNumber. rewrite HP1. cbn [Z.eqb Pos.eqb andb].
    subst stored.
    destruct (_FH 0x80000 (FLASH_TOWER_NUM_ADDR 0x80000) (app_flash a)
              =? 0xFFFF) eqn:E.
    - rewrite _FH_erased in E by done.
      apply andb_true_iff in E as [E0 E1]. apply Z.eqb_eq in E0, E1.
      unfold FLASH_TOWER_NUM_ADDR in E0, E1.
      destruct (allocate_default_ok TowerNumber set_TowerNumber
                  TOWER_DEFAULT_NUMBER 0 true a
                  (fun _ _ => eq_refl) (fun _ _ => eq_refl) Hok
                  ltac:(lia) ltac:(unfold TOWER_DEFAULT_NUMBER; lia))
        as (f' & Hrun & Hwf' & Hready' & Hb); [intros; lia|done|done|].
      rewrite Hrun. exists f', 0x26, 0x81.
      split; [done|]. split; [done|]. split; [done|].
      split; [unfold is_byte; lia|]. split; [unfold is_byte; lia|].
      split; [done|]. split; [done|]. split; [done|].
      intros j Hj. rewrite Hb by done.
      destruct (Z.eqb_spec j 0) as [->|]; [done|].
      destruct (Z.eqb_spec j 1) as [->|]; [done|].
      destruct (Z.leb_spec (0 * 2) j), (Z.ltb_spec j (0 * 2 + 2));
        simpl; try done; lia.
    - destruct (write_parameters_ok TowerNumber 0 true a Hok)
        as (f' & Hrun & Hwf' & Hready' & Hb);
        [done|lia|done|by rewrite HP2|by rewrite HP3|].
      rewrite Hrun. exists f', lo, hi.
      replace (set_TowerNumber 0x80000 a) with a
        by (destruct a; simpl in *; by subst).
      destruct (byte_of_uint16union_l lo hi Hlo Hhi) as (Hv & Hb0 & Hb1).
      destruct (default_bytes _ Hv) as [Hd0 Hd1].
      split; [done|]. split; [done|]. split; [done|].
      split; [done|]. split; [done|].
      split; [congruence|]. split; [congruence|].
      split; [by apply uint16union_l_value|].
      intros j Hj. rewrite Hb by done. by rewrite HP2, HP3. }
  destruct Hset as (f' & b0 & b1 & Hrun & Hwf' & Hready' & Hb0 & Hb1 &
                    Hs0 & Hs1 & Hst & Hb).
  pose proof (_FB_at _ _ Hb) as A.
  eexists. split; [exact Hrun|].
  cbn [app_flash app_tower TowerNumber set_app_flash set_TowerNumber].
  split; [by split|]. split; [done|]. split; [done|].
  split.
  { rewrite _FH_value by apply Hwf'. unfold FLASH_TOWER_NUM_ADDR.
    rewrite !A by lia. flash_offsets. lia. }
  split.
  { intros j Hj. rewrite Hb by lia.
    destruct (Z.eqb_spec j 0); [lia|]. destruct (Z.eqb_spec j 1); [lia|]. done. }
  intros a2 Hfl HP' HP1' HP2' HP3' Hwf2 Hroom.
  unfold HandleTowerNumber. rewrite HP1', HP2', HP3'.
  cbn [Z.eqb Pos.eqb andb].
  unfold pointee_Lo, pointee_Hi. rewrite HP', Hfl.
  rewrite !A by lia. flash_offsets. rewrite <- Hs0, <- Hs1.
  destruct (get_reply (uint8 (Command a2)) b0 b1 a2 Hwf2 Hroom)
    as (a3 & Hput & Hc & _).
  exists a3. done.
Qed.

(** X16.  Setting and getting the tower mode.  With [TowerMode] at the
    second half-word of the sector and a tower number whose low byte is
    not [0xFF], a set request returns [true].  It stores the half-word
    made of its second (low) and third (high) parameter, unless the stored
    mode reads [0xFFFF]: then it stores the default [0x0001] and not the
    mode requested.  The rest of the sector is unchanged.  A get request
    that follows, whatever its second and third parameter, given five free
    places in the transmit queue, queues the packet of the command, 1 and
    the low and the high byte of what was stored. *)
Theorem HandleTowerMode_set_then_get (a : App) (lo hi : Z) :
  flash_ok a -> TowerMode a = 0x80002 ->
  _FB 0x80000 0x80000 (app_flash a) <> 0xFF ->
  Packet_Parameter1 (app_tower a) = 2 ->
  Packet_Parameter2 (app_tower a) = lo -> is_byte lo ->
  Packet_Parameter3 (app_tower a) = hi -> is_byte hi ->
  let stored :=
    if _FH 0x80000 (FLASH_TOWER_MODE_ADDR 0x80000) (app_flash a) =? 0xFFFF
    then TOWER_DEFAULT_MODE else uint16union_l lo hi in
  exists a1,
    HandleTowerMode FIFO_SIZE 0x80000 8 a = Some (true, a1) /\
    flash_ok a1 /\ TowerMode a1 = 0x80002 /\ app_tower a1 = app_tower a /\
    _FH 0x80000 (FLASH_TOWER_MODE_ADDR 0x80000) (app_flash a1) = stored /\
    (forall j, 0 <= j < 8 -> j <> 2 -> j <> 3 ->
       _FB 0x80000 (0x80000 + j) (app_flash a1)
       = _FB 0x80000 (0x80000 + j) (app_flash a)) /\
    forall a2,
      app_flash a2 = app_flash a1 -> TowerMode a2 = 0x80002 ->
      Packet_Parameter1 (app_tower a2) = 1 ->
      FIFO_wf FIFO_SIZE (TxFIFO (app_tower a2)) ->
      NbBytes (TxFIFO (app_tower a2)) + 5 <= FIFO_SIZE ->
      exists a3,
        HandleTowerMode FIFO_SIZE 0x80000 8 a2 = Some (true, a3) /\
        FIFO_contents FIFO_SIZE (TxFIFO (app_tower a3))
        = FIFO_contents FIFO_SIZE (TxFIFO (app_tower a2))
          ++ [uint8 (Command a2); 1;
              uint16union_Lo stored; uint16union_Hi stored;
              calculateChecksum (uint8 (Command a2)) 1
                (uint16union_Lo stored) (uint16union_Hi stored)].
Proof.
  intros Hok HP Hnum HP1 HP2 Hlo HP3 Hhi stored.
  pose proof Hok as [[Hlen Hbytes] Hready].
  assert (Hset : exists f' b0 b1,
    HandleTowerMode FIFO_SIZE 0x80000 8 a
    = Some (true, set_app_flash f' (set_TowerMode 0x80002 a)) /\
    sector_wf 8 f' /\ FTFE_ready f' /\
    is_byte b0 /\ is_byte b1 /\
    b0 = uint16union_Lo stored /\ b1 = uint16union_Hi stored /\
    stored = b0 + 256 * b1 /\
    forall j, 0 <= j ->
      _FB 0x80000 (0x80000 + j) f'
      = if j =? 2 then b0 else if j =? 3 then b1
        else _FB 0x80000 (0x80000 + j) (app_flash a)).
  { unfold HandleTowerMode. rewrite HP1. cbn [Z.eqb Pos.eqb andb].
    subst stored.
    destruct (_FH 0x80000 (FLASH_TOWER_MODE_ADDR 0x80000) (app_flash a)
              =? 0xFFFF) eqn:E.
    - rewrite _FH_erased in E by done.
      apply andb_true_iff in E as [E0 E1]. apply Z.eqb_eq in E0, E1.
      unfold FLASH_TOWER_MODE_ADDR, FLASH_TOWER_NUM_ADDR in E0, E1.
      destruct (allocate_default_ok TowerMode set_TowerMode
                  TOWER_DEFAULT_MODE 1 true a
                  (fun _ _ => eq_refl) (fun _ _ => eq_refl) Hok
                  ltac:(lia) ltac:(unfold TOWER_DEFAULT_MODE; lia))
        as (f' & Hrun & Hwf' & Hready' & Hb); [|done|done|].
      { intros m Hm. assert (m = 0) as -> by lia. exact Hnum. }
      rewrite Hrun. exists f', 0x01, 0x00.
      split; [done|]. split; [done|]. split; [done|].
      split; [unfold is_byte; lia|]. split; [unfold is_byte; lia|].
      split; [done|]. split; [done|]. split; [done|].
      intros j Hj. rewrite Hb by done.
      destruct (Z.eqb_spec j 2) as [->|]; [done|].
      destruct (Z.eqb_spec j 3) as [->|]; [done|].
      destruct (Z.leb_spec (1 * 2) j), (Z.ltb_spec j (1 * 2 + 2));
        simpl; try done; lia.
    - destruct (write_parameters_ok TowerMode 2 true a Hok)
        as (f' & Hrun & Hwf' & Hready' & Hb);
        [done|lia|done|by rewrite HP2|by rewrite HP3|].
      rewrite Hrun. exists f', lo, hi.
      replace (set_TowerMode 0x80002 a) with a
        by (destruct a; simpl in *; by subst).
      destruct (byte_of_uint16union_l lo hi Hlo Hhi) as (Hv & Hb0 & Hb1).
      destruct (default_bytes _ Hv) as [Hd0 Hd1].
      split; [done|]. split; [done|]. split; [done|].
      split; [done|]. split; [done|].
      split; [congruence|]. split; [congruence|].
      split; [by apply uint16union_l_value|].
      intros j Hj. rewrite Hb by done. by rewrite HP2, HP3. }
  destruct Hset as (f' & b0 & b1 & Hrun & Hwf' & Hready' & Hb0 & Hb1 &
                    Hs0 & Hs1 & Hst & Hb).
  pose proof (_FB_at _ _ Hb) as A.
  eexists. split; [exact Hrun|].
  cbn [app_flash app_tower TowerMode set_app_flash set_TowerMode].
  split; [by split|]. split; [done|]. split; [done|].
  split.
  { rewrite _FH_value by apply Hwf'.
    unfold FLASH_TOWER_MODE_ADDR, FLASH_TOWER_NUM_ADDR.
    rewrite !A by lia. flash_offsets. lia. }
  split.
  { intros j Hj Hj2 Hj3. rewrite Hb by lia.
    destruct (Z.eqb_spec j 2); [lia|]. destruct (Z.eqb_spec j 3); [lia|]. done. }
  intros a2 Hfl HP' HP1' Hwf2 Hroom.
  unfold HandleTowerMode. rewrite HP1'.
  cbn [Z.eqb Pos.eqb andb].
  unfold pointee_Lo, pointee_Hi. rewrite HP', Hfl.
  rewrite !A by lia. flash_offsets. rewrite <- Hs0, <- Hs1.
  destruct (get_reply (uint8 (Command a2)) b0 b1 a2 Hwf2 Hroom)
    as (a3 & Hput & Hc & _).
  exists a3. done.
Qed.

(** X17.  Setting the mode when the mode reads [0xFFFF] and the low byte
    of the tower number is [0xFF].  The allocator then decides at the
    number's half-word.  If the high byte of the number is programmed, the
    request returns [false] and changes nothing, although the mode's own
    half-word is free.  If the number reads [0xFFFF] as well, the request
    returns [true], points [TowerMode] at the number's half-word and
    stores the default mode there: the number then reads [0x0001] and the
    mode's half-word is still erased. *)
Theorem HandleTowerMode_set_decides_at_number (a : App) :
  flash_ok a ->
  Packet_Parameter1 (app_tower a) = 2 ->
  _FH 0x80000 (FLASH_TOWER_MODE_ADDR 0x80000) (app_flash a) = 0xFFFF ->
  _FB 0x80000 0x80000 (app_flash a) = 0xFF ->
  (_FB 0x80000 0x80001 (app_flash a) <> 0xFF ->
   HandleTowerMode FIFO_SIZE 0x80000 8 a
   = Some (false, set_TowerMode (TowerMode a) a)) /\
  (_FB 0x80000 0x80001 (app_flash a) = 0xFF ->
   exists a1,
     HandleTowerMode FIFO_SIZE 0x80000 8 a = Some (true, a1) /\
     TowerMode a1 = FLASH_TOWER_NUM_ADDR 0x80000 /\
     _FH 0x80000 (FLASH_TOWER_NUM_ADDR 0x80000) (app_flash a1)
     = TOWER_DEFAULT_MODE /\
     _FH 0x80000 (FLASH_TOWER_MODE_ADDR 0x80000) (app_flash a1) = 0xFFFF).
Proof.
  intros Hok HP1 Hmode H0.
  pose proof Hok as [[Hlen Hbytes] Hready].
  unfold HandleTowerMode. rewrite HP1. cbn [Z.eqb Pos.eqb andb].
  rewrite Hmode. cbn [Z.eqb Pos.eqb].
  split.
  - intros H1. unfold allocate_default.
    destruct (Flash_AllocateVar_candidate 0x80000 8 (TowerMode a) 2 0
                (app_flash a)) as [_ Hfail]; try done; try lia.
    rewrite Hfail; [done|].
    exists 1. split; [lia|]. right. exact H1.
  - intros H1.
    destruct (allocate_default_ok TowerMode set_TowerMode
                TOWER_DEFAULT_MODE 0 true a
                (fun _ _ => eq_refl) (fun _ _ => eq_refl) Hok
                ltac:(lia) ltac:(unfold TOWER_DEFAULT_MODE; lia))
      as (f' & Hrun & Hwf' & Hready' & Hb); [intros; lia|done|done|].
    rewrite Hrun. eexists. split; [reflexivity|].
    cbn [app_flash TowerMode set_app_flash set_TowerMode].
    pose proof (_FB_at _ _ Hb) as A.
    split; [done|].
    rewrite !_FH_value by apply Hwf'.
    rewrite _FH_value in Hmode by done.
    unfold FLASH_TOWER_MODE_ADDR, FLASH_TOWER_NUM_ADDR in *.
    rewrite !A by lia. flash_offsets.
    split; [done|]. exact Hmode.
Qed.

End Number_and_mode.

Section Other_handlers.

Variable FIFO_SIZE : Z.

(** X18.  [HandleTime] accepts exactly the times of day other than
    0:00:00.  For an accepted time it returns [true] and the counter
    register of the clock then holds the seconds since midnight less one,
    a value below 86399; for any other parameters it returns [false] and
    leaves the clock, as everything else, alone. *)
Theorem HandleTime_accepts_times_of_day (a : App) (h m s : Z) :
  Packet_Parameter1 (app_tower a) = h -> is_byte h ->
  Packet_Parameter2 (app_tower a) = m -> is_byte m ->
  Packet_Parameter3 (app_tower a) = s -> is_byte s ->
  let time_of_day :=
    h <= 23 /\ m <= 59 /\ s <= 59 /\ h * 3600 + m * 60 + s <> 0 in
  (time_of_day ->
   exists a',
     HandleTime a = Some (true, a') /\
     RTC_TSR (app_rtc a') = h * 3600 + m * 60 + s - 1 /\
     0 <= RTC_TSR (app_rtc a') < 86399 /\
     app_tower a' = app_tower a /\ app_flash a' = app_flash a) /\
  (~ time_of_day -> HandleTime a = Some (false, a)).
Proof.
  intros H1 Hh H2 Hm H3 Hs. unfold is_byte in *.
  unfold HandleTime. rewrite H1, H2, H3.
  destruct (Z.geb_spec h 0); [|lia]. destruct (Z.geb_spec m 0); [|lia].
  destruct (Z.geb_spec s 0); [|lia]. cbn [andb]. cbv zeta.
  destruct (Z.leb_spec h 23), (Z.leb_spec m 59), (Z.leb_spec s 59); cbn [andb];
    try (split; [lia|done]).
  destruct (Z.eqb_spec h 0), (Z.eqb_spec m 0), (Z.eqb_spec s 0); cbn [andb];
    try (split; [lia|done]).
  all: split; [|lia]; intros _; eexists; split; [reflexivity|];
    cbn [app_rtc set_app_rtc app_tower app_flash];
    rewrite RTC_Set_TSR by lia; split; [done|]; split; [lia|done].
Qed.

(** Two calls joined by [&&]: the second runs after a first that found
    room. *)
Lemma and_then_Packet_Put (c1 : Tower -> bool * Tower) c p1 p2 p3 st n l :
  (FIFO_wf FIFO_SIZE (TxFIFO st) ->
   fst (c1 st) = (NbBytes (TxFIFO st) + n <=? FIFO_SIZE) /\
   FIFO_wf FIFO_SIZE (TxFIFO (snd (c1 st))) /\
   (NbBytes (TxFIFO st) + n <= FIFO_SIZE ->
    NbBytes (TxFIFO (snd (c1 st))) = NbBytes (TxFIFO st) + n /\
    FIFO_contents FIFO_SIZE (TxFIFO (snd (c1 st)))
    = FIFO_contents FIFO_SIZE (TxFIFO st) ++ l)) ->
  0 <= n ->
  FIFO_wf FIFO_SIZE (TxFIFO st) ->
  let c2 := c1 &&& Packet_Put FIFO_SIZE c p1 p2 p3 in
  fst (c2 st) = (NbBytes (TxFIFO st) + (n + 5) <=? FIFO_SIZE) /\
  FIFO_wf FIFO_SIZE (TxFIFO (snd (c2 st))) /\
  (NbBytes (TxFIFO st) + (n + 5) <= FIFO_SIZE ->
   NbBytes (TxFIFO (snd (c2 st))) = NbBytes (TxFIFO st) + (n + 5) /\
   FIFO_contents FIFO_SIZE (TxFIFO (snd (c2 st)))
   = FIFO_contents FIFO_SIZE (TxFIFO st)
     ++ l ++ [c; p1; p2; p3; calculateChecksum c p1 p2 p3]).
Proof.
  intros H1 Hn Hwf. destruct (H1 Hwf) as (Hr & Hwf1 & Hok). cbv zeta.
  unfold and_then. destruct (c1 st) as [r st1]. cbn [fst snd] in *.
  destruct (Z.leb_spec (NbBytes (TxFIFO st) + n) FIFO_SIZE) as [Hle|Hgt].
  - subst r. destruct (Hok Hle) as [Hn1 Hc1].
    pose proof (Packet_Put_result FIFO_SIZE c p1 p2 p3 st1 Hwf1) as Hr2.
    pose proof (Packet_Put_wf FIFO_SIZE c p1 p2 p3 st1 Hwf1) as Hwf2.
    destruct (Packet_Put FIFO_SIZE c p1 p2 p3 st1) as [r2 st2] eqn:E.
    cbn [fst snd] in *. split.
    { rewrite Hr2, Hn1.
      destruct (Z.leb_spec (NbBytes (TxFIFO st) + n + 5) FIFO_SIZE),
               (Z.leb_spec (NbBytes (TxFIFO st) + (n + 5)) FIFO_SIZE);
        try done; lia. }
    split; [done|]. intros Hroom.
    destruct (Packet_Put_ok FIFO_SIZE st1 c p1 p2 p3 Hwf1)
      as (F & C2 & Hput & _ & _ & _ & HnF & HcF); [lia|].
    rewrite E in Hput. injection Hput as _ ->. cbn.
    split; [lia|]. by rewrite HcF, Hc1, <- app_assoc.
  - subst r. cbn [fst snd]. split.
    { destruct (Z.leb_spec (NbBytes (TxFIFO st) + (n + 5)) FIFO_SIZE);
        [lia|done]. }
    split; [done|]. lia.
Qed.

Lemma Packet_Put_chain_start c p1 p2 p3 st :
  FIFO_wf FIFO_SIZE (TxFIFO st) ->
  fst (Packet_Put FIFO_SIZE c p1 p2 p3 st)
  = (NbBytes (TxFIFO st) + 5 <=? FIFO_SIZE) /\
  FIFO_wf FIFO_SIZE (TxFIFO (snd (Packet_Put FIFO_SIZE c p1 p2 p3 st))) /\
  (NbBytes (TxFIFO st) + 5 <= FIFO_SIZE ->
   NbBytes (TxFIFO (snd (Packet_Put FIFO_SIZE c p1 p2 p3 st)))
   = NbBytes (TxFIFO st) + 5 /\
   FIFO_contents FIFO_SIZE
     (TxFIFO (snd (Packet_Put FIFO_SIZE c p1 p2 p3 st)))
   = FIFO_contents FIFO_SIZE (TxFIFO st)
     ++ [c; p1; p2; p3; calculateChecksum c p1 p2 p3]).
Proof.
  intros Hwf. split; [by apply Packet_Put_result|].
  split; [by apply Packet_Put_wf|]. intros Hroom.
  destruct (Packet_Put_ok FIFO_SIZE st c p1 p2 p3 Hwf Hroom)
    as (F & C2 & -> & _ & _ & _ & HnF & HcF). done.
Qed.

(** X19.  The start-up report.  With all three parameters zero,
    [HandleTowerStartup] returns [true] exactly when the transmit queue
    has twenty free places, and then queues four packets in this order:
    start-up, version, tower number and tower mode, the last two with the
    bytes of flash the two pointers lead to.  With any parameter not zero
    it returns [false] and queues nothing.  It never changes the flash. *)
Theorem HandleTowerStartup_reports (a : App) :
  FIFO_wf FIFO_SIZE (TxFIFO (app_tower a)) ->
  exists r a',
    HandleTowerStartup FIFO_SIZE 0x80000 a = Some (r, a') /\
    app_flash a' = app_flash a /\
    (Packet_Parameter1 (app_tower a) = 0 /\
     Packet_Parameter2 (app_tower a) = 0 /\
     Packet_Parameter3 (app_tower a) = 0 ->
     (r = true <-> NbBytes (TxFIFO (app_tower a)) + 20 <= FIFO_SIZE) /\
     (r = true ->
      FIFO_contents FIFO_SIZE (TxFIFO (app_tower a'))
      = FIFO_contents FIFO_SIZE (TxFIFO (app_tower a))
        ++ startup_report a)) /\
    (~ (Packet_Parameter1 (app_tower a) = 0 /\
        Packet_Parameter2 (app_tower a) = 0 /\
        Packet_Parameter3 (app_tower a) = 0) ->
     r = false /\ a' = a).
Proof.
  intros Hwf. unfold HandleTowerStartup.
  destruct (Z.eqb_spec (Packet_Parameter1 (app_tower a)) 0) as [E1|E1];
    [|exists false, a; cbn [andb]; split; [done|]; split; [done|];
      split; [intros (? & _); done|done]].
  destruct (Z.eqb_spec (Packet_Parameter2 (app_tower a)) 0) as [E2|E2];
    [|exists false, a; cbn [andb]; split; [done|]; split; [done|];
      split; [intros (_ & ? & _); done|done]].
  destruct (Z.eqb_spec (Packet_Parameter3 (app_tower a)) 0) as [E3|E3];
    [|exists false, a; cbn [andb]; split; [done|]; split; [done|];
      split; [intros (_ & _ & ?); done|done]].
  cbn [andb]. unfold with_tower, pointee_Lo, pointee_Hi.
  match goal with
  | |- context [(?c1 &&& Packet_Put _ ?c ?p1 ?p2 ?p3) (app_tower a)] =>
      pose proof (and_then_Packet_Put c1 c p1 p2 p3 (app_tower a) 15
                    (firstn 15 (startup_report a))) as H4
  end.
  cbv zeta in H4.
  destruct H4 as (Hr & Hwf' & Hok); [|lia|done|].
  { intros _.
    match goal with
    | |- context [(?c1 &&& Packet_Put _ ?c ?p1 ?p2 ?p3) (app_tower a)] =>
        pose proof (and_then_Packet_Put c1 c p1 p2 p3 (app_tower a) 10
                      (firstn 10 (startup_report a))) as H3
    end.
    cbv zeta in H3. apply H3; [|lia|done].
    intros _.
    match goal with
    | |- context [(?c1 &&& Packet_Put _ ?c ?p1 ?p2 ?p3) (app_tower a)] =>
        pose proof (and_then_Packet_Put c1 c p1 p2 p3 (app_tower a) 5
                      (firstn 5 (startup_report a))) as H2
    end.
    cbv zeta in H2. apply H2; [|lia|done].
    intros _. by apply Packet_Put_chain_start. }
  match goal with
  | |- context [(?c1 &&& ?c2) (app_tower a)] =>
      destruct ((c1 &&& c2) (app_tower a)) as [r t] eqn:E
  end.
  cbn [fst snd] in *. exists (true && r), (set_app_tower t a).
  split; [done|]. split; [done|]. split; [|intros Hne; by destruct Hne].
  intros _. cbn [andb]. rewrite Hr. split.
  - destruct (Z.leb_spec (NbBytes (TxFIFO (app_tower a)) + (15 + 5))
                FIFO_SIZE); split; intros; try done; lia.
  - intros Hle. apply Z.leb_le in Hle. destruct (Hok Hle) as [_ Hc].
    cbn [app_tower set_app_tower]. rewrite Hc. done.
Qed.

(** X20.  The version request.  [HandleSpecial] answers only the
    parameters ['v'], ['x'] and carriage return: given five free places in
    the transmit queue it then returns [true] and queues the packet of the
    command, ['v'], 1 and 0, the version 1.0; for any other parameters it
    returns [false] and queues nothing. *)
Theorem HandleSpecial_sends_version (a : App) :
  FIFO_wf FIFO_SIZE (TxFIFO (app_tower a)) ->
  NbBytes (TxFIFO (app_tower a)) + 5 <= FIFO_SIZE ->
  (Packet_Parameter1 (app_tower a) = char_v /\
   Packet_Parameter2 (app_tower a) = char_x /\
   Packet_Parameter3 (app_tower a) = CR ->
   exists a',
     HandleSpecial FIFO_SIZE a = Some (true, a') /\
     FIFO_contents FIFO_SIZE (TxFIFO (app_tower a'))
     = FIFO_contents FIFO_SIZE (TxFIFO (app_tower a))
       ++ [uint8 (Command a); char_v; 1; 0;
           calculateChecksum (uint8 (Command a)) char_v 1 0]) /\
  (~ (Packet_Parameter1 (app_tower a) = char_v /\
      Packet_Parameter2 (app_tower a) = char_x /\
      Packet_Parameter3 (app_tower a) = CR) ->
   HandleSpecial FIFO_SIZE a = Some (false, a)).
Proof.
  intros Hwf Hroom. unfold HandleSpecial. split.
  - intros (-> & -> & ->). cbn [Z.eqb Pos.eqb andb char_v char_x CR].
    unfold HandleTowerGetVersion.
    destruct (Packet_Put_ok FIFO_SIZE (app_tower a) (uint8 (Command a))
                char_v TowerVersion_Hi TowerVersion_Lo Hwf Hroom)
      as (F & C2 & Hput & _ & _ & _ & _ & Hc).
    unfold with_tower. rewrite Hput. eexists. split; [reflexivity|]. done.
  - intros Hne.
    destruct (Z.eqb_spec (Packet_Parameter1 (app_tower a)) char_v); [|done].
    destruct (Z.eqb_spec (Packet_Parameter2 (app_tower a)) char_x); [|done].
    destruct (Z.eqb_spec (Packet_Parameter3 (app_tower a)) CR); [|done].
    by destruct Hne.
Qed.

End Other_handlers.

(** ** The command byte *)

Lemma testbit_byte_high c n : is_byte c -> 8 <= n -> Z.testbit c n = false.
Proof.
  intros Hc Hn. unfold is_byte in Hc.
  rewrite <- (Z.mod_small c (2 ^ 8)) by lia.
  apply Z.mod_pow2_bits_high. lia.
Qed.

Lemma command_bits c :
  is_byte c -> Z.land c (Z.lnot PACKET_ACK_MASK) = c mod 128.
Proof.
  intros Hc. apply Z.bits_inj'. intros n Hn.
  change PACKET_ACK_MASK with (2 ^ 7). change 128 with (2 ^ 7).
  rewrite Z.land_spec, Z.lnot_spec, Z.pow2_bits_eqb by lia.
  destruct (Z.lt_ge_cases n 7).
  - rewrite Z.mod_pow2_bits_low by lia.
    destruct (Z.eqb_spec 7 n); [lia|]. apply andb_true_r.
  - rewrite Z.mod_pow2_bits_high by lia.
    destruct (Z.eqb_spec 7 n) as [<-|]; [apply andb_false_r|].
    rewrite testbit_byte_high by (try done; lia). done.
Qed.

Lemma ack_bit c : is_byte c -> bits_set c PACKET_ACK_MASK = (128 <=? c).
Proof.
  intros Hc. change PACKET_ACK_MASK with (2 ^ 7).
  rewrite (bits_set_testbit c 7) by lia.
  unfold is_byte in Hc. rewrite Z.testbit_eqb by lia.
  change (2 ^ 7) with 128.
  destruct (Z.leb_spec 128 c).
  - replace (c / 128) with 1 by (Z.div_mod_to_equations; lia). done.
  - replace (c / 128) with 0 by (Z.div_mod_to_equations; lia). done.
Qed.

Lemma reply_command (success : bool) c :
  0 <= c < 128 ->
  uint8 (Z.lor (Z.shiftl (Z.b2z success) 7) c)
  = (if success then 128 else 0) + c.
Proof.
  intros Hc. rewrite Z.lor_comm, (lor_shiftl_small c _ 7) by lia.
  unfold uint8. change (2 ^ 7) with 128.
  destruct success; simpl Z.b2z; rewrite Z.mod_small; lia.
Qed.

Lemma classic_time h m s :
  let P := h <= 23 /\ m <= 59 /\ s <= 59 /\ h * 3600 + m * 60 + s <> 0 in
  P \/ ~ P.
Proof. cbv zeta. lia. Qed.

(** ** The main loop *)

Section HandlePacket_facts.

Variable FIFO_SIZE : Z.
Variable FLASH_DATA_START FLASH_SIZE FLASH_DATA_END : Z.
Variable CPU_MCGFF_CLK_HZ_CONFIG_0 : Z.


(** A round of the loop in which [Packet_Get] returns [false] only takes
    a byte, if there is one. *)
Lemma HandlePacket_waiting a st :
  Packet_Get FIFO_SIZE (app_tower a) = (false, st) ->
  HandlePacket FIFO_SIZE FLASH_DATA_START FLASH_SIZE FLASH_DATA_END
      CPU_MCGFF_CLK_HZ_CONFIG_0 a = Some (tt, set_app_tower st a).
Proof. intros H. unfold HandlePacket. by rewrite H. Qed.

Lemma HandlePacket_received a st :
  Packet_Get FIFO_SIZE (app_tower a) = (true, st) ->
  HandlePacket FIFO_SIZE FLASH_DATA_START FLASH_SIZE FLASH_DATA_END
      CPU_MCGFF_CLK_HZ_CONFIG_0 a = HandlePacket_body FIFO_SIZE FLASH_DATA_START FLASH_SIZE FLASH_DATA_END
      CPU_MCGFF_CLK_HZ_CONFIG_0 (set_app_tower st a).
Proof. intros H. unfold HandlePacket. by rewrite H. Qed.

(** Five rounds on a frame whose checksum is right: the fifth runs the
    body on the packet received. *)
Lemma HandlePacket_times_frame a c p1 p2 p3 rest :
  FIFO_wf FIFO_SIZE (RxFIFO (app_tower a)) ->
  is_byte c -> is_byte p1 -> is_byte p2 -> is_byte p3 ->
  FIFO_contents FIFO_SIZE (RxFIFO (app_tower a))
    = [c; p1; p2; p3; calculateChecksum c p1 p2 p3] ++ rest ->
  ByteCount (app_tower a) = 0 ->
  exists F,
    FIFO_wf FIFO_SIZE F /\ FIFO_contents FIFO_SIZE F = rest /\
    HandlePacket_times FIFO_SIZE FLASH_DATA_START FLASH_SIZE FLASH_DATA_END
      CPU_MCGFF_CLK_HZ_CONFIG_0 5 a
    = HandlePacket_body FIFO_SIZE FLASH_DATA_START FLASH_SIZE FLASH_DATA_END
      CPU_MCGFF_CLK_HZ_CONFIG_0
        (set_app_tower
           (mkTower F (TxFIFO (app_tower a)) (UART2_C2 (app_tower a))
                    c p1 p2 p3 (calculateChecksum c p1 p2 p3) 0) a).
Proof.
  intros Hwf Hc H1 H2 H3 Hcont Hbc. simpl app in Hcont.
  set (st := app_tower a) in *.
  destruct (UART_InChar_ok FIFO_SIZE st _ _ Hwf Hcont)
    as (F1 & Hin1 & Hwf1 & Hc1).
  set (st1 := set_ByteCount 1 (set_Packet_Command c (set_RxFIFO F1 st))).
  destruct (UART_InChar_ok FIFO_SIZE st1 _ _ Hwf1 Hc1)
    as (F2 & Hin2 & Hwf2 & Hc2).
  set (st2 := set_ByteCount 2 (set_Packet_Parameter1 p1 (set_RxFIFO F2 st1))).
  destruct (UART_InChar_ok FIFO_SIZE st2 _ _ Hwf2 Hc2)
    as (F3 & Hin3 & Hwf3 & Hc3).
  set (st3 := set_ByteCount 3 (set_Packet_Parameter2 p2 (set_RxFIFO F3 st2))).
  destruct (UART_InChar_ok FIFO_SIZE st3 _ _ Hwf3 Hc3)
    as (F4 & Hin4 & Hwf4 & Hc4).
  set (st4 := set_ByteCount 4 (set_Packet_Parameter3 p3 (set_RxFIFO F4 st3))).
  destruct (UART_InChar_ok FIFO_SIZE st4 _ _ Hwf4 Hc4)
    as (F5 & Hin5 & Hwf5 & Hc5).
  assert (G1 : Packet_Get FIFO_SIZE st = (false, st1)).
  { unfold Packet_Get. rewrite Hin1. simpl. rewrite Hbc. reflexivity. }
  assert (G2 : Packet_Get FIFO_SIZE st1 = (false, st2)).
  { unfold Packet_Get. rewrite Hin2. reflexivity. }
  assert (G3 : Packet_Get FIFO_SIZE st2 = (false, st3)).
  { unfold Packet_Get. rewrite Hin3. reflexivity. }
  assert (G4 : Packet_Get FIFO_SIZE st3 = (false, st4)).
  { unfold Packet_Get. rewrite Hin4. reflexivity. }
  assert (G5 : Packet_Get FIFO_SIZE st4
               = (true, set_ByteCount 0
                          (set_Packet_Checksum (calculateChecksum c p1 p2 p3)
                             (set_RxFIFO F5 st4)))).
  { unfold Packet_Get. rewrite Hin5. simpl.
    rewrite Z.eqb_refl. reflexivity. }
  exists F5. split; [done|]. split; [done|].
  cbn [HandlePacket_times].
  rewrite (HandlePacket_waiting a st1) by exact G1.
  rewrite (HandlePacket_waiting _ st2) by exact G2.
  rewrite (HandlePacket_waiting _ st3) by exact G3.
  rewrite (HandlePacket_waiting _ st4) by exact G4.
  erewrite HandlePacket_received by exact G5.
  destruct (HandlePacket_body _ _ _ _ _ _) as [[[] a']|]; reflexivity.
Qed.

(** No handler touches the packet it works on, the receive queue or
    [Command]. *)
Lemma with_tower_Packet_Put_same c p1 p2 p3 a r a' :
  with_tower (Packet_Put FIFO_SIZE c p1 p2 p3) a = Some (r, a') ->
  same_request a a'.
Proof.
  unfold with_tower. intros H.
  pose proof (Packet_Put_keeps FIFO_SIZE c p1 p2 p3 (app_tower a)) as Hk.
  destruct (Packet_Put _ _ _ _ _ _) as [r' t]. injection H as _ <-.
  by split.
Qed.

Lemma same_request_refl a : same_request a a.
Proof. split; [apply same_packet_refl|done]. Qed.

Lemma same_request_trans a1 a2 a3 :
  same_request a1 a2 -> same_request a2 a3 -> same_request a1 a3.
Proof.
  intros [H1 H2] [H3 H4]. split; [by eapply same_packet_trans|congruence].
Qed.

Lemma HandleTowerStartup_same a r a' :
  HandleTowerStartup FIFO_SIZE FLASH_DATA_START a = Some (r, a') ->
  same_request a a'.
Proof.
  unfold HandleTowerStartup. destruct (_ && _); [|intros [= _ <-];
    apply same_request_refl].
  unfold with_tower.
  match goal with
  | |- context [(?c1 &&& ?c2) (app_tower a)] =>
      assert (Hk : same_packet (app_tower a) (snd ((c1 &&& c2) (app_tower a))))
  end.
  { repeat (apply and_then_keeps;
            [apply same_packet_refl | apply same_packet_trans | |
             intros ?; apply Packet_Put_keeps]).
    intros ?; apply Packet_Put_keeps. }
  match goal with
  | |- context [(?c1 &&& ?c2) (app_tower a)] =>
      destruct ((c1 &&& c2) (app_tower a)) as [r' t]
  end.
  intros [= _ <-]. by split.
Qed.

Lemma allocate_default_same get_P set_P value status a r a' :
  (forall p x, app_tower (set_P p x) = app_tower x) ->
  (forall p x, Command (set_P p x) = Command x) ->
  allocate_default FLASH_DATA_START FLASH_SIZE get_P set_P value status a
  = Some (r, a') ->
  same_request a a'.
Proof.
  intros Ht Hc. unfold allocate_default, with_flash.
  destruct (Flash_AllocateVar _ _ _ _ _) as [[[] p]|]; [| |done].
  - destruct (Flash_Write16 _ _ _ _ _) as [[w f]|]; [|done].
    intros [= _ <-]. split; cbn; rewrite ?Ht, ?Hc;
      [apply same_packet_refl|done].
  - intros [= _ <-]. split; rewrite ?Ht, ?Hc; [apply same_packet_refl|done].
Qed.

Lemma write_parameters_same get_P status a r a' :
  write_parameters FLASH_DATA_START FLASH_SIZE get_P status a = Some (r, a') ->
  same_request a a'.
Proof.
  unfold write_parameters, with_flash.
  destruct (Flash_Write16 _ _ _ _ _) as [[w f]|]; [|done].
  intros [= _ <-]. split; [apply same_packet_refl|done].
Qed.

Lemma HandleTowerNumber_same a r a' :
  HandleTowerNumber FIFO_SIZE FLASH_DATA_START FLASH_SIZE a = Some (r, a') ->
  same_request a a'.
Proof.
  unfold HandleTowerNumber.
  destruct (_ && _); [apply with_tower_Packet_Put_same|].
  destruct (_ =? 2); [|intros [= _ <-]; apply same_request_refl].
  destruct (_ =? 0xFFFF).
  - by apply allocate_default_same.
  - apply write_parameters_same.
Qed.

Lemma HandleTowerMode_same a r a' :
  HandleTowerMode FIFO_SIZE FLASH_DATA_START FLASH_SIZE a = Some (r, a') ->
  same_request a a'.
Proof.
  unfold HandleTowerMode.
  destruct (_ =? 1); [apply with_tower_Packet_Put_same|].
  destruct (_ =? 2); [|intros [= _ <-]; apply same_request_refl].
  destruct (_ =? 0xFFFF).
  - by apply allocate_default_same.
  - apply write_parameters_same.
Qed.

Lemma Flash_Init_same a r a' :
  Flash_Init FLASH_DATA_START FLASH_SIZE a = Some (r, a') ->
  same_request a a'.
Proof.
  unfold Flash_Init.
  destruct (_ =? 0xFFFF).
  - destruct (allocate_default _ _ _ _ _ _ a) as [[r1 a1]|] eqn:E1; [|done].
    apply allocate_default_same in E1; [|done|done].
    destruct (_ =? 0xFFFF).
    + intros E2. apply allocate_default_same in E2; [|done|done].
      by eapply same_request_trans.
    + by intros [= _ <-].
  - destruct (_ =? 0xFFFF).
    + by apply allocate_default_same.
    + intros [= _ <-]. apply same_request_refl.
Qed.

Lemma HandleFlashProgramByte_same a r a' :
  HandleFlashProgramByte FLASH_DATA_START FLASH_SIZE a = Some (r, a') ->
  same_request a a'.
Proof.
  unfold HandleFlashProgramByte, with_flash.
  destruct (_ && _).
  - destruct (Flash_Write8 _ _ _ _ _) as [[w f]|]; [|done].
    intros [= _ <-]. split; [apply same_packet_refl|done].
  - destruct (_ =? 8); [|intros [= _ <-]; apply same_request_refl].
    destruct (Flash_Erase _ _ _) as [[e f]|]; [|done].
    destruct (Flash_Init _ _ _) as [[i a2]|] eqn:E; [|done].
    apply Flash_Init_same in E. intros [= _ <-].
    eapply same_request_trans; [|exact E]. split; [apply same_packet_refl|done].
Qed.

Lemma PrintFlash_loop_same fuel : forall i a a',
  PrintFlash_loop FIFO_SIZE FLASH_DATA_START FLASH_DATA_END fuel i a = Some a' ->
  same_request a a'.
Proof.
  induction fuel as [|fuel IH]; intros i a a'; [done|]. simpl.
  destruct (_ <=? _); [|intros [= <-]; apply same_request_refl].
  match goal with
  | |- context [Packet_Put _ ?c ?p1 ?p2 ?p3 (app_tower a)] =>
      pose proof (Packet_Put_keeps FIFO_SIZE c p1 p2 p3 (app_tower a)) as Hk;
      destruct (Packet_Put FIFO_SIZE c p1 p2 p3 (app_tower a)) as [r t]
  end.
  intros H. apply IH in H.
  eapply same_request_trans; [|exact H]. by split.
Qed.

Lemma PrintFlash_same a a' :
  PrintFlash FIFO_SIZE FLASH_DATA_START FLASH_DATA_END a = Some (tt, a') ->
  same_request a a'.
Proof.
  unfold PrintFlash.
  match goal with
  | |- context [Packet_Put _ ?c ?p1 ?p2 ?p3 (app_tower a)] =>
      pose proof (Packet_Put_keeps FIFO_SIZE c p1 p2 p3 (app_tower a)) as Hk;
      destruct (Packet_Put FIFO_SIZE c p1 p2 p3 (app_tower a)) as [r t]
  end.
  destruct (PrintFlash_loop _ _ _ _ _ _) as [a1|] eqn:E; [|done].
  apply PrintFlash_loop_same in E.
  match goal with
  | |- context [Packet_Put _ ?c ?p1 ?p2 ?p3 (app_tower a1)] =>
      pose proof (Packet_Put_keeps FIFO_SIZE c p1 p2 p3 (app_tower a1)) as Hk1;
      destruct (Packet_Put FIFO_SIZE c p1 p2 p3 (app_tower a1)) as [r1 t1]
  end.
  intros [= <-].
  eapply same_request_trans; [|eapply same_request_trans; [exact E|]];
    by split.
Qed.

Lemma dispatch_same success a r a' :
  dispatch FIFO_SIZE FLASH_DATA_START FLASH_SIZE FLASH_DATA_END success a = Some (r, a') -> same_request a a'.
Proof.
  unfold dispatch.
  destruct (_ =? _); [apply HandleTowerStartup_same|].
  destruct (_ =? _).
  { unfold HandleSpecial.
    destruct (_ && _); [apply with_tower_Packet_Put_same|].
    intros [= _ <-]. apply same_request_refl. }
  destruct (_ =? _); [apply HandleTowerNumber_same|].
  destruct (_ =? _); [apply HandleTowerMode_same|].
  destruct (_ =? _); [apply HandleFlashProgramByte_same|].
  destruct (_ =? _).
  { unfold HandleFlashReadByte.
    destruct (_ && _); [apply with_tower_Packet_Put_same|].
    intros [= _ <-]. apply same_request_refl. }
  destruct (_ =? _).
  { unfold HandleTime. destruct (_ && _); [|intros [= _ <-];
      apply same_request_refl].
    destruct (_ && _); intros [= _ <-]; split;
      try apply same_packet_refl; done. }
  destruct (_ =? _).
  { destruct (PrintFlash _ _ _ _) as [[[] a1]|] eqn:E; [|done].
    apply PrintFlash_same in E. by intros [= _ <-]. }
  intros [= _ <-]. apply same_request_refl.
Qed.

Lemma PacketSuccess_keeps a :
  let a' := PacketSuccess CPU_MCGFF_CLK_HZ_CONFIG_0 a in
  app_tower a' = app_tower a /\ app_flash a' = app_flash a /\
  app_rtc a' = app_rtc a /\ TowerNumber a' = TowerNumber a /\
  TowerMode a' = TowerMode a /\ Command a' = Command a /\
  bits_set (GPIOA_PCOR a') LED_BLUE = true.
Proof.
  cbn. repeat (split; [done|]).
  apply (bits_set_set_bits32 _ 10). lia.
Qed.

(** The body of the loop, given what the handler returned. *)
Lemma HandlePacket_body_reply a1 c p1 p2 p3 success a3 :
  is_byte c ->
  Packet_Command (app_tower a1) = c ->
  Packet_Parameter1 (app_tower a1) = p1 ->
  Packet_Parameter2 (app_tower a1) = p2 ->
  Packet_Parameter3 (app_tower a1) = p3 ->
  dispatch FIFO_SIZE FLASH_DATA_START FLASH_SIZE FLASH_DATA_END true (set_Command (c mod 128) a1) = Some (success, a3) ->
  FIFO_wf FIFO_SIZE (TxFIFO (app_tower a3)) ->
  NbBytes (TxFIFO (app_tower a3)) + 5 <= FIFO_SIZE ->
  exists a5,
    HandlePacket_body FIFO_SIZE FLASH_DATA_START FLASH_SIZE FLASH_DATA_END
      CPU_MCGFF_CLK_HZ_CONFIG_0 a1 = Some (tt, a5) /\
    FIFO_contents FIFO_SIZE (TxFIFO (app_tower a5))
    = FIFO_contents FIFO_SIZE (TxFIFO (app_tower a3))
      ++ (if 128 <=? c
          then let r := (if success then 128 else 0) + c mod 128 in
               [r; p1; p2; p3; calculateChecksum r p1 p2 p3]
          else []) /\
    app_flash a5 = app_flash a3 /\ app_rtc a5 = app_rtc a3 /\
    TowerNumber a5 = TowerNumber a3 /\ TowerMode a5 = TowerMode a3 /\
    (success = true -> bits_set (GPIOA_PCOR a5) LED_BLUE = true) /\
    (success = false -> GPIOA_PCOR a5 = GPIOA_PCOR a3) /\
    RxFIFO (app_tower a5) = RxFIFO (app_tower a3).
Proof.
  intros Hc HC H1 H2 H3 Hd Hwf Hroom.
  unfold HandlePacket_body. rewrite HC, command_bits by done. rewrite Hd.
  cbn [app_tower set_Command]. rewrite HC, ack_bit by done.
  destruct (dispatch_same _ _ _ _ Hd) as [(_ & _ & K1 & K2 & K3 & _) KC].
  cbn [app_tower set_Command Command] in K1, K2, K3, KC.
  set (a4 := if success then PacketSuccess CPU_MCGFF_CLK_HZ_CONFIG_0 a3
             else a3).
  assert (H4 : app_tower a4 = app_tower a3 /\ app_flash a4 = app_flash a3 /\
               app_rtc a4 = app_rtc a3 /\ TowerNumber a4 = TowerNumber a3 /\
               TowerMode a4 = TowerMode a3 /\ Command a4 = Command a3 /\
               (success = true -> bits_set (GPIOA_PCOR a4) LED_BLUE = true) /\
               (success = false -> GPIOA_PCOR a4 = GPIOA_PCOR a3)).
  { unfold a4. destruct success.
    - destruct (PacketSuccess_keeps a3) as (?&?&?&?&?&?&?). by repeat split.
    - by repeat split. }
  destruct H4 as (T4 & F4 & R4 & N4 & M4 & C4 & L4 & L4').
  destruct (Z.leb_spec 128 c).
  - rewrite T4, C4, KC, K1, K2, K3, H1, H2, H3.
    assert (Hm : 0 <= c mod 128 < 128) by (apply Z.mod_pos_bound; lia).
    rewrite reply_command by done.
    destruct (Packet_Put_ok FIFO_SIZE (app_tower a3)
                ((if success then 128 else 0) + c mod 128) p1 p2 p3 Hwf Hroom)
      as (F & C2 & Hput & _ & _ & _ & _ & Hcont).
    rewrite Hput. eexists. split; [reflexivity|].
    cbn [app_tower app_flash app_rtc TowerNumber TowerMode GPIOA_PCOR
         set_app_tower TxFIFO RxFIFO set_UART2_C2 set_TxFIFO].
    split; [exact Hcont|]. done.
  - eexists. split; [reflexivity|]. rewrite T4, app_nil_r. done.
Qed.

(** X21.  Acknowledgement.  When the five bytes of a frame with the right
    checksum are at the head of the receive queue, five rounds of the main
    loop take them and run the handler of the command, that is the command
    byte without its top bit.  If the handler does not return, neither
    does the loop.  Otherwise, given five free places in the transmit
    queue after the handler, the loop queues a reply exactly when the top
    bit of the command byte was set: the packet received, with the top bit
    of the command byte set when the handler returned [true] and clear
    when it returned [false].  The blue LED is switched on exactly after a
    handler that returned [true]. *)
Theorem HandlePacket_acknowledges (a : App) (c p1 p2 p3 : Z)
    (rest : list Z) :
  FIFO_wf FIFO_SIZE (RxFIFO (app_tower a)) ->
  is_byte c -> is_byte p1 -> is_byte p2 -> is_byte p3 ->
  FIFO_contents FIFO_SIZE (RxFIFO (app_tower a))
    = [c; p1; p2; p3; calculateChecksum c p1 p2 p3] ++ rest ->
  ByteCount (app_tower a) = 0 ->
  exists F,
    FIFO_contents FIFO_SIZE F = rest /\
    let a2 :=
      set_Command (c mod 128)
        (set_app_tower
           (mkTower F (TxFIFO (app_tower a)) (UART2_C2 (app_tower a))
                    c p1 p2 p3 (calculateChecksum c p1 p2 p3) 0) a) in
    (dispatch FIFO_SIZE FLASH_DATA_START FLASH_SIZE FLASH_DATA_END true a2 = None -> HandlePacket_times FIFO_SIZE FLASH_DATA_START FLASH_SIZE FLASH_DATA_END
      CPU_MCGFF_CLK_HZ_CONFIG_0 5 a = None) /\
    forall success a3,
      dispatch FIFO_SIZE FLASH_DATA_START FLASH_SIZE FLASH_DATA_END true a2 = Some (success, a3) ->
      FIFO_wf FIFO_SIZE (TxFIFO (app_tower a3)) ->
      NbBytes (TxFIFO (app_tower a3)) + 5 <= FIFO_SIZE ->
      exists a5,
        HandlePacket_times FIFO_SIZE FLASH_DATA_START FLASH_SIZE FLASH_DATA_END
      CPU_MCGFF_CLK_HZ_CONFIG_0 5 a = Some (tt, a5) /\
        FIFO_contents FIFO_SIZE (TxFIFO (app_tower a5))
        = FIFO_contents FIFO_SIZE (TxFIFO (app_tower a3))
          ++ (if 128 <=? c
              then let r := (if success then 128 else 0) + c mod 128 in
                   [r; p1; p2; p3; calculateChecksum r p1 p2 p3]
              else []) /\
        app_flash a5 = app_flash a3 /\ app_rtc a5 = app_rtc a3 /\
        (success = true -> bits_set (GPIOA_PCOR a5) LED_BLUE = true) /\
        (success = false -> GPIOA_PCOR a5 = GPIOA_PCOR a3).
Proof.
  intros Hwf Hc H1 H2 H3 Hcont Hbc.
  destruct (HandlePacket_times_frame a c p1 p2 p3 rest Hwf Hc H1 H2 H3 Hcont Hbc)
    as (F & _ & HcF & Hrun).
  exists F. split; [done|]. cbv zeta. rewrite Hrun.
  set (a1 := set_app_tower _ a). split.
  - intros Hd. unfold HandlePacket_body.
    cbn [app_tower set_app_tower Packet_Command a1].
    rewrite command_bits by done. by rewrite Hd.
  - intros success a3 Hd Hwf3 Hroom.
    destruct (HandlePacket_body_reply a1 c p1 p2 p3 success a3 Hc
                eq_refl eq_refl eq_refl eq_refl Hd Hwf3 Hroom)
      as (a5 & Hb & Hq & Hf & Hr & _ & _ & HL & HL' & _).
    exists a5. done.
Qed.

(** X22.  A command that the [switch] does not name counts as handled.
    For a frame whose command, without its top bit, is none of [0x04],
    [0x07], [0x08], [0x09], [0x0B], [0x0C], [0x0D] and [0x55], five rounds
    of the main loop switch the blue LED on, leave the flash and the clock
    alone and, when the top bit of the command byte is set, queue the
    frame itself as the reply: a positive acknowledgement. *)
Theorem HandlePacket_acknowledges_unknown_command (a : App)
    (c p1 p2 p3 : Z) (rest : list Z) :
  FIFO_wf FIFO_SIZE (RxFIFO (app_tower a)) ->
  is_byte c -> is_byte p1 -> is_byte p2 -> is_byte p3 ->
  FIFO_contents FIFO_SIZE (RxFIFO (app_tower a))
    = [c; p1; p2; p3; calculateChecksum c p1 p2 p3] ++ rest ->
  ByteCount (app_tower a) = 0 ->
  ~ In (c mod 128) [0x04; 0x07; 0x08; 0x09; 0x0B; 0x0C; 0x0D; 0x55] ->
  FIFO_wf FIFO_SIZE (TxFIFO (app_tower a)) ->
  NbBytes (TxFIFO (app_tower a)) + 5 <= FIFO_SIZE ->
  exists a5,
    HandlePacket_times FIFO_SIZE FLASH_DATA_START FLASH_SIZE FLASH_DATA_END
      CPU_MCGFF_CLK_HZ_CONFIG_0 5 a = Some (tt, a5) /\
    FIFO_contents FIFO_SIZE (TxFIFO (app_tower a5))
    = FIFO_contents FIFO_SIZE (TxFIFO (app_tower a))
      ++ (if 128 <=? c
          then [c; p1; p2; p3; calculateChecksum c p1 p2 p3] else []) /\
    FIFO_contents FIFO_SIZE (RxFIFO (app_tower a5)) = rest /\
    app_flash a5 = app_flash a /\ app_rtc a5 = app_rtc a /\
    bits_set (GPIOA_PCOR a5) LED_BLUE = true.
Proof.
  intros Hwf Hc H1 H2 H3 Hcont Hbc Hunknown HwfT Hroom.
  destruct (HandlePacket_times_frame a c p1 p2 p3 rest Hwf Hc H1 H2 H3 Hcont Hbc)
    as (F & _ & HcF & Hrun).
  rewrite Hrun.
  set (a1 := set_app_tower _ a).
  assert (Hd : dispatch FIFO_SIZE FLASH_DATA_START FLASH_SIZE FLASH_DATA_END true (set_Command (c mod 128) a1)
               = Some (true, set_Command (c mod 128) a1)).
  { unfold dispatch. cbn [Command set_Command].
    repeat match goal with
           | |- context [c mod 128 =? ?k] =>
               destruct (Z.eqb_spec (c mod 128) k) as [E|_];
                 [exfalso; apply Hunknown; rewrite E; cbv; tauto|]
           end.
    done. }
  destruct (HandlePacket_body_reply a1 c p1 p2 p3 true _ Hc
              eq_refl eq_refl eq_refl eq_refl Hd HwfT Hroom)
    as (a5 & Hb & Hq & Hf & Hr & _ & _ & HL & _ & Hrx).
  exists a5. split; [done|]. split.
  { rewrite Hq. cbn [app_tower set_Command a1 set_app_tower TxFIFO]. f_equal.
    destruct (Z.leb_spec 128 c); [|done]. cbv zeta.
    unfold is_byte in Hc.
    replace (128 + c mod 128) with c by (Z.div_mod_to_equations; lia). done. }
  split; [by rewrite Hrx|].
  split; [done|]. split; [done|]. by apply HL.
Qed.

(** [HandleTime], by cases. *)
Lemma HandleTime_value (a : App) :
  is_byte (Packet_Parameter1 (app_tower a)) ->
  is_byte (Packet_Parameter2 (app_tower a)) ->
  is_byte (Packet_Parameter3 (app_tower a)) ->
  let h := Packet_Parameter1 (app_tower a) in
  let m := Packet_Parameter2 (app_tower a) in
  let s := Packet_Parameter3 (app_tower a) in
  (h <= 23 /\ m <= 59 /\ s <= 59 /\ h * 3600 + m * 60 + s <> 0 ->
   HandleTime a
   = Some (true, set_app_rtc (RTC_Set h m s (app_rtc a)) a)) /\
  (~ (h <= 23 /\ m <= 59 /\ s <= 59 /\ h * 3600 + m * 60 + s <> 0) ->
   HandleTime a = Some (false, a)).
Proof.
  intros Hh Hm Hs. unfold is_byte in *. cbv zeta. unfold HandleTime.
  set (h := Packet_Parameter1 (app_tower a)) in *.
  set (m := Packet_Parameter2 (app_tower a)) in *.
  set (s := Packet_Parameter3 (app_tower a)) in *.
  destruct (Z.geb_spec h 0); [|lia]. destruct (Z.geb_spec m 0); [|lia].
  destruct (Z.geb_spec s 0); [|lia]. cbn [andb].
  destruct (Z.leb_spec h 23), (Z.leb_spec m 59), (Z.leb_spec s 59); cbn [andb];
    try (split; [lia|done]).
  destruct (Z.eqb_spec h 0), (Z.eqb_spec m 0), (Z.eqb_spec s 0); cbn [andb];
    try (split; [lia|done]).
  all: split; [done|lia].
Qed.

(** X23.  Setting the clock over the link.  When the frame of a time
    command ([0x0C], with or without the top bit) is at the head of the
    receive queue, five rounds of the main loop take it.  For a time of
    day other than 0:00:00 the counter register of the clock then holds the
    seconds since midnight less one, and the reply, queued when the top
    bit was set, is the frame with command byte [0x8C].  For any other
    parameters the clock is left alone, and the reply, queued when the top
    bit was set, has command byte [0x0C]: a negative acknowledgement.  The
    flash is not touched. *)
Theorem HandlePacket_sets_the_clock (a : App) (c h m s : Z)
    (rest : list Z) :
  FIFO_wf FIFO_SIZE (RxFIFO (app_tower a)) ->
  is_byte c -> is_byte h -> is_byte m -> is_byte s ->
  c mod 128 = TIME ->
  FIFO_contents FIFO_SIZE (RxFIFO (app_tower a))
    = [c; h; m; s; calculateChecksum c h m s] ++ rest ->
  ByteCount (app_tower a) = 0 ->
  FIFO_wf FIFO_SIZE (TxFIFO (app_tower a)) ->
  NbBytes (TxFIFO (app_tower a)) + 5 <= FIFO_SIZE ->
  let time_of_day :=
    h <= 23 /\ m <= 59 /\ s <= 59 /\ h * 3600 + m * 60 + s <> 0 in
  let reply r :=
    if 128 <=? c then [r; h; m; s; calculateChecksum r h m s] else [] in
  exists a5,
    HandlePacket_times FIFO_SIZE FLASH_DATA_START FLASH_SIZE FLASH_DATA_END
      CPU_MCGFF_CLK_HZ_CONFIG_0 5 a = Some (tt, a5) /\
    app_flash a5 = app_flash a /\
    (time_of_day ->
     RTC_TSR (app_rtc a5) = h * 3600 + m * 60 + s - 1 /\
     FIFO_contents FIFO_SIZE (TxFIFO (app_tower a5))
     = FIFO_contents FIFO_SIZE (TxFIFO (app_tower a)) ++ reply 0x8C) /\
    (~ time_of_day ->
     app_rtc a5 = app_rtc a /\
     FIFO_contents FIFO_SIZE (TxFIFO (app_tower a5))
     = FIFO_contents FIFO_SIZE (TxFIFO (app_tower a)) ++ reply 0x0C).
Proof.
  intros Hwf Hc Hh Hm Hs Hcmd Hcont Hbc HwfT Hroom time_of_day reply.
  destruct (HandlePacket_times_frame a c h m s rest Hwf Hc Hh Hm Hs Hcont Hbc)
    as (F & _ & HcF & Hrun).
  rewrite Hrun.
  set (a1 := set_app_tower _ a).
  set (a2 := set_Command (c mod 128) a1).
  assert (Hd : dispatch FIFO_SIZE FLASH_DATA_START FLASH_SIZE FLASH_DATA_END true a2 = HandleTime a2).
  { unfold dispatch. cbn [Command set_Command a2]. rewrite Hcmd. done. }
  destruct (HandleTime_value a2 Hh Hm Hs) as [Hyes Hno].
  cbn [a2 a1 app_tower set_Command set_app_tower Packet_Parameter1
       Packet_Parameter2 Packet_Parameter3] in Hyes, Hno.
  fold a1 in Hyes, Hno. fold a2 in Hyes, Hno.
  destruct (classic_time h m s) as [Hv|Hv].
  - specialize (Hyes Hv). rewrite <- Hd in Hyes.
    destruct (HandlePacket_body_reply a1 c h m s true _ Hc
                eq_refl eq_refl eq_refl eq_refl Hyes HwfT Hroom)
      as (a5 & Hb & Hq & Hf & Hr & _ & _ & _ & _ & _).
    exists a5. split; [done|]. split; [done|]. split; [|done].
    intros _. rewrite Hr. cbn [app_rtc set_app_rtc].
    unfold is_byte in *. rewrite RTC_Set_TSR by lia.
    split; [done|]. rewrite Hq. unfold reply. rewrite Hcmd. done.
  - specialize (Hno Hv). rewrite <- Hd in Hno.
    destruct (HandlePacket_body_reply a1 c h m s false _ Hc
                eq_refl eq_refl eq_refl eq_refl Hno HwfT Hroom)
      as (a5 & Hb & Hq & Hf & Hr & _ & _ & _ & _ & _).
    exists a5. split; [done|]. split; [done|]. split; [done|].
    intros _. split; [done|]. rewrite Hq. unfold reply. rewrite Hcmd. done.
Qed.

(** X24.  No handler touches the request.  Whatever the command and the
    state, when the [switch] of [HandlePacket] returns, the five packet
    variables, the position in the frame, the receive queue and [Command]
    are what they were: bytes that arrived during the handler are still
    queued, and the acknowledgement is built from the packet that was
    received. *)
Theorem dispatch_keeps_the_request (success r : bool) (a a' : App) :
  dispatch FIFO_SIZE FLASH_DATA_START FLASH_SIZE FLASH_DATA_END success a = Some (r, a') ->
  RxFIFO (app_tower a') = RxFIFO (app_tower a) /\
  Packet_Command (app_tower a') = Packet_Command (app_tower a) /\
  Packet_Parameter1 (app_tower a') = Packet_Parameter1 (app_tower a) /\
  Packet_Parameter2 (app_tower a') = Packet_Parameter2 (app_tower a) /\
  Packet_Parameter3 (app_tower a') = Packet_Parameter3 (app_tower a) /\
  Packet_Checksum (app_tower a') = Packet_Checksum (app_tower a) /\
  ByteCount (app_tower a') = ByteCount (app_tower a) /\
  Command a' = Command a.
Proof.
  intros H. destruct (dispatch_same _ _ _ _ H) as [Hp Hc].
  unfold same_packet in Hp. tauto.
Qed.

End HandlePacket_facts.

(** ** The flash dump *)

Section PrintFlash_facts.

Variable FIFO_SIZE : Z.
Variable FLASH_DATA_START FLASH_DATA_END : Z.

Lemma PrintFlash_loop_ok (k : nat) : forall (fuel : nat) (j : Z) (a : App),
  0 <= FLASH_DATA_START -> 0 <= j ->
  FLASH_DATA_END = FLASH_DATA_START + j + Z.of_nat k - 1 ->
  FLASH_DATA_END + 1 < 2 ^ 32 ->
  (k < fuel)%nat ->
  FIFO_wf FIFO_SIZE (TxFIFO (app_tower a)) ->
  NbBytes (TxFIFO (app_tower a)) + 5 * Z.of_nat k <= FIFO_SIZE ->
  exists a',
    PrintFlash_loop FIFO_SIZE FLASH_DATA_START FLASH_DATA_END fuel
      (FLASH_DATA_START + j) a = Some a' /\
    FIFO_wf FIFO_SIZE (TxFIFO (app_tower a')) /\
    NbBytes (TxFIFO (app_tower a'))
    = NbBytes (TxFIFO (app_tower a)) + 5 * Z.of_nat k /\
    FIFO_contents FIFO_SIZE (TxFIFO (app_tower a'))
    = FIFO_contents FIFO_SIZE (TxFIFO (app_tower a))
      ++ concat (dump_packet FLASH_DATA_START (app_flash a) <$> seqZ j (Z.of_nat k)) /\
    app_flash a' = app_flash a.
Proof.
  induction k as [|k IH]; intros fuel j a HS Hj Hend H32 Hfuel Hwf Hroom;
    (destruct fuel as [|fuel]; [lia|]); cbn [PrintFlash_loop].
  - destruct (Z.leb_spec (FLASH_DATA_START + j) FLASH_DATA_END); [lia|].
    exists a. simpl. rewrite app_nil_r. split; [done|]. split; [done|].
    split; [lia|done].
  - destruct (Z.leb_spec (FLASH_DATA_START + j) FLASH_DATA_END); [|lia].
    assert (Hoff : uint32 (FLASH_DATA_START + j - FLASH_DATA_START) = j).
    { unfold uint32. replace (FLASH_DATA_START + j - FLASH_DATA_START) with j
        by lia. apply Z.mod_small. lia. }
    rewrite Hoff.
    destruct (Packet_Put_ok FIFO_SIZE (app_tower a) FLASH_READ_BYTE 0 (uint8 j)
                (_FB FLASH_DATA_START (FLASH_DATA_START + j) (app_flash a))
                Hwf) as (F & C2 & Hput & _ & _ & HwfF & HnF & HcF); [lia|].
    rewrite Hput.
    assert (Hnext : uint32 (FLASH_DATA_START + j + 1)
                    = FLASH_DATA_START + (j + 1)).
    { unfold uint32. rewrite Z.mod_small by lia. lia. }
    rewrite Hnext.
    destruct (IH fuel (j + 1)
                (set_app_tower (set_UART2_C2 C2 (set_TxFIFO F (app_tower a))) a))
      as (a' & Hrun & Hwf' & Hn' & Hc' & Hf'); try done; try lia.
    { cbn [app_tower set_app_tower TxFIFO set_UART2_C2 set_TxFIFO]. lia. }
    exists a'. split; [done|]. split; [done|].
    cbn [app_tower set_app_tower TxFIFO set_UART2_C2 set_TxFIFO app_flash]
      in Hn', Hc', Hf'.
    split; [lia|]. split; [|done].
    rewrite Hc', HcF, <- app_assoc. f_equal.
    replace (Z.of_nat (S k)) with (Z.succ (Z.of_nat k)) by lia.
    rewrite (seqZ_cons j) by lia. cbn [fmap list_fmap concat].
    replace (Z.pred (Z.succ (Z.of_nat k))) with (Z.of_nat k) by lia.
    replace (Z.succ j) with (j + 1) by lia. done.
Qed.

(** X25.  [PrintFlash] sends the sector byte by byte.  For a data area of
    [n] bytes that ends below [2^32 - 1], given [5 * (n + 2)] free places
    in the transmit queue, it returns after queuing a packet with three
    ['v'], one read-byte packet for each byte in the order of the
    addresses, with the offset, cut to eight bits, and the byte, and a
    packet with three ['^'].  It leaves the flash alone. *)
Theorem PrintFlash_dumps_the_sector (a : App) (n : Z) :
  0 <= FLASH_DATA_START -> 0 <= n ->
  FLASH_DATA_END = FLASH_DATA_START + n - 1 ->
  FLASH_DATA_END + 1 < 2 ^ 32 ->
  FIFO_wf FIFO_SIZE (TxFIFO (app_tower a)) ->
  NbBytes (TxFIFO (app_tower a)) + 5 * (n + 2) <= FIFO_SIZE ->
  exists a',
    PrintFlash FIFO_SIZE FLASH_DATA_START FLASH_DATA_END a = Some (tt, a') /\
    FIFO_contents FIFO_SIZE (TxFIFO (app_tower a'))
    = FIFO_contents FIFO_SIZE (TxFIFO (app_tower a))
      ++ [FLASH_READ_BYTE; char_v; char_v; char_v;
          calculateChecksum FLASH_READ_BYTE char_v char_v char_v]
      ++ concat (dump_packet FLASH_DATA_START (app_flash a) <$> seqZ 0 n)
      ++ [FLASH_READ_BYTE; char_caret; char_caret; char_caret;
          calculateChecksum FLASH_READ_BYTE char_caret char_caret char_caret] /\
    app_flash a' = app_flash a.
Proof.
  intros HS Hn Hend H32 Hwf Hroom. unfold PrintFlash.
  destruct (Packet_Put_ok FIFO_SIZE (app_tower a) FLASH_READ_BYTE
              char_v char_v char_v Hwf)
    as (F & C2 & Hput & _ & _ & HwfF & HnF & HcF); [lia|].
  rewrite Hput.
  set (a1 := set_app_tower _ a).
  assert (Hstart : uint32 FLASH_DATA_START = FLASH_DATA_START + 0).
  { unfold uint32. rewrite Z.mod_small by lia. lia. }
  rewrite Hstart.
  destruct (PrintFlash_loop_ok (Z.to_nat n)
              (S (Z.to_nat (FLASH_DATA_END + 1 - FLASH_DATA_START))) 0 a1)
    as (a2 & Hrun & Hwf2 & Hn2 & Hc2 & Hf2); try done; try lia.
  { cbn [a1 app_tower set_app_tower TxFIFO set_UART2_C2 set_TxFIFO]. lia. }
  rewrite Hrun.
  cbn [a1 app_tower set_app_tower TxFIFO set_UART2_C2 set_TxFIFO app_flash]
    in Hn2, Hc2, Hf2.
  destruct (Packet_Put_ok FIFO_SIZE (app_tower a2) FLASH_READ_BYTE
              char_caret char_caret char_caret Hwf2)
    as (F3 & C3 & Hput3 & _ & _ & HwfF3 & HnF3 & HcF3); [lia|].
  rewrite Hput3. eexists. split; [reflexivity|].
  cbn [app_tower set_app_tower TxFIFO set_UART2_C2 set_TxFIFO app_flash].
  split; [|done].
  rewrite HcF3, Hc2, HcF, <- !app_assoc, Z2Nat.id by lia. done.
Qed.

End PrintFlash_facts.

(** ** A controller that does not answer *)

Lemma bind_wait_CCIF_busy {B} (k : unit -> FlashM B) st :
  CCIF_clear (FTFE_FSTAT st) = true -> bind wait_CCIF k st = None.
Proof. intros H. unfold bind, wait_CCIF. by rewrite H. Qed.

Section Busy_facts.

Variable FLASH_DATA_START FLASH_SIZE : Z.

Lemma LaunchCommand_busy {B} obj (k : bool -> FlashM B) st :
  CCIF_clear (FTFE_FSTAT st) = true ->
  bind (LaunchCommand FLASH_DATA_START FLASH_SIZE obj) k st = None.
Proof.
  intros H. unfold LaunchCommand. rewrite bind_assoc.
  by apply bind_wait_CCIF_busy.
Qed.

(** X26.  No time-out.  While the controller's command-complete flag is
    clear, and the controller does not set it, [Flash_Erase] does not
    return, and neither does any of the four writes once its address has
    passed the guard; a write whose address fails the guard still returns
    [false] at once, as it never waits. *)
Theorem Flash_waits_for_the_controller (w : width) (address v : Z)
    (st : Flash) :
  CCIF_clear (FTFE_FSTAT st) = true ->
  let index := write_index FLASH_DATA_START address in
  Flash_Erase FLASH_DATA_START FLASH_SIZE st = None /\
  (0 <= index < FLASH_SIZE /\ index mod width_bytes w = 0 ->
   Flash_Write FLASH_DATA_START FLASH_SIZE w address v st = None) /\
  (~ (0 <= index < FLASH_SIZE /\ index mod width_bytes w = 0) ->
   Flash_Write FLASH_DATA_START FLASH_SIZE w address v st
   = Some (false, st)).
Proof.
  intros Hbusy index.
  assert (Herase : forall {B} (k : bool -> FlashM B) st',
            FTFE_FSTAT st' = FTFE_FSTAT st ->
            bind (Flash_Erase FLASH_DATA_START FLASH_SIZE) k st' = None).
  { intros B k st' Hfs. unfold Flash_Erase. apply LaunchCommand_busy.
    by rewrite Hfs. }
  split; [|split].
  - pose proof (Herase bool ret st eq_refl) as H.
    unfold bind in H. destruct (Flash_Erase _ _ st) as [[? ?]|]; done.
  - intros [Hidx Hal].
    destruct w; cbn [width_bytes] in Hal;
      unfold Flash_Write, Flash_Write8, Flash_Write16, Flash_Write32,
        Flash_Write64; fold index;
      (destruct (Z.ltb_spec index 0); [lia|]);
      (destruct (Z.geb_spec index FLASH_SIZE); [lia|]);
      rewrite ?Hal; cbn [orb negb Z.eqb];
      unfold setup_program, FlashBackup, store_data;
      repeat first [ rewrite bind_assoc | rewrite bind_ret_l
                   | rewrite bind_modify_l ];
      by apply Herase.
  - intros Hbad.
    destruct w; cbn [width_bytes] in Hbad;
      unfold Flash_Write, Flash_Write8, Flash_Write16, Flash_Write32,
        Flash_Write64; fold index;
      destruct (Z.ltb_spec index 0); try done;
      destruct (Z.geb_spec index FLASH_SIZE); try done; cbn [orb];
      try (rewrite Z.mod_1_r in Hbad; lia);
      match goal with
      | |- context [index mod ?k =? 0] =>
          destruct (Z.eqb_spec (index mod k) 0); [lia|done]
      end.
Qed.

End Busy_facts.

(** ** Initialisation of the serial port *)

Lemma testbit_set_bits8 x k j :
  0 <= k -> 0 <= j < 8 ->
  Z.testbit (set_bits8 x (2 ^ k)) j = Z.testbit x j || (k =? j).
Proof.
  intros Hk Hj. unfold set_bits8, uint8.
  rewrite Z.mod_pow2_bits_low by lia. apply testbit_lor_pow2; lia.
Qed.

Lemma land_31_small x : 0 <= x < 32 -> Z.land x 0x1F = x.
Proof.
  intros H. change 0x1F with (Z.ones 5). rewrite Z.land_ones by lia.
  apply Z.mod_small. lia.
Qed.

Lemma land_31_mod x : Z.land x 0x1F = x mod 32.
Proof. change 0x1F with (Z.ones 5). by rewrite Z.land_ones by lia. Qed.

Lemma land_uint8_31 x : Z.land (uint8 x) 0x1F = Z.land x 0x1F.
Proof.
  unfold uint8. rewrite !land_31_mod. change (2 ^ 8) with 256.
  Z.div_mod_to_equations. lia.
Qed.

Lemma low5_set_bits8 x y :
  Z.land x 0x1F = 0 -> 0 <= y < 32 -> Z.land (set_bits8 x y) 0x1F = y.
Proof.
  intros Hx Hy. unfold set_bits8.
  rewrite land_uint8_31, Z.land_lor_distr_l, Hx, Z.lor_0_l.
  by apply land_31_small.
Qed.

Lemma low5_clear_bits8 x : Z.land (clear_bits8 x UART_C4_BRFA_MASK) 0x1F = 0.
Proof.
  unfold clear_bits8. rewrite land_uint8_31, <- Z.land_assoc.
  change (Z.land (Z.lnot UART_C4_BRFA_MASK) 31) with 0.
  apply Z.land_0_r.
Qed.

Section UART_Init_facts.

Variable FIFO_SIZE : Z.

(** X27.  [UART_Init] leaves the port ready.  Where [baudRate * 16] is
    not zero in 32 bits, it returns [true]; both queues are then empty and
    satisfy the invariant, whatever they held, provided their arrays have
    [FIFO_SIZE] places; the receive interrupt is enabled and the transmit
    interrupt disabled, and the transmitter and the receiver are switched
    on.  [Packet_Init] is the same call. *)
Theorem UART_Init_leaves_port_ready (baudRate moduleClk : Z) (p : Port) :
  0 < FIFO_SIZE ->
  length (Buffer (RxFIFO (port_tower p))) = Z.to_nat FIFO_SIZE ->
  length (Buffer (TxFIFO (port_tower p))) = Z.to_nat FIFO_SIZE ->
  uint32 (baudRate * 16) <> 0 ->
  exists p',
    Packet_Init baudRate moduleClk p = Some (true, p') /\
    UART_Init baudRate moduleClk p = Some (true, p') /\
    FIFO_wf FIFO_SIZE (RxFIFO (port_tower p')) /\
    FIFO_contents FIFO_SIZE (RxFIFO (port_tower p')) = [] /\
    FIFO_wf FIFO_SIZE (TxFIFO (port_tower p')) /\
    FIFO_contents FIFO_SIZE (TxFIFO (port_tower p')) = [] /\
    bits_set (UART2_C2 (port_tower p')) UART_C2_RIE_MASK = true /\
    bits_set (UART2_C2 (port_tower p')) UART_C2_TIE_MASK = false /\
    bits_set (UART2_C2 (port_tower p')) UART_C2_TE_MASK = true /\
    bits_set (UART2_C2 (port_tower p')) UART_C2_RE_MASK = true.
Proof.
  intros HS HlenR HlenT Hdiv. unfold Packet_Init, UART_Init.
  destruct (Z.eqb_spec (uint32 (baudRate * 16)) 0); [done|].
  eexists. split; [reflexivity|]. split; [reflexivity|].
  cbn [port_tower RxFIFO TxFIFO UART2_C2 set_UART2_C2 set_TxFIFO set_RxFIFO].
  destruct (FIFO_Init_wf FIFO_SIZE (RxFIFO (port_tower p)) HS HlenR)
    as [HwfR HnR].
  destruct (FIFO_Init_wf FIFO_SIZE (TxFIFO (port_tower p)) HS HlenT)
    as [HwfT HnT].
  split; [done|].
  split; [by apply FIFO_contents_empty|]. split; [done|].
  split; [by apply FIFO_contents_empty|].
  change UART_C2_RIE_MASK with (2 ^ 5). change UART_C2_TIE_MASK with (2 ^ 7).
  change UART_C2_TE_MASK with (2 ^ 3). change UART_C2_RE_MASK with (2 ^ 2).
  rewrite !bits_set_testbit by lia.
  rewrite !testbit_set_bits8, !testbit_clear_bits8 by lia.
  cbn [Z.eqb Pos.eqb negb andb orb].
  rewrite ?andb_true_r, ?andb_false_r, ?orb_true_r, ?orb_false_r. done.
Qed.

(** X28.  The baud-rate divisor.  For a module clock below [2^27] Hz and a
    baud rate whose divisor [moduleClk / (16 * baudRate)] fits in the 13
    bits of the register field, with that field clear at the call,
    [UART_Init] returns and has programmed the divisor: the 13-bit field
    ([UART2_BDH], low five bits, and [UART2_BDL]) holds its integral part
    and the fine-adjust field (the low five bits of [UART2_C4]) its
    fraction in thirty-seconds, rounded down.  Together they are
    [2 * moduleClk / baudRate], rounded down, counted in
    thirty-seconds. *)
Theorem UART_Init_programs_divisor (baudRate moduleClk : Z) (p : Port) :
  0 < baudRate < 2 ^ 28 -> 0 <= moduleClk < 2 ^ 27 ->
  moduleClk / (16 * baudRate) < 2 ^ 13 ->
  Z.land (UART2_BDH p) 0x1F = 0 ->
  exists p',
    UART_Init baudRate moduleClk p = Some (true, p') /\
    let SBR := Z.land (UART2_BDH p') 0x1F * 256 + UART2_BDL p' in
    let BRFA := Z.land (UART2_C4 p') 0x1F in
    SBR = moduleClk / (16 * baudRate) /\
    0 <= BRFA < 32 /\
    32 * SBR + BRFA = 2 * moduleClk / baudRate.
Proof.
  intros Hb Hclk Hfit Hsbr.
  set (d := moduleClk / (16 * baudRate)) in *.
  set (q := 2 * moduleClk / baudRate).
  assert (Hd0 : 0 <= d) by (apply Z.div_pos; lia).
  assert (Hqd : q / 32 = d).
  { unfold q, d. rewrite Z.div_div by lia.
    replace (2 * moduleClk) with (moduleClk * 2) by lia.
    replace (baudRate * 32) with (16 * baudRate * 2) by lia.
    rewrite Z.div_mul_cancel_r by lia. done. }
  assert (Hq : 0 <= q - d * 32 < 32).
  { rewrite <- Hqd. Z.div_mod_to_equations. lia. }
  assert (Hu16 : uint32 (baudRate * 16) = baudRate * 16).
  { unfold uint32. apply Z.mod_small. lia. }
  assert (Hu32 : uint32 (moduleClk * 32) = moduleClk * 32).
  { unfold uint32. apply Z.mod_small. lia. }
  assert (Hq' : moduleClk * 32 / (baudRate * 16) = q).
  { unfold q. replace (moduleClk * 32) with (2 * moduleClk * 16) by lia.
    rewrite Z.div_mul_cancel_r by lia. done. }
  assert (Hd' : uint16 (moduleClk / (baudRate * 16)) = d).
  { unfold uint16, d. rewrite (Z.mul_comm baudRate 16).
    apply Z.mod_small. fold d. lia. }
  unfold UART_Init. rewrite Hu16, Hu32, Hq', Hd'.
  destruct (Z.eqb_spec (baudRate * 16) 0); [lia|].
  eexists. split; [reflexivity|].
  cbn [UART2_BDH UART2_BDL UART2_C4]. cbv zeta.
  assert (Hbfra : uint16 (uint32 (q - d * 32)) = q - d * 32).
  { unfold uint16, uint32.
    change (2 ^ 32) with 4294967296. change (2 ^ 16) with 65536.
    rewrite (Z.mod_small (q - d * 32)) by lia. apply Z.mod_small. lia. }
  rewrite Hbfra.
  assert (Hhi : uint16union_Hi d = d / 256 /\ 0 <= d / 256 < 32).
  { unfold uint16union_Hi. rewrite shiftr_8, land_255.
    split; [apply Z.mod_small|]; Z.div_mod_to_equations; lia. }
  destruct Hhi as [Hhi Hhi32].
  assert (Hlo : uint16union_Lo d = d mod 256).
  { unfold uint16union_Lo. by rewrite land_255. }
  rewrite Hhi, Hlo.
  unfold UART_BDH_SBR, UART_C4_BRFA.
  rewrite (land_uint8_31 (d / 256)), (land_uint8_31 (q - d * 32)).
  rewrite (land_31_small (d / 256)), (land_31_small (q - d * 32)) by lia.
  rewrite low5_set_bits8 by (try done; lia).
  rewrite low5_set_bits8 by (try apply low5_clear_bits8; lia).
  split; [Z.div_mod_to_equations; lia|]. split; [lia|].
  fold q. Z.div_mod_to_equations. lia.
Qed.

End UART_Init_facts.

(** ** The new properties at concrete states *)

Ltac fifo_wf := unfold FIFO_wf; simpl; repeat split; try reflexivity; lia.

Ltac flash8_ok :=
  split; [split; [reflexivity|repeat constructor; unfold is_byte; lia]
         |split; reflexivity].

Ltac is_a_byte := unfold is_byte; lia.

Lemma UART_ISR_queues_arrivals_witness :
  FIFO_contents 8
    (RxFIFO (serial_tower
       (UART_ISR_run 8 [Byte_arrives 1; Transmitter_empty; Byte_arrives 2]
          serial8)))
  = [1; 2].
Proof.
  assert (H1 : FIFO_wf 8 (RxFIFO (serial_tower serial8))) by fifo_wf.
  assert (H2 : bits_set (UART2_C2 (serial_tower serial8)) UART_C2_RIE_MASK
               = true) by reflexivity.
  assert (H3 : bits_set (UART2_S1 serial8) UART_S1_RDRF_MASK = false)
    by reflexivity.
  exact (proj1 (proj2 (UART_ISR_queues_arrivals 8
           [Byte_arrives 1; Transmitter_empty; Byte_arrives 2] serial8
           H1 H2 H3))).
Defined.

Lemma UART_ISR_sends_queue_in_order_witness :
  transmitted
    (UART_ISR_run 8
       [Transmitter_empty; Byte_arrives 1; Transmitter_empty;
        Transmitter_empty] serial8)
  = [9; 7].
Proof.
  assert (H1 : FIFO_wf 8 (TxFIFO (serial_tower serial8))) by fifo_wf.
  assert (H2 : bits_set (UART2_C2 (serial_tower serial8)) UART_C2_TIE_MASK
               = true) by reflexivity.
  assert (H3 : bits_set (UART2_S1 serial8) UART_S1_TDRE_MASK = false)
    by reflexivity.
  exact (proj1 (UART_ISR_sends_queue_in_order 8
           [Transmitter_empty; Byte_arrives 1; Transmitter_empty;
            Transmitter_empty] serial8 H1 H2 H3)).
Defined.

Lemma UART_Poll_moves_bytes_as_UART_ISR_witness :
  transmitted (UART_Poll 8 serial8_pending)
  = transmitted (UART_ISR 8 serial8_pending).
Proof.
  assert (H1 : bits_set (UART2_C2 (serial_tower serial8_pending))
                 UART_C2_RIE_MASK = true) by reflexivity.
  assert (H2 : bits_set (UART2_C2 (serial_tower serial8_pending))
                 UART_C2_TIE_MASK = true) by reflexivity.
  exact (proj1 (proj2 (proj2
           (UART_Poll_moves_bytes_as_UART_ISR 8 serial8_pending H1 H2)))).
Defined.

Lemma Packet_crosses_the_link_witness :
  Packet_Command
    (snd (Packet_Get_times 8 5
            (serial_tower
               (UART_ISR_run 8
                  (Byte_arrives <$>
                     [0x0B; 0x01; 0x26; 0x81;
                      calculateChecksum 0x0B 0x01 0x26 0x81])
                  serial8_receiver))))
  = 0x0B.
Proof.
  refine (proj1 (proj2 (proj2 (proj2
    (Packet_crosses_the_link 8 serial8_sender serial8_receiver
       0x0B 0x01 0x26 0x81
       [Transmitter_empty; Transmitter_empty; Transmitter_empty;
        Transmitter_empty; Transmitter_empty]
       (Byte_arrives <$>
          [0x0B; 0x01; 0x26; 0x81; calculateChecksum 0x0B 0x01 0x26 0x81])
       _ _ _ _ _ _ _ _ _ _ _ _ _ _ _ _))))).
  - is_a_byte.
  - is_a_byte.
  - is_a_byte.
  - is_a_byte.
  - fifo_wf.
  - reflexivity.
  - lia.
  - reflexivity.
  - reflexivity.
  - simpl. lia.
  - fifo_wf.
  - reflexivity.
  - reflexivity.
  - reflexivity.
  - reflexivity.
  - vm_compute. reflexivity.
Defined.

Lemma Flash_Init_stores_defaults_witness :
  exists a',
    Flash_Init 0x80000 8 (app8 (tower_start fifo8_empty fifo8_empty)
                               sector_erased)
    = Some (true, a') /\
    sector (app_flash a') = sector_defaults.
Proof.
  destruct (Flash_Init_stores_defaults
              (app8 (tower_start fifo8_empty fifo8_empty) sector_erased))
    as (a' & H1 & _ & _ & H2 & _).
  - flash8_ok.
  - intros j Hj.
    assert (j = 0 \/ j = 1 \/ j = 2 \/ j = 3 \/ j = 4 \/ j = 5 \/ j = 6
            \/ j = 7) as Hc by lia.
    repeat (destruct Hc as [-> | Hc]; [reflexivity|]). subst. reflexivity.
  - exists a'. split; [exact H1|exact H2].
Defined.

Lemma HandleFlashProgramByte_8_restores_defaults_witness :
  exists a',
    HandleFlashProgramByte 0x80000 8
      (app8 (tower_request fifo8_empty 0x07 8 0 0) [1; 2; 3; 4; 5; 6; 7; 8])
    = Some (true, a') /\
    sector (app_flash a') = sector_defaults.
Proof.
  destruct (HandleFlashProgramByte_8_restores_defaults
              (app8 (tower_request fifo8_empty 0x07 8 0 0)
                    [1; 2; 3; 4; 5; 6; 7; 8]))
    as (a' & H1 & H2 & _).
  - flash8_ok.
  - reflexivity.
  - exists a'. split; [exact H1|exact H2].
Defined.

Lemma HandleFlashProgramByte_then_HandleFlashReadByte_witness :
  exists a1,
    HandleFlashProgramByte 0x80000 8
      (app8 (tower_request fifo8_empty 0x07 3 0 0x55) sector_defaults)
    = Some (true, a1) /\
    _FB 0x80000 (0x80000 + 3) (app_flash a1) = 0x55.
Proof.
  destruct (HandleFlashProgramByte_then_HandleFlashReadByte 8
              (app8 (tower_request fifo8_empty 0x07 3 0 0x55) sector_defaults)
              3 0x55)
    as (a1 & H1 & _ & _ & H2 & _).
  - flash8_ok.
  - reflexivity.
  - lia.
  - reflexivity.
  - is_a_byte.
  - exists a1. split; [exact H1|]. exact (H2 3 ltac:(lia)).
Defined.

Lemma HandleTowerNumber_set_then_get_witness :
  exists a1,
    HandleTowerNumber 8 0x80000 8
      (app8 (tower_request fifo8_empty 0x0B 2 0x34 0x12) sector_defaults)
    = Some (true, a1) /\
    _FH 0x80000 (FLASH_TOWER_NUM_ADDR 0x80000) (app_flash a1) = 0x1234.
Proof.
  destruct (HandleTowerNumber_set_then_get 8
              (app8 (tower_request fifo8_empty 0x0B 2 0x34 0x12)
                    sector_defaults) 0x34 0x12)
    as (a1 & H1 & _ & _ & _ & H2 & _).
  - flash8_ok.
  - reflexivity.
  - reflexivity.
  - reflexivity.
  - is_a_byte.
  - reflexivity.
  - is_a_byte.
  - exists a1. split; [exact H1|exact H2].
Defined.

Lemma HandleTowerMode_set_then_get_witness :
  exists a1,
    HandleTowerMode 8 0x80000 8
      (app8 (tower_request fifo8_empty 0x0D 2 0x02 0x00) sector_defaults)
    = Some (true, a1) /\
    _FH 0x80000 (FLASH_TOWER_MODE_ADDR 0x80000) (app_flash a1) = 0x0002.
Proof.
  destruct (HandleTowerMode_set_then_get 8
              (app8 (tower_request fifo8_empty 0x0D 2 0x02 0x00)
                    sector_defaults) 0x02 0x00)
    as (a1 & H1 & _ & _ & _ & H2 & _).
  - flash8_ok.
  - reflexivity.
  - vm_compute. discriminate.
  - reflexivity.
  - reflexivity.
  - is_a_byte.
  - reflexivity.
  - is_a_byte.
  - exists a1. split; [exact H1|exact H2].
Defined.

Lemma HandleTowerMode_set_decides_at_number_witness :
  HandleTowerMode 8 0x80000 8
    (app8 (tower_request fifo8_empty 0x0D 2 0x02 0x00)
          [0xFF; 0x12; 0xFF; 0xFF; 0xFF; 0xFF; 0xFF; 0xFF])
  = Some (false,
          app8 (tower_request fifo8_empty 0x0D 2 0x02 0x00)
               [0xFF; 0x12; 0xFF; 0xFF; 0xFF; 0xFF; 0xFF; 0xFF]).
Proof.
  refine (proj1 (HandleTowerMode_set_decides_at_number 8
            (app8 (tower_request fifo8_empty 0x0D 2 0x02 0x00)
                  [0xFF; 0x12; 0xFF; 0xFF; 0xFF; 0xFF; 0xFF; 0xFF])
            _ _ _ _) _).
  - flash8_ok.
  - reflexivity.
  - reflexivity.
  - reflexivity.
  - vm_compute. discriminate.
Defined.

Lemma HandleTime_accepts_times_of_day_witness :
  exists a',
    HandleTime (app8 (tower_request fifo8_empty 0x0C 12 34 56) sector_defaults)
    = Some (true, a') /\
    RTC_TSR (app_rtc a') = 12 * 3600 + 34 * 60 + 56 - 1.
Proof.
  destruct (HandleTime_accepts_times_of_day
              (app8 (tower_request fifo8_empty 0x0C 12 34 56) sector_defaults)
              12 34 56) as [H _]; try reflexivity; try is_a_byte.
  destruct H as (a' & H1 & H2 & _); [lia|].
  exists a'. split; [exact H1|exact H2].
Defined.

Lemma HandleTowerStartup_reports_witness :
  exists r a',
    HandleTowerStartup 32 0x80000
      (app8 (tower_request fifo32_empty 0x04 0 0 0) sector_defaults)
    = Some (r, a') /\
    (r = true <-> 0 + 20 <= 32).
Proof.
  destruct (HandleTowerStartup_reports 32
              (app8 (tower_request fifo32_empty 0x04 0 0 0) sector_defaults))
    as (r & a' & H1 & _ & H2 & _).
  - fifo_wf.
  - exists r, a'. split; [exact H1|].
    exact (proj1 (H2 (conj eq_refl (conj eq_refl eq_refl)))).
Defined.

Lemma HandleSpecial_sends_version_witness :
  exists a',
    HandleSpecial 8
      (app8 (tower_request fifo8_empty 0x09 char_v char_x CR) sector_defaults)
    = Some (true, a').
Proof.
  destruct (HandleSpecial_sends_version 8
              (app8 (tower_request fifo8_empty 0x09 char_v char_x CR)
                    sector_defaults)) as [H _].
  - fifo_wf.
  - simpl. lia.
  - destruct H as (a' & H1 & _); [by repeat split|].
    exists a'. exact H1.
Defined.

Lemma HandlePacket_acknowledges_witness :
  exists F, FIFO_contents 8 F = [].
Proof.
  destruct (HandlePacket_acknowledges 8 0x80000 8 0x80007 0
              (app8 (tower_start (fifo8_request 0x8A 1 2 3) fifo8_empty)
                    sector_defaults)
              0x8A 1 2 3 [])
    as (F & H & _).
  - fifo_wf.
  - is_a_byte.
  - is_a_byte.
  - is_a_byte.
  - is_a_byte.
  - reflexivity.
  - reflexivity.
  - exists F. exact H.
Defined.

Lemma HandlePacket_acknowledges_unknown_command_witness :
  exists a5,
    HandlePacket_times 8 0x80000 8 0x80007 0 5
      (app8 (tower_start (fifo8_request 0x8A 1 2 3) fifo8_empty)
            sector_defaults)
    = Some (tt, a5) /\
    FIFO_contents 8 (TxFIFO (app_tower a5))
    = [0x8A; 1; 2; 3; calculateChecksum 0x8A 1 2 3].
Proof.
  destruct (HandlePacket_acknowledges_unknown_command 8 0x80000 8 0x80007 0
              (app8 (tower_start (fifo8_request 0x8A 1 2 3) fifo8_empty)
                    sector_defaults)
              0x8A 1 2 3 [])
    as (a5 & H1 & H2 & _).
  - fifo_wf.
  - is_a_byte.
  - is_a_byte.
  - is_a_byte.
  - is_a_byte.
  - reflexivity.
  - reflexivity.
  - vm_compute. intuition discriminate.
  - fifo_wf.
  - simpl. lia.
  - exists a5. split; [exact H1|exact H2].
Defined.

Lemma HandlePacket_sets_the_clock_witness :
  exists a5,
    HandlePacket_times 8 0x80000 8 0x80007 0 5
      (app8 (tower_start (fifo8_request 0x8C 12 34 56) fifo8_empty)
            sector_defaults)
    = Some (tt, a5) /\
    RTC_TSR (app_rtc a5) = 12 * 3600 + 34 * 60 + 56 - 1.
Proof.
  destruct (HandlePacket_sets_the_clock 8 0x80000 8 0x80007 0
              (app8 (tower_start (fifo8_request 0x8C 12 34 56) fifo8_empty)
                    sector_defaults)
              0x8C 12 34 56 [])
    as (a5 & H1 & _ & H2 & _).
  - fifo_wf.
  - is_a_byte.
  - is_a_byte.
  - is_a_byte.
  - is_a_byte.
  - reflexivity.
  - reflexivity.
  - reflexivity.
  - fifo_wf.
  - simpl. lia.
  - exists a5. split; [exact H1|]. exact (proj1 (H2 ltac:(lia))).
Defined.

Lemma dispatch_keeps_the_request_witness :
  exists r a',
    dispatch 8 0x80000 8 0x80007 true
      (app8 (tower_request fifo8_empty 0x0C 12 34 56) sector_defaults)
    = Some (r, a') /\
    Packet_Parameter1 (app_tower a') = 12.
Proof.
  assert (H : dispatch 8 0x80000 8 0x80007 true
                (app8 (tower_request fifo8_empty 0x0C 12 34 56)
                      sector_defaults)
              = Some (true,
                      app8 (tower_request fifo8_empty 0x0C 12 34 56)
                           sector_defaults)) by reflexivity.
  do 2 eexists. split; [exact H|].
  exact (proj1 (proj2 (proj2 (dispatch_keeps_the_request 8 0x80000 8 0x80007
                                true true _ _ H)))).
Defined.

Lemma PrintFlash_dumps_the_sector_witness :
  exists a',
    PrintFlash 64 0x80000 0x80007
      (app8 (tower_request fifo64_empty 0x55 0 0 0) sector_defaults)
    = Some (tt, a') /\
    app_flash a' = flash8 sector_defaults.
Proof.
  destruct (PrintFlash_dumps_the_sector 64 0x80000 0x80007
              (app8 (tower_request fifo64_empty 0x55 0 0 0) sector_defaults) 8)
    as (a' & H1 & _ & H2).
  - lia.
  - lia.
  - reflexivity.
  - reflexivity.
  - fifo_wf.
  - simpl. lia.
  - exists a'. split; [exact H1|exact H2].
Defined.

Lemma Flash_waits_for_the_controller_witness :
  Flash_Erase 0x80000 8
    (mkFlash sector_defaults 0 (replicate 12 0) (mkTFCCOB 0 (replicate 8 0)))
  = None.
Proof.
  exact (proj1 (Flash_waits_for_the_controller 0x80000 8 W8 0x80000 0
                  (mkFlash sector_defaults 0 (replicate 12 0)
                           (mkTFCCOB 0 (replicate 8 0)))
                  eq_refl)).
Defined.

Lemma UART_Init_leaves_port_ready_witness :
  exists p',
    Packet_Init 115200 50000000 port_reset = Some (true, p') /\
    FIFO_contents 8 (RxFIFO (port_tower p')) = [].
Proof.
  destruct (UART_Init_leaves_port_ready 8 115200 50000000 port_reset)
    as (p' & H1 & _ & _ & H2 & _).
  - lia.
  - reflexivity.
  - reflexivity.
  - vm_compute. discriminate.
  - exists p'. split; [exact H1|exact H2].
Defined.

Lemma UART_Init_programs_divisor_witness :
  exists p',
    UART_Init 115200 50000000 port_reset = Some (true, p') /\
    Z.land (UART2_BDH p') 0x1F * 256 + UART2_BDL p' = 27 /\
    Z.land (UART2_C4 p') 0x1F = 4.
Proof.
  destruct (UART_Init_programs_divisor 115200 50000000 port_reset)
    as (p' & H1 & H2 & H3 & H4).
  - split; reflexivity.
  - split; [discriminate|reflexivity].
  - reflexivity.
  - reflexivity.
  - exists p'. split; [exact H1|]. cbv zeta in H2, H4.
    change (50000000 / (16 * 115200)) with 27 in H2.
    change (2 * 50000000 / 115200) with 868 in H4.
    split; [exact H2|]. lia.
Defined.
